(** * fairV: bundle valuation and price tables

    A shallow embedding of the executable part of the repository,
    [src/types/tcg.types.ts] and [src/types/bundle.types.ts], together
    with the properties the specification states about it.

    Conventions of the embedding.

    - A JavaScript [number] is an IEEE 754 binary64 value: Rocq's
      primitive [float], whose operations are the hardware ones and
      whose specification is [SpecFloat] (round to nearest, ties to
      even; one NaN).  A decimal literal such as [0.1] denotes the
      nearest binary64 value, as it does in the source.
    - A JavaScript string is a sequence of UTF-16 code units.
    - An optional property [p?: T] is an [option T]; [x ?? d] is
      [nullish x d].
    - [throw] is the [Throw] completion; a function that cannot throw
      returns its value directly.
    - [new Date()] reads the clock: the current time is an explicit
      argument [now] of the one function that does so.
    - Objects are values; where a property speaks of in-place mutation
      the bundle objects live in a store of locations ([Store]).
    - Where a property speaks of what a call does to its arguments and
      of what it depends on, the functions are calls on a heap of
      objects ([Heap]): they receive references, allocate, write and
      read the clock as the source does. *)

From Stdlib Require Import ZArith NArith List String Ascii Bool Floats.
From Stdlib Require Import Permutation Sorted Lia.
From stdpp Require Import gmap.

Set Warnings "-inexact-float".

(** ** JavaScript strings *)

Module JSString.

(** One UTF-16 code unit. *)
Definition codeUnit := N.

Definition t := list codeUnit.

(** The characters [String.prototype.trim] strips: ECMAScript's
    WhiteSpace (TAB, VT, FF, ZWNBSP and the Unicode space separators)
    and LineTerminator (LF, CR, LS, PS). *)
Definition isWhiteSpace (c : codeUnit) : bool :=
  ((9 <=? c) && (c <=? 13) || (c =? 32) || (c =? 160) || (c =? 5760)
   || (8192 <=? c) && (c <=? 8202) || (c =? 8232) || (c =? 8233)
   || (c =? 8239) || (c =? 8287) || (c =? 12288) || (c =? 65279))%N.

Fixpoint trimStart (s : t) : t :=
  match s with
  | [] => []
  | c :: s' => if isWhiteSpace c then trimStart s' else s
  end.

Definition trimEnd (s : t) : t := rev (trimStart (rev s)).

Definition trim (s : t) : t := trimEnd (trimStart s).

(** [===] on strings. *)
Fixpoint eqb (a b : t) : bool :=
  match a, b with
  | [], [] => true
  | x :: a', y :: b' => (x =? y)%N && eqb a' b'
  | _, _ => false
  end.

(** A string is falsy exactly when it is empty. *)
Definition truthy (s : t) : bool :=
  match s with [] => false | _ :: _ => true end.

(** An ASCII string literal of the source. *)
Definition lit (s : string) : t := map N_of_ascii (list_ascii_of_string s).

End JSString.

Definition jsstring : Type := JSString.t.

(** ** Numbers, optional values, completions, time *)

Definition number : Type := float.

Bind Scope float_scope with number.

(** [x ?? d] *)
Definition nullish {A : Type} (x : option A) (d : A) : A :=
  match x with
  | Some v => v
  | None => d
  end.

(** [x > y] is [y < x] in IEEE 754 (both false on NaN). *)
Definition gtb (x y : number) : bool := (y <? x)%float.

(** A [Date], as its time value (milliseconds since the epoch). *)
Definition Date := Z.

Inductive exn : Type :=
| Error (message : jsstring).

Inductive completion (A : Type) : Type :=
| Normal (value : A)
| Throw (e : exn).

Arguments Normal {A} value.
Arguments Throw {A} e.

(** ** src/types/tcg.types.ts *)

Module Tcg.

Inductive TCGType : Type :=
| Pokemon
| YuGiOh
| MagicTheGathering
| SportsCard
| Other.

Inductive ConditionRating : Type :=
| NearMint
| LightlyPlayed
| ModeratelyPlayed
| HeavilyPlayed
| Damaged.

Record TCGCard : Type := {
  id : jsstring;
  cardName : jsstring;
  setName : option jsstring;
  cardNumber : option jsstring;
  rarity : option jsstring;
  tcgType : option TCGType;
  printVariant : option jsstring;
  language : jsstring;
  trendingPrice : option number;
  averagePrice : option number;
  lowPrice : option number;
  priceLastUpdated : option Date;
  priceSource : option jsstring;
  conditionRating : option ConditionRating;
  conditionDescription : option jsstring;
  centeringScore : option jsstring;
  cornerCondition : option jsstring;
  edgeCondition : option jsstring;
  surfaceCondition : option jsstring;
  gradingPotential : option jsstring;
  authenticityScore : option number;
  authenticityNotes : option jsstring;
  scannedAt : Date;
  imageUrl : option jsstring;
  userNotes : option jsstring
}.

Record PriceTableRow : Type := {
  percentage : number;
  trendingValue : number;
  averageValue : number;
  lowValue : number
}.

Definition percentages : list number :=
  [100; 90; 80; 70; 60; 50; 40; 30; 20; 10]%float.

Definition generatePriceTable (card : TCGCard) : list PriceTableRow :=
  map (fun percentage =>
         let multiplier := (percentage / 100)%float in
         {| percentage := percentage;
            trendingValue := (nullish (trendingPrice card) 0%float * multiplier)%float;
            averageValue := (nullish (averagePrice card) 0%float * multiplier)%float;
            lowValue := (nullish (lowPrice card) 0%float * multiplier)%float |})
      percentages.

(** [s?.trim() ?? ''] *)
Definition trimOrEmpty (s : option jsstring) : jsstring :=
  nullish (option_map JSString.trim s) [].

Definition getCardIdentifier (card : TCGCard) : jsstring :=
  let name := JSString.trim (cardName card) in
  let set := trimOrEmpty (setName card) in
  let number := trimOrEmpty (cardNumber card) in
  name ++ JSString.lit "|" ++ set ++ JSString.lit "|" ++ number.

End Tcg.

(** ** src/types/bundle.types.ts *)

Module Bundle.

Import Tcg.

Inductive PricingStrategy : Type :=
| trending
| average
| low.

Record CardBundle : Type := {
  id : jsstring;
  name : jsstring;
  cardIDs : list jsstring;
  pricingStrategy : PricingStrategy;
  percentageMultiplier : number;
  calculatedTotal : number;
  notes : option jsstring;
  createdAt : Date;
  lastModified : Date
}.

(** The two counts are array lengths and loop counters bounded by
    them: integers below 2^32, which binary64 represents exactly. *)
Record BundleStatistics : Type := {
  trendingTotal : number;
  averageTotal : number;
  lowTotal : number;
  selectedTotal : number;
  cardCount : nat;
  validCardCount : nat
}.

Record BundleValidation : Type := {
  isValid : bool;
  errors : list jsstring
}.

(** The [default] branch of the source's [switch] is unreachable for
    a value of the closed type. *)
Definition getPriceForStrategy (card : TCGCard) (strategy : PricingStrategy)
  : option number :=
  match strategy with
  | trending => trendingPrice card
  | average => averagePrice card
  | low => lowPrice card
  end.

Definition multiplierError : exn :=
  Error (JSString.lit "Multiplier must be between 0.1 and 1.0 (10% to 100%)").

Definition calculateBundleTotal
  (cards : list TCGCard) (strategy : PricingStrategy) (multiplier : number)
  : completion number :=
  if (multiplier <? 0.1)%float || gtb multiplier 1.0%float then
    Throw multiplierError
  else
    let subtotal :=
      fold_left
        (fun sum card =>
           let price := getPriceForStrategy card strategy in
           (sum + nullish price 0%float)%float)
        cards 0%float in
    Normal (subtotal * multiplier)%float.

(** [ids.includes(x)] *)
Definition includes (ids : list jsstring) (x : jsstring) : bool :=
  existsb (fun y => JSString.eqb y x) ids.

(** [cards.filter(card => bundle.cardIDs.includes(card.id))] *)
Definition bundleCardsOf (bundle : CardBundle) (cards : list TCGCard)
  : list TCGCard :=
  List.filter (fun card => includes (cardIDs bundle) (Tcg.id card)) cards.

(** The four [let] variables of [calculateBundleStatistics]. *)
Record totals : Type := {
  t_trending : number;
  t_average : number;
  t_low : number;
  t_valid : nat
}.

(** One iteration of the [for ... of] loop. *)
Definition statisticsStep (acc : totals) (card : TCGCard) : totals :=
  let acc :=
    match trendingPrice card with
    | Some p => {| t_trending := (t_trending acc + p)%float;
                   t_average := t_average acc;
                   t_low := t_low acc;
                   t_valid := S (t_valid acc) |}
    | None => acc
    end in
  let acc :=
    match averagePrice card with
    | Some p => {| t_trending := t_trending acc;
                   t_average := (t_average acc + p)%float;
                   t_low := t_low acc;
                   t_valid := t_valid acc |}
    | None => acc
    end in
  match lowPrice card with
  | Some p => {| t_trending := t_trending acc;
                 t_average := t_average acc;
                 t_low := (t_low acc + p)%float;
                 t_valid := t_valid acc |}
  | None => acc
  end.

Definition calculateBundleStatistics
  (bundle : CardBundle) (cards : list TCGCard) : BundleStatistics :=
  let bundleCards := bundleCardsOf bundle cards in
  let acc :=
    fold_left statisticsStep bundleCards
      {| t_trending := 0%float; t_average := 0%float; t_low := 0%float;
         t_valid := 0%nat |} in
  {| trendingTotal := t_trending acc;
     averageTotal := t_average acc;
     lowTotal := t_low acc;
     selectedTotal := calculatedTotal bundle;
     cardCount := length (cardIDs bundle);
     validCardCount := t_valid acc |}.

(** [now] is the value of [new Date()] at the call. *)
Definition updateBundleTotal
  (bundle : CardBundle) (cards : list TCGCard) (now : Date)
  : completion CardBundle :=
  let bundleCards := bundleCardsOf bundle cards in
  match calculateBundleTotal bundleCards
          (pricingStrategy bundle) (percentageMultiplier bundle) with
  | Throw e => Throw e
  | Normal newTotal =>
      Normal {| id := id bundle;
                name := name bundle;
                cardIDs := cardIDs bundle;
                pricingStrategy := pricingStrategy bundle;
                percentageMultiplier := percentageMultiplier bundle;
                calculatedTotal := newTotal;
                notes := notes bundle;
                createdAt := createdAt bundle;
                lastModified := now |}
  end.

Definition nameRequired : jsstring :=
  JSString.lit "Bundle name is required".

Definition cardRequired : jsstring :=
  JSString.lit "Bundle must contain at least one card".

Definition percentageRange : jsstring :=
  JSString.lit "Percentage must be between 10% and 100%".

(** [errors.push(m)] appends at the end. *)
Definition push (errors : list jsstring) (m : jsstring) : list jsstring :=
  errors ++ [m].

Definition validateBundle (bundle : CardBundle) : BundleValidation :=
  let errors := [] in
  let errors :=
    if negb (JSString.truthy (JSString.trim (name bundle)))
    then push errors nameRequired else errors in
  let errors :=
    if (length (cardIDs bundle) =? 0)%nat
    then push errors cardRequired else errors in
  let errors :=
    if (percentageMultiplier bundle <? 0.1)%float
       || gtb (percentageMultiplier bundle) 1.0%float
    then push errors percentageRange else errors in
  {| isValid := (length errors =? 0)%nat;
     errors := errors |}.

End Bundle.

(** ** Objects in a store

    A caller holds a bundle as a reference to an object.  The object
    literal that [updateBundleTotal] returns is a new object; the
    function has no assignment to a property of an existing one. *)

Module Store.

Definition loc := positive.

Definition store := gmap loc Bundle.CardBundle.

(** Evaluating an object literal: the object is placed at a location
    that is not in use. *)
Definition alloc (σ : store) (b : Bundle.CardBundle) : store * loc :=
  let l := fresh (dom σ) in (<[l := b]> σ, l).

(** The call [updateBundleTotal(bundle, cards)] at time [now], where
    [bundle] evaluates to the reference [l].  [None] only for a
    dangling reference, which JavaScript does not have. *)
Definition updateBundleTotal
  (σ : store) (l : loc) (cards : list Tcg.TCGCard) (now : Date)
  : option (store * completion loc) :=
  match σ !! l with
  | None => None
  | Some bundle =>
      match Bundle.updateBundleTotal bundle cards now with
      | Throw e => Some (σ, Throw e)
      | Normal updated =>
          let '(σ', l') := alloc σ updated in Some (σ', Normal l')
      end
  end.

End Store.

(** ** lib/utils *)

Module Utils.

Definition isNegZero (x : number) : bool :=
  match classify x with
  | NZero => true
  | _ => false
  end.

Definition isPosZero (x : number) : bool :=
  match classify x with
  | PZero => true
  | _ => false
  end.

(** [Math.max(a, b)], as ECMAScript computes it: NaN if an argument is
    NaN; otherwise the running maximum starts at [a] and is replaced
    by [b] when [b] is greater, or when [b] is [+0] and it is [-0]. *)
Definition Math_max (a b : number) : number :=
  if is_nan a || is_nan b then nan
  else if (a <? b)%float then b
  else if isPosZero b && isNegZero a then b
  else a.

(** [Math.min(a, b)]: the same with less and with [-0] below [+0]. *)
Definition Math_min (a b : number) : number :=
  if is_nan a || is_nan b then nan
  else if (b <? a)%float then b
  else if isNegZero b && isPosZero a then b
  else a.

Definition clamp (value min max : number) : number :=
  Math_min (Math_max value min) max.

(** [oldValue === 0] is IEEE equality: true of [+0] and of [-0]. *)
Definition calculatePercentageChange (oldValue newValue : number) : number :=
  if (oldValue =? 0)%float then 0%float
  else (((newValue - oldValue) / oldValue) * 100)%float.

(** [s.slice(start, end)] for integer indices: a negative index counts
    from the end of the string, and both are brought into
    [0 .. s.length]. *)
Definition slice (s : jsstring) (start finish : Z) : jsstring :=
  let len := Z.of_nat (length s) in
  let from := if (start <? 0)%Z then Z.max (len + start) 0 else Z.min start len in
  let to := if (finish <? 0)%Z then Z.max (len + finish) 0 else Z.min finish len in
  firstn (Z.to_nat (Z.max (to - from) 0)) (skipn (Z.to_nat from) s).

(** [maxLength] is an integer, as a count of code units is. *)
Definition truncate (text : jsstring) (maxLength : Z) : jsstring :=
  if (Z.of_nat (length text) <=? maxLength)%Z then text
  else slice text 0 (maxLength - 3) ++ JSString.lit "...".

End Utils.

(** ** Objects on a heap

    The functions of the two modules once more, as calls that receive
    references: cards, bundles, arrays and dates are objects on a
    heap, every object or array literal and every [new Date()]
    allocates, [errors.push] writes, and [new Date()] reads the clock.
    A call is run at a clock value on a heap; it returns or throws and
    leaves a heap, or it is stuck ([None]) where the source would not
    type-check (a property of the wrong type, a reference that is not
    an array).

    The array methods [reduce], [filter], [map] and the [for ... of]
    loop visit the elements the array has when they start; no callback
    writes to it.  A new object gets its location when its literal is
    complete; which location it gets is not observable. *)

Module Heap.

Definition loc := positive.

Definition fieldName := string.

Bind Scope string_scope with fieldName.

Inductive val : Type :=
| VUndefined
| VBoolean (b : bool)
| VNumber (n : number)
| VString (s : jsstring)
| VRef (l : loc).

Inductive object : Type :=
| Obj (properties : gmap string val)
| Arr (elements : list val)
| DateObj (time : Date).

Definition heap := gmap loc object.

(** [o.f]: [undefined] for a property the object does not have. *)
Definition property (properties : gmap string val) (f : fieldName) : val :=
  default VUndefined (properties !! f).

(** [{ ...o, f: v }] *)
Definition setProperty (f : fieldName) (v : val) (properties : gmap string val)
  : gmap string val :=
  <[f := v]> properties.

Definition M (A : Type) : Type :=
  Date -> heap -> option (completion A * heap).

Definition ret {A : Type} (a : A) : M A :=
  fun _ h => Some (Normal a, h).

Definition throw {A : Type} (e : exn) : M A :=
  fun _ h => Some (Throw e, h).

Definition stuck {A : Type} : M A :=
  fun _ _ => None.

Definition bind {A B : Type} (m : M A) (k : A -> M B) : M B :=
  fun now h =>
    match m now h with
    | Some (Normal a, h') => k a now h'
    | Some (Throw e, h') => Some (Throw e, h')
    | None => None
    end.

Notation "'let*' x ':=' m 'in' k" := (bind m (fun x => k))
  (at level 10, x name, m at level 100, k at level 200).

(** A literal: the new object is placed at a location not in use. *)
Definition alloc (o : object) : M loc :=
  fun _ h => let l := fresh (dom h) in Some (Normal l, <[l := o]> h).

(** [new Date()] *)
Definition newDate : M loc :=
  fun now h => alloc (DateObj now) now h.

Definition getProperties (l : loc) : M (gmap string val) :=
  fun _ h =>
    match h !! l with
    | Some (Obj properties) => Some (Normal properties, h)
    | _ => None
    end.

Definition getField (l : loc) (f : fieldName) : M val :=
  let* properties := getProperties l in ret (property properties f).

Definition getElements (l : loc) : M (list val) :=
  fun _ h =>
    match h !! l with
    | Some (Arr elements) => Some (Normal elements, h)
    | _ => None
    end.

(** [a.push(v)] writes to the array [a]. *)
Definition push (l : loc) (v : val) : M unit :=
  fun _ h =>
    match h !! l with
    | Some (Arr elements) => Some (Normal tt, <[l := Arr (elements ++ [v])]> h)
    | _ => None
    end.

Definition asRef (v : val) : M loc :=
  match v with
  | VRef l => ret l
  | _ => stuck
  end.

Definition asString (v : val) : M jsstring :=
  match v with
  | VString s => ret s
  | _ => stuck
  end.

Definition asNumber (v : val) : M number :=
  match v with
  | VNumber n => ret n
  | _ => stuck
  end.

(** A value of type [number | undefined]. *)
Definition asOptionalNumber (v : val) : M (option number) :=
  match v with
  | VNumber n => ret (Some n)
  | VUndefined => ret None
  | _ => stuck
  end.

(** A value of type [string | undefined]. *)
Definition asOptionalString (v : val) : M (option jsstring) :=
  match v with
  | VString s => ret (Some s)
  | VUndefined => ret None
  | _ => stuck
  end.

(** [a.reduce(f, init)] and the [for ... of] loop over [a]'s elements. *)
Fixpoint reduce {A : Type} (f : A -> val -> M A) (elements : list val) (acc : A)
  : M A :=
  match elements with
  | [] => ret acc
  | v :: rest => let* acc' := f acc v in reduce f rest acc'
  end.

(** The elements [a.filter(p)] keeps. *)
Fixpoint filterElements (p : val -> M bool) (elements : list val)
  : M (list val) :=
  match elements with
  | [] => ret []
  | v :: rest =>
      let* keep := p v in
      let* kept := filterElements p rest in
      ret (if keep then v :: kept else kept)
  end.

(** The elements of [a.map(f)]. *)
Fixpoint mapElements (f : val -> M val) (elements : list val) : M (list val) :=
  match elements with
  | [] => ret []
  | v :: rest =>
      let* w := f v in
      let* ws := mapElements f rest in
      ret (w :: ws)
  end.

(** SameValueZero, the comparison of [includes]: references by
    identity, numbers with NaN equal to itself. *)
Definition sameValueZero (a b : val) : bool :=
  match a, b with
  | VUndefined, VUndefined => true
  | VBoolean x, VBoolean y => Bool.eqb x y
  | VNumber x, VNumber y => (x =? y)%float || (is_nan x && is_nan y)
  | VString x, VString y => JSString.eqb x y
  | VRef x, VRef y => (x =? y)%positive
  | _, _ => false
  end.

(** [elements.includes(x)] *)
Definition includes (elements : list val) (x : val) : bool :=
  existsb (fun y => sameValueZero y x) elements.

(** The number an array length or a counter is. *)
Definition ofNat (n : nat) : number :=
  SF2Prim (binary_normalize prec emax (Z.of_nat n) 0 false).

(** *** src/types/bundle.types.ts *)

Definition getPriceForStrategy (card : loc) (strategy : jsstring) : M val :=
  if JSString.eqb strategy (JSString.lit "trending") then
    getField card "trendingPrice"
  else if JSString.eqb strategy (JSString.lit "average") then
    getField card "averagePrice"
  else if JSString.eqb strategy (JSString.lit "low") then
    getField card "lowPrice"
  else
    ret VUndefined.

Definition calculateBundleTotal
  (cards : loc) (strategy : jsstring) (multiplier : number) : M number :=
  if (multiplier <? 0.1)%float || gtb multiplier 1.0%float then
    throw Bundle.multiplierError
  else
    let* elements := getElements cards in
    let* subtotal :=
      reduce
        (fun sum card =>
           let* card := asRef card in
           let* price := getPriceForStrategy card strategy in
           let* price := asOptionalNumber price in
           ret (sum + nullish price 0%float)%float)
        elements 0%float in
    ret (subtotal * multiplier)%float.

(** [cards.filter(card => bundle.cardIDs.includes(card.id))] *)
Definition bundleCardsOf (bundle cards : loc) : M loc :=
  let* elements := getElements cards in
  let* kept :=
    filterElements
      (fun card =>
         let* card := asRef card in
         let* cardIDs := getField bundle "cardIDs" in
         let* cardIDs := asRef cardIDs in
         let* cardIDs := getElements cardIDs in
         let* id := getField card "id" in
         ret (includes cardIDs id))
      elements in
  alloc (Arr kept).

(** [if (card.p !== undefined) { total += card.p; }] *)
Definition addField (card : loc) (f : fieldName) (total : number) : M (option number) :=
  let* p := getField card f in
  match p with
  | VUndefined => ret None
  | _ =>
      let* p := getField card f in
      let* p := asNumber p in
      ret (Some (total + p)%float)
  end.

Definition statisticsStep (acc : Bundle.totals) (card : val) : M Bundle.totals :=
  let* card := asRef card in
  let* trending := addField card "trendingPrice" (Bundle.t_trending acc) in
  let acc :=
    match trending with
    | Some t => {| Bundle.t_trending := t;
                   Bundle.t_average := Bundle.t_average acc;
                   Bundle.t_low := Bundle.t_low acc;
                   Bundle.t_valid := S (Bundle.t_valid acc) |}
    | None => acc
    end in
  let* average := addField card "averagePrice" (Bundle.t_average acc) in
  let acc :=
    match average with
    | Some t => {| Bundle.t_trending := Bundle.t_trending acc;
                   Bundle.t_average := t;
                   Bundle.t_low := Bundle.t_low acc;
                   Bundle.t_valid := Bundle.t_valid acc |}
    | None => acc
    end in
  let* low := addField card "lowPrice" (Bundle.t_low acc) in
  ret match low with
      | Some t => {| Bundle.t_trending := Bundle.t_trending acc;
                     Bundle.t_average := Bundle.t_average acc;
                     Bundle.t_low := t;
                     Bundle.t_valid := Bundle.t_valid acc |}
      | None => acc
      end.

Definition calculateBundleStatistics (bundle cards : loc) : M loc :=
  let* bundleCards := bundleCardsOf bundle cards in
  let* elements := getElements bundleCards in
  let* acc :=
    reduce statisticsStep elements
      {| Bundle.t_trending := 0%float; Bundle.t_average := 0%float;
         Bundle.t_low := 0%float; Bundle.t_valid := 0%nat |} in
  let* selectedTotal := getField bundle "calculatedTotal" in
  let* cardIDs := getField bundle "cardIDs" in
  let* cardIDs := asRef cardIDs in
  let* cardIDs := getElements cardIDs in
  alloc (Obj (setProperty "trendingTotal" (VNumber (Bundle.t_trending acc))
             (setProperty "averageTotal" (VNumber (Bundle.t_average acc))
             (setProperty "lowTotal" (VNumber (Bundle.t_low acc))
             (setProperty "selectedTotal" selectedTotal
             (setProperty "cardCount" (VNumber (ofNat (length cardIDs)))
             (setProperty "validCardCount"
                (VNumber (ofNat (Bundle.t_valid acc))) ∅))))))).

Definition updateBundleTotal (bundle cards : loc) : M loc :=
  let* bundleCards := bundleCardsOf bundle cards in
  let* strategy := getField bundle "pricingStrategy" in
  let* strategy := asString strategy in
  let* multiplier := getField bundle "percentageMultiplier" in
  let* multiplier := asNumber multiplier in
  let* newTotal := calculateBundleTotal bundleCards strategy multiplier in
  let* properties := getProperties bundle in
  let* date := newDate in
  alloc (Obj (setProperty "lastModified" (VRef date)
             (setProperty "calculatedTotal" (VNumber newTotal) properties))).

(** [if (test) { errors.push(message); }] *)
Definition pushIf (test : bool) (errors : loc) (message : jsstring) : M unit :=
  if test then push errors (VString message) else ret tt.

Definition validateBundle (bundle : loc) : M loc :=
  let* errors := alloc (Arr []) in
  let* name := getField bundle "name" in
  let* name := asString name in
  let* _ := pushIf (negb (JSString.truthy (JSString.trim name))) errors
    Bundle.nameRequired in
  let* cardIDs := getField bundle "cardIDs" in
  let* cardIDs := asRef cardIDs in
  let* cardIDs := getElements cardIDs in
  let* _ := pushIf (length cardIDs =? 0)%nat errors Bundle.cardRequired in
  let* below := getField bundle "percentageMultiplier" in
  let* below := asNumber below in
  let* above := getField bundle "percentageMultiplier" in
  let* above := asNumber above in
  let* _ := pushIf ((below <? 0.1)%float || gtb above 1.0%float) errors
    Bundle.percentageRange in
  let* pushed := getElements errors in
  alloc (Obj (setProperty "isValid" (VBoolean (length pushed =? 0)%nat)
             (setProperty "errors" (VRef errors) ∅))).

(** *** src/types/tcg.types.ts *)

(** [(card.f ?? 0) * multiplier] *)
Definition scaled (card : loc) (f : fieldName) (multiplier : number) : M val :=
  let* p := getField card f in
  let* p := asOptionalNumber p in
  ret (VNumber (nullish p 0%float * multiplier)%float).

Definition generatePriceTable (card : loc) : M loc :=
  let* percentages := alloc (Arr (map VNumber Tcg.percentages)) in
  let* elements := getElements percentages in
  let* rows :=
    mapElements
      (fun percentage =>
         let* percentage := asNumber percentage in
         let multiplier := (percentage / 100)%float in
         let* trendingValue := scaled card "trendingPrice" multiplier in
         let* averageValue := scaled card "averagePrice" multiplier in
         let* lowValue := scaled card "lowPrice" multiplier in
         let* row := alloc (Obj (setProperty "percentage" (VNumber percentage)
                           (setProperty "trendingValue" trendingValue
                           (setProperty "averageValue" averageValue
                           (setProperty "lowValue" lowValue ∅))))) in
         ret (VRef row))
      elements in
  alloc (Arr rows).

(** [card.f?.trim() ?? ''] *)
Definition trimmedOrEmpty (card : loc) (f : fieldName) : M jsstring :=
  let* s := getField card f in
  let* s := asOptionalString s in
  ret (Tcg.trimOrEmpty s).

Definition getCardIdentifier (card : loc) : M jsstring :=
  let* name := getField card "cardName" in
  let* name := asString name in
  let name := JSString.trim name in
  let* set := trimmedOrEmpty card "setName" in
  let* number := trimmedOrEmpty card "cardNumber" in
  ret (name ++ JSString.lit "|" ++ set ++ JSString.lit "|" ++ number).

End Heap.

(** ** What the specification calls the multiplier's range *)

(** [m] lies in [0.1, 1.0]. *)
Definition inRange (m : number) : Prop :=
  (0.1 <=? m)%float = true /\ (m <=? 1.0)%float = true.

(** [m] is strictly below 0.1 or strictly above 1.0. *)
Definition outOfRange (m : number) : Prop :=
  (m <? 0.1)%float = true \/ (1.0 <? m)%float = true.


(** The effect of [0 + x] on the specification of [x]: [x] itself,
    but for [-0], which becomes [+0]. *)
Definition SFplus0 (x : spec_float) : spec_float :=
  match x with
  | S754_zero _ => S754_zero false
  | _ => x
  end.

(** The price tier the strategy selects, 0 for a card that lacks it. *)
Definition tierValue (strategy : Bundle.PricingStrategy) (card : Tcg.TCGCard)
  : number :=
  nullish (Bundle.getPriceForStrategy card strategy) 0%float.

(** The binary64 sum of a sequence, accumulated from 0 in sequence
    order. *)
Definition sumLeft (xs : list number) : number :=
  fold_left PrimFloat.add xs 0%float.

(** The sum over the cards of the selected tier. *)
Definition tierSum (strategy : Bundle.PricingStrategy) (cards : list Tcg.TCGCard)
  : number :=
  sumLeft (map (tierValue strategy) cards).

(** The cards of the list whose id is one of the bundle's: the list's
    order and repetitions are kept, [cardIDs] is only asked whether it
    contains the id. *)
Definition membersOf (bundle : Bundle.CardBundle) (cards : list Tcg.TCGCard)
  : list Tcg.TCGCard :=
  filter (fun card => Tcg.id card ∈ Bundle.cardIDs bundle) cards.

Definition hasTrending (card : Tcg.TCGCard) : bool :=
  match Tcg.trendingPrice card with
  | Some _ => true
  | None => false
  end.

(** [if (p !== undefined) { t += p; }] *)
Definition addPresent (t : number) (p : option number) : number :=
  match p with
  | Some v => (t + v)%float
  | None => t
  end.

(** Every value of a price-table row is 0. *)
Definition zeroRow (row : Tcg.PriceTableRow) : Prop :=
  Tcg.trendingValue row = 0%float
  /\ Tcg.averageValue row = 0%float
  /\ Tcg.lowValue row = 0%float.

(** The row holds each tier of the card, 0 when absent, times
    [percentage / 100]. *)
Definition scaledRow (card : Tcg.TCGCard) (row : Tcg.PriceTableRow) : Prop :=
  Tcg.trendingValue row
  = (nullish (Tcg.trendingPrice card) 0 * (Tcg.percentage row / 100))%float
  /\ Tcg.averageValue row
    = (nullish (Tcg.averagePrice card) 0 * (Tcg.percentage row / 100))%float
  /\ Tcg.lowValue row
    = (nullish (Tcg.lowPrice card) 0 * (Tcg.percentage row / 100))%float.

(** The code unit of ["|"]. *)
Definition bar : JSString.codeUnit := 124%N.

(** The statistics total of a strategy. *)
Definition strategyTotal
  (strategy : Bundle.PricingStrategy) (stats : Bundle.BundleStatistics)
  : number :=
  match strategy with
  | Bundle.trending => Bundle.trendingTotal stats
  | Bundle.average => Bundle.averageTotal stats
  | Bundle.low => Bundle.lowTotal stats
  end.

(** The value a price-table row shows for a strategy. *)
Definition rowValue
  (strategy : Bundle.PricingStrategy) (row : Tcg.PriceTableRow) : number :=
  match strategy with
  | Bundle.trending => Tcg.trendingValue row
  | Bundle.average => Tcg.averageValue row
  | Bundle.low => Tcg.lowValue row
  end.

(** A string of whitespace only. *)
Definition blank (s : jsstring) : Prop :=
  Forall (fun c => JSString.isWhiteSpace c = true) s.

(** The comparison of two numbers, as [SpecFloat] defines it: [None]
    when one of them is NaN. *)
Definition cmp (a b : number) : option comparison :=
  SFcompare (Prim2SF a) (Prim2SF b).

(** A key that orders the numbers as [SFcompare] does: the sign class
    first, then exponent and mantissa (both negated for a negative
    number).  The two zeros share a key. *)
Definition SFkey (x : spec_float) : Z * Z * Z :=
  match x with
  | S754_zero _ => (0, 0, 0)%Z
  | S754_nan => (0, 0, 0)%Z
  | S754_infinity false => (2, 0, 0)%Z
  | S754_infinity true => (-2, 0, 0)%Z
  | S754_finite false m e => (1, e, Z.pos m)%Z
  | S754_finite true m e => (-1, - e, Z.neg m)%Z
  end.

(** The lexicographic order of the keys. *)
Definition keyLt (a b : Z * Z * Z) : Prop :=
  (a.1.1 < b.1.1
   \/ a.1.1 = b.1.1 /\ (a.1.2 < b.1.2 \/ a.1.2 = b.1.2 /\ a.2 < b.2))%Z.

(** A zero or a finite number: neither NaN nor an infinity. *)
Definition SFordinary (x : spec_float) : Prop :=
  match x with
  | S754_zero _ | S754_finite _ _ _ => True
  | _ => False
  end.

(** A number that is [+0], positive and finite, or [+Infinity]. *)
Definition SFnonneg (x : spec_float) : Prop :=
  match x with
  | S754_zero false | S754_finite false _ _ | S754_infinity false => True
  | _ => False
  end.

(** A number that [0 <= x] holds of: as above, or [-0]. *)
Definition SFge0 (x : spec_float) : Prop :=
  match x with
  | S754_zero _ | S754_finite false _ _ | S754_infinity false => True
  | _ => False
  end.

(** ** Calls on the heap

    What a call may do to the heap and the clock, and how a heap holds
    the values the functions above work on. *)

(** A computation that does not read the clock. *)
Definition timeless {A : Type} (m : Heap.M A) : Prop :=
  forall (t1 t2 : Date) (h : Heap.heap), m t1 h = m t2 h.

(** Run on a heap that holds the objects of [h0] unchanged, the
    computation leaves such a heap, and what it returns satisfies
    [Q]. *)
Definition keeps {A : Type} (h0 : Heap.heap) (m : Heap.M A) (Q : A -> Prop)
  : Prop :=
  forall (now : Date) (h : Heap.heap) (r : completion A) (h' : Heap.heap),
    h0 ⊆ h -> m now h = Some (r, h') ->
    h0 ⊆ h'
    /\ match r with
       | Normal a => Q a
       | Throw _ => True
       end.

Definition any {A : Type} (a : A) : Prop := True.

(** No object of [h0] is at [l]. *)
Definition unused (h0 : Heap.heap) (l : Heap.loc) : Prop := h0 !! l = None.

(** Every object of [h] is in [h'], unchanged. *)
Definition preserved (h h' : Heap.heap) : Prop :=
  forall (l : Heap.loc) (o : Heap.object), h !! l = Some o -> h' !! l = Some o.

(** Two runs of a call from one heap, at the clock values [t1] and
    [t2], differ in the clock value only: both are stuck, or both
    throw the same error and leave the same heap, or both return the
    same reference, to an object with the same properties in both
    heaps, whose [lastModified] refers to a [Date] that holds [t1] in
    the one heap and [t2] in the other; the heaps agree everywhere
    else. *)
Definition sameButClock
  (t1 t2 : Date) (r1 r2 : option (completion Heap.loc * Heap.heap)) : Prop :=
  match r1, r2 with
  | Some (Normal l1, h1), Some (Normal l2, h2) =>
      l1 = l2
      /\ exists (ps : gmap string Heap.val) (d : Heap.loc),
           h1 !! l1 = Some (Heap.Obj ps)
           /\ h2 !! l1 = Some (Heap.Obj ps)
           /\ Heap.property ps "lastModified" = Heap.VRef d
           /\ h1 !! d = Some (Heap.DateObj t1)
           /\ h2 !! d = Some (Heap.DateObj t2)
           /\ forall k : Heap.loc, k <> d -> h1 !! k = h2 !! k
  | Some (Throw e1, h1), Some (Throw e2, h2) => e1 = e2 /\ h1 = h2
  | None, None => True
  | _, _ => False
  end.

(** *** Values on the heap *)

Definition optionalNumber (o : option number) : Heap.val :=
  match o with
  | Some n => Heap.VNumber n
  | None => Heap.VUndefined
  end.

Definition optionalString (o : option jsstring) : Heap.val :=
  match o with
  | Some s => Heap.VString s
  | None => Heap.VUndefined
  end.

Definition strategyName (strategy : Bundle.PricingStrategy) : jsstring :=
  match strategy with
  | Bundle.trending => JSString.lit "trending"
  | Bundle.average => JSString.lit "average"
  | Bundle.low => JSString.lit "low"
  end.

(** The object at [l] has the card's properties, as far as the
    functions read them. *)
Definition holdsCard (h : Heap.heap) (l : Heap.loc) (card : Tcg.TCGCard) : Prop :=
  exists ps : gmap string Heap.val,
    h !! l = Some (Heap.Obj ps)
    /\ Heap.property ps "id" = Heap.VString (Tcg.id card)
    /\ Heap.property ps "cardName" = Heap.VString (Tcg.cardName card)
    /\ Heap.property ps "setName" = optionalString (Tcg.setName card)
    /\ Heap.property ps "cardNumber" = optionalString (Tcg.cardNumber card)
    /\ Heap.property ps "trendingPrice" = optionalNumber (Tcg.trendingPrice card)
    /\ Heap.property ps "averagePrice" = optionalNumber (Tcg.averagePrice card)
    /\ Heap.property ps "lowPrice" = optionalNumber (Tcg.lowPrice card).

(** The array at [l] refers to objects that hold the cards, in order. *)
Definition holdsCards (h : Heap.heap) (l : Heap.loc) (cards : list Tcg.TCGCard)
  : Prop :=
  exists ls : list Heap.loc,
    h !! l = Some (Heap.Arr (map Heap.VRef ls))
    /\ Forall2 (holdsCard h) ls cards.

(** The object at [l] has the bundle's nine properties. *)
Definition holdsBundle (h : Heap.heap) (l : Heap.loc) (bundle : Bundle.CardBundle)
  : Prop :=
  exists (ps : gmap string Heap.val) (ids created modified : Heap.loc),
    h !! l = Some (Heap.Obj ps)
    /\ Heap.property ps "id" = Heap.VString (Bundle.id bundle)
    /\ Heap.property ps "name" = Heap.VString (Bundle.name bundle)
    /\ Heap.property ps "cardIDs" = Heap.VRef ids
    /\ h !! ids = Some (Heap.Arr (map Heap.VString (Bundle.cardIDs bundle)))
    /\ Heap.property ps "pricingStrategy"
       = Heap.VString (strategyName (Bundle.pricingStrategy bundle))
    /\ Heap.property ps "percentageMultiplier"
       = Heap.VNumber (Bundle.percentageMultiplier bundle)
    /\ Heap.property ps "calculatedTotal"
       = Heap.VNumber (Bundle.calculatedTotal bundle)
    /\ Heap.property ps "notes" = optionalString (Bundle.notes bundle)
    /\ Heap.property ps "createdAt" = Heap.VRef created
    /\ h !! created = Some (Heap.DateObj (Bundle.createdAt bundle))
    /\ Heap.property ps "lastModified" = Heap.VRef modified
    /\ h !! modified = Some (Heap.DateObj (Bundle.lastModified bundle)).

Definition holdsStatistics
  (h : Heap.heap) (l : Heap.loc) (statistics : Bundle.BundleStatistics) : Prop :=
  exists ps : gmap string Heap.val,
    h !! l = Some (Heap.Obj ps)
    /\ Heap.property ps "trendingTotal"
       = Heap.VNumber (Bundle.trendingTotal statistics)
    /\ Heap.property ps "averageTotal"
       = Heap.VNumber (Bundle.averageTotal statistics)
    /\ Heap.property ps "lowTotal" = Heap.VNumber (Bundle.lowTotal statistics)
    /\ Heap.property ps "selectedTotal"
       = Heap.VNumber (Bundle.selectedTotal statistics)
    /\ Heap.property ps "cardCount"
       = Heap.VNumber (Heap.ofNat (Bundle.cardCount statistics))
    /\ Heap.property ps "validCardCount"
       = Heap.VNumber (Heap.ofNat (Bundle.validCardCount statistics)).

Definition holdsValidation
  (h : Heap.heap) (l : Heap.loc) (validation : Bundle.BundleValidation) : Prop :=
  exists (ps : gmap string Heap.val) (errors : Heap.loc),
    h !! l = Some (Heap.Obj ps)
    /\ Heap.property ps "isValid" = Heap.VBoolean (Bundle.isValid validation)
    /\ Heap.property ps "errors" = Heap.VRef errors
    /\ h !! errors
       = Some (Heap.Arr (map Heap.VString (Bundle.errors validation))).

Definition holdsRow (h : Heap.heap) (l : Heap.loc) (row : Tcg.PriceTableRow)
  : Prop :=
  exists ps : gmap string Heap.val,
    h !! l = Some (Heap.Obj ps)
    /\ Heap.property ps "percentage" = Heap.VNumber (Tcg.percentage row)
    /\ Heap.property ps "trendingValue" = Heap.VNumber (Tcg.trendingValue row)
    /\ Heap.property ps "averageValue" = Heap.VNumber (Tcg.averageValue row)
    /\ Heap.property ps "lowValue" = Heap.VNumber (Tcg.lowValue row).

Definition holdsPriceTable
  (h : Heap.heap) (l : Heap.loc) (rows : list Tcg.PriceTableRow) : Prop :=
  exists ls : list Heap.loc,
    h !! l = Some (Heap.Arr (map Heap.VRef ls))
    /\ Forall2 (holdsRow h) ls rows.

(** ** Sample data *)

Module Sample.

(** A card with the given identification and price tiers; the fields
    no function of the core reads are left empty. *)
Definition card (id name : jsstring) (set num : option jsstring)
  (t a l : option number) : Tcg.TCGCard :=
  {| Tcg.id := id;
     Tcg.cardName := name;
     Tcg.setName := set;
     Tcg.cardNumber := num;
     Tcg.rarity := None;
     Tcg.tcgType := None;
     Tcg.printVariant := None;
     Tcg.language := JSString.lit "English";
     Tcg.trendingPrice := t;
     Tcg.averagePrice := a;
     Tcg.lowPrice := l;
     Tcg.priceLastUpdated := None;
     Tcg.priceSource := None;
     Tcg.conditionRating := None;
     Tcg.conditionDescription := None;
     Tcg.centeringScore := None;
     Tcg.cornerCondition := None;
     Tcg.edgeCondition := None;
     Tcg.surfaceCondition := None;
     Tcg.gradingPotential := None;
     Tcg.authenticityScore := None;
     Tcg.authenticityNotes := None;
     Tcg.scannedAt := 0%Z;
     Tcg.imageUrl := None;
     Tcg.userNotes := None |}.

(** A card known by its id and price tiers only. *)
Definition priced (id : string) (t a l : option number) : Tcg.TCGCard :=
  card (JSString.lit id) (JSString.lit id) None None t a l.

Definition bundle (name : jsstring) (ids : list jsstring)
  (strategy : Bundle.PricingStrategy) (multiplier total : number)
  : Bundle.CardBundle :=
  {| Bundle.id := JSString.lit "bundle-123";
     Bundle.name := name;
     Bundle.cardIDs := ids;
     Bundle.pricingStrategy := strategy;
     Bundle.percentageMultiplier := multiplier;
     Bundle.calculatedTotal := total;
     Bundle.notes := None;
     Bundle.createdAt := 0%Z;
     Bundle.lastModified := 0%Z |}.

End Sample.

Module SampleHeap.

(** One card ["a"] with a trending price of 10, the array of all
    cards, and a bundle that lists ["a"] at full trending price. *)
Definition card : Heap.loc := 1%positive.

Definition cards : Heap.loc := 2%positive.

Definition cardIDs : Heap.loc := 3%positive.

Definition created : Heap.loc := 4%positive.

Definition bundle : Heap.loc := 5%positive.

Definition heap : Heap.heap :=
  <[card := Heap.Obj
              (Heap.setProperty "id" (Heap.VString (JSString.lit "a"))
              (Heap.setProperty "cardName" (Heap.VString (JSString.lit "a"))
              (Heap.setProperty "language"
                 (Heap.VString (JSString.lit "English"))
              (Heap.setProperty "trendingPrice" (Heap.VNumber 10) ∅))))]>
  (<[cards := Heap.Arr [Heap.VRef card]]>
  (<[cardIDs := Heap.Arr [Heap.VString (JSString.lit "a")]]>
  (<[created := Heap.DateObj 0%Z]>
  (<[bundle := Heap.Obj
                 (Heap.setProperty "id"
                    (Heap.VString (JSString.lit "bundle-123"))
                 (Heap.setProperty "name" (Heap.VString (JSString.lit "Deck"))
                 (Heap.setProperty "cardIDs" (Heap.VRef cardIDs)
                 (Heap.setProperty "pricingStrategy"
                    (Heap.VString (JSString.lit "trending"))
                 (Heap.setProperty "percentageMultiplier" (Heap.VNumber 1)
                 (Heap.setProperty "calculatedTotal" (Heap.VNumber 0)
                 (Heap.setProperty "createdAt" (Heap.VRef created)
                 (Heap.setProperty "lastModified" (Heap.VRef created)
                    ∅))))))))]> ∅)))).

End SampleHeap.

(** * Properties *)

(** ** Binary64 arithmetic

    Facts about [float] obtained from its specification [SpecFloat]:
    comparisons, commutativity, and the sign of a zero sum. *)

Section Binary64.

Lemma SFcompare_antisym (x y : spec_float) :
  SFcompare y x = option_map CompOpp (SFcompare x y).
Proof.
  destruct x as [sx | sx | | sx mx ex], y as [sy | sy | | sy my ey];
    simpl; try reflexivity;
    try (destruct sx; reflexivity); try (destruct sy; reflexivity);
    try (destruct sx, sy; reflexivity).
  destruct sx, sy; simpl; try reflexivity;
    rewrite (Z.compare_antisym ex ey);
    destruct (ex ?= ey)%Z eqn:E; simpl; try reflexivity;
    change (Pos.compare_cont Eq my mx) with (my ?= mx)%positive;
    change (Pos.compare_cont Eq mx my) with (mx ?= my)%positive;
    rewrite (Pos.compare_antisym mx my);
    destruct (mx ?= my)%positive; reflexivity.
Qed.

Lemma leb_true_ltb_false (a b : float) :
  (a <=? b)%float = true -> (b <? a)%float = false.
Proof.
  rewrite leb_spec, ltb_spec. unfold SFleb, SFltb.
  rewrite (SFcompare_antisym (Prim2SF a) (Prim2SF b)).
  destruct (SFcompare (Prim2SF a) (Prim2SF b)) as [[]|]; simpl; congruence.
Qed.

Lemma SFadd_comm (x y : spec_float) :
  SFadd prec emax x y = SFadd prec emax y x.
Proof.
  destruct x as [sx | sx | | sx mx ex], y as [sy | sy | | sy my ey];
    simpl; try reflexivity; try (destruct sx, sy; reflexivity).
  rewrite (Z.min_comm ey ex). f_equal. apply Z.add_comm.
Qed.

Lemma SFmul_comm (x y : spec_float) :
  SFmul prec emax x y = SFmul prec emax y x.
Proof.
  destruct x as [sx | sx | | sx mx ex], y as [sy | sy | | sy my ey];
    simpl; try reflexivity; try (destruct sx, sy; reflexivity).
  rewrite (xorb_comm sy sx), (Pos.mul_comm my mx), (Z.add_comm ey ex).
  reflexivity.
Qed.

Lemma float_add_comm (x y : float) : (x + y = y + x)%float.
Proof. apply Prim2SF_inj. rewrite !add_spec. apply SFadd_comm. Qed.

Lemma float_mul_comm (x y : float) : (x * y = y * x)%float.
Proof. apply Prim2SF_inj. rewrite !mul_spec. apply SFmul_comm. Qed.

Lemma SFadd_zero_l (x : spec_float) :
  SFadd prec emax (S754_zero false) x = SFplus0 x.
Proof. destruct x as [[] | | |]; reflexivity. Qed.

Lemma SFadd_plus0_swap (x y : spec_float) :
  SFadd prec emax (SFplus0 x) y = SFadd prec emax (SFplus0 y) x.
Proof.
  destruct x as [sx | sx | | sx mx ex], y as [sy | sy | | sy my ey];
    simpl; try reflexivity; try (destruct sx, sy; reflexivity);
    try (destruct sx; reflexivity); try (destruct sy; reflexivity).
  rewrite (Z.min_comm ey ex). f_equal. apply Z.add_comm.
Qed.

(** Two terms added to 0 may be exchanged. *)
Lemma float_add_two_swap (a b : float) : (0 + a + b = 0 + b + a)%float.
Proof.
  apply Prim2SF_inj. rewrite !add_spec.
  change (Prim2SF 0) with (S754_zero false).
  rewrite !SFadd_zero_l. apply SFadd_plus0_swap.
Qed.

(** A value in [0.1, 1.0] is finite and positive. *)
Lemma inRange_finite_positive (m : float) :
  inRange m -> exists mm em, Prim2SF m = S754_finite false mm em.
Proof.
  intros [Hlo Hhi]. rewrite leb_spec in Hlo, Hhi.
  let v := eval vm_compute in (Prim2SF 0.1) in
    change (Prim2SF 0.1) with v in Hlo.
  let v := eval vm_compute in (Prim2SF 1.0) in
    change (Prim2SF 1.0) with v in Hhi.
  destruct (Prim2SF m) as [s | s | | s mm em]; try discriminate.
  - destruct s; discriminate.
  - destruct s; [discriminate | eauto].
Qed.

Lemma float_mul_zero_l (m : float) : inRange m -> (0 * m = 0)%float.
Proof.
  intros H. destruct (inRange_finite_positive m H) as (mm & em & E).
  apply Prim2SF_inj. rewrite mul_spec, E. reflexivity.
Qed.

Lemma inRange_not_outOfRange (m : float) : inRange m -> ~ outOfRange m.
Proof.
  intros [Hlo Hhi] [H | H].
  - rewrite (leb_true_ltb_false _ _ Hlo) in H. discriminate.
  - rewrite (leb_true_ltb_false _ _ Hhi) in H. discriminate.
Qed.

(** *** Rounding never produces a zero from a non-zero sum *)

Local Open Scope Z_scope.

Lemma iter_pos_nat {A : Type} (f : A -> A) (p : positive) (x : A) :
  SpecFloat.iter_pos f p x = Nat.iter (Pos.to_nat p) f x.
Proof.
  revert x. induction p as [p IH | p IH |]; intros x.
  - cbn [SpecFloat.iter_pos]. rewrite !IH.
    rewrite <- Nat.iter_succ_r, <- Nat.iter_add. f_equal. lia.
  - cbn [SpecFloat.iter_pos]. rewrite !IH.
    rewrite <- Nat.iter_add. f_equal. lia.
  - reflexivity.
Qed.

(** Shifting right by fewer bits than the mantissa has leaves a
    positive mantissa. *)
Lemma iter_shr_1_positive (k : nat) :
  forall (m : positive) (r s : bool),
    (k < Pos.to_nat (digits2_pos m))%nat ->
    exists m',
      shr_m (Nat.iter k shr_1 (Build_shr_record (Zpos m) r s)) = Zpos m'.
Proof.
  induction k as [| k IH]; intros m r s Hk.
  - simpl. eauto.
  - rewrite Nat.iter_succ_r.
    destruct m as [p | p |]; simpl in Hk; simpl shr_1.
    + apply IH. lia.
    + apply IH. lia.
    + lia.
Qed.

Lemma shr_fexp_positive (m : positive) (e : Z) (l : location) :
  emin <= e ->
  (exists m', shr_m (fst (shr_fexp prec emax (Zpos m) e l)) = Zpos m')
  /\ emin <= snd (shr_fexp prec emax (Zpos m) e l).
Proof.
  intros He. unfold shr_fexp, shr.
  destruct (fexp prec emax (Zdigits2 (Zpos m) + e) - e) as [| n | n] eqn:En;
    simpl fst; simpl snd.
  - split; [|assumption]. destruct l as [| []]; simpl; eauto.
  - split.
    + rewrite iter_pos_nat.
      assert (Hn : (Pos.to_nat n < Pos.to_nat (digits2_pos m))%nat).
      { unfold fexp, SpecFloat.emin, prec, emax in *.
        simpl Zdigits2 in En. lia. }
      destruct l as [| []]; simpl shr_record_of_loc;
        apply iter_shr_1_positive; assumption.
    + lia.
  - split; [|assumption]. destruct l as [| []]; simpl; eauto.
Qed.

Lemma round_nearest_even_positive (m : positive) (l : location) :
  exists m', round_nearest_even (Zpos m) l = Zpos m'.
Proof.
  destruct l as [| []]; simpl; eauto.
  destruct m; simpl; eauto.
Qed.

Lemma binary_round_aux_nonzero
  (sx s : bool) (m : positive) (e : Z) (l : location) :
  emin <= e ->
  binary_round_aux prec emax sx (Zpos m) e l <> S754_zero s.
Proof.
  intros He. unfold binary_round_aux.
  destruct (shr_fexp_positive m e l He) as [[m1 H1] He1].
  destruct (shr_fexp prec emax (Zpos m) e l) as [mrs' e'].
  simpl in H1, He1. rewrite H1.
  destruct (round_nearest_even_positive m1 (loc_of_shr_record mrs'))
    as [m2 H2].
  rewrite H2.
  destruct (shr_fexp_positive m2 e' loc_Exact He1) as [[m3 H3] _].
  destruct (shr_fexp prec emax (Zpos m2) e' loc_Exact) as [mrs'' e''].
  simpl in H3. rewrite H3.
  destruct (e'' <=? emax - prec); discriminate.
Qed.

Lemma binary_round_nonzero (sx s : bool) (m : positive) (e : Z) :
  emin <= e ->
  binary_round prec emax sx m e <> S754_zero s.
Proof.
  intros He. unfold binary_round, shl_align.
  destruct (fexp prec emax (Zpos (digits2_pos m) + e) - e) eqn:En;
    apply binary_round_aux_nonzero; try assumption.
  unfold fexp, SpecFloat.emin. lia.
Qed.

Lemma valid_binary_emin (s : bool) (m : positive) (e : Z) :
  valid_binary (S754_finite s m e) = true -> emin <= e.
Proof.
  simpl. unfold bounded, canonical_mantissa, fexp, SpecFloat.emin.
  intros H. apply andb_prop in H as [H _]. apply Z.eqb_eq in H. lia.
Qed.

(** Only [-0 + -0] is [-0]. *)
Lemma SFadd_neg_zero (x y : spec_float) :
  valid_binary x = true -> valid_binary y = true ->
  SFadd prec emax x y = S754_zero true -> x = S754_zero true.
Proof.
  intros Vx Vy.
  destruct x as [sx | sx | | sx mx ex], y as [sy | sy | | sy my ey];
    simpl; try discriminate; try (destruct sx, sy; congruence).
  apply valid_binary_emin in Vx, Vy.
  unfold binary_normalize.
  destruct (_ + _) eqn:Ez; [discriminate | |];
    intros H; exfalso; revert H; apply binary_round_nonzero; lia.
Qed.

Local Close Scope Z_scope.

Lemma float_add_neg_zero (x y : float) :
  (x + y)%float = neg_zero -> x = neg_zero.
Proof.
  intros H. apply Prim2SF_inj.
  change (Prim2SF neg_zero) with (S754_zero true).
  apply (SFadd_neg_zero _ (Prim2SF y)); try apply Prim2SF_valid.
  change (SFadd prec emax) with SF64add.
  rewrite <- add_spec, H. reflexivity.
Qed.

Lemma float_add_zero_r (x : float) : x <> neg_zero -> (x + 0)%float = x.
Proof.
  intros Hx. apply Prim2SF_inj. rewrite add_spec.
  change (Prim2SF 0) with (S754_zero false).
  destruct (Prim2SF x) as [[] | | |] eqn:E; try reflexivity.
  exfalso. apply Hx. apply Prim2SF_inj. rewrite E. reflexivity.
Qed.

End Binary64.

(** ** Strings and membership *)

Section Strings.

Lemma JSString_eqb_eq (a b : jsstring) : JSString.eqb a b = true <-> a = b.
Proof.
  revert b. induction a as [| x a IH]; intros [| y b]; simpl;
    try (split; [discriminate | congruence]); [tauto |].
  rewrite andb_true_iff, N.eqb_eq, IH. split.
  - intros [-> ->]. reflexivity.
  - intros [= -> ->]. auto.
Qed.

Lemma includes_elem_of (ids : list jsstring) (x : jsstring) :
  Bundle.includes ids x = true <-> x ∈ ids.
Proof.
  unfold Bundle.includes. rewrite existsb_exists. split.
  - intros (y & Hy & E). apply JSString_eqb_eq in E. subst y.
    apply list_elem_of_In. exact Hy.
  - intros H. exists x. split; [apply list_elem_of_In, H |].
    apply JSString_eqb_eq. reflexivity.
Qed.

(** The filter of the source selects by membership of the id. *)
Lemma bundleCardsOf_membersOf
  (bundle : Bundle.CardBundle) (cards : list Tcg.TCGCard) :
  Bundle.bundleCardsOf bundle cards = membersOf bundle cards.
Proof.
  unfold Bundle.bundleCardsOf, membersOf.
  induction cards as [| c cards IH]; [reflexivity |].
  simpl. rewrite filter_cons, IH.
  destruct (Bundle.includes (Bundle.cardIDs bundle) (Tcg.id c)) eqn:E.
  - apply includes_elem_of in E. rewrite decide_True; auto.
  - rewrite decide_False; [reflexivity |].
    intros H. apply includes_elem_of in H. congruence.
Qed.

End Strings.

(** ** Sums *)

Section Sums.

Import Bundle.

Lemma fold_tierValue (strategy : PricingStrategy) (cards : list Tcg.TCGCard) :
  forall a : number,
    fold_left
      (fun sum card =>
         (sum + nullish (getPriceForStrategy card strategy) 0)%float)
      cards a
    = fold_left PrimFloat.add (map (tierValue strategy) cards) a.
Proof.
  induction cards as [| c cards IH]; intros a; simpl; [reflexivity |].
  apply IH.
Qed.

(** Within the range the guard passes and the total is the sum times
    the multiplier. *)
Lemma calculateBundleTotal_inRange
  (cards : list Tcg.TCGCard) (strategy : PricingStrategy) (m : number) :
  inRange m ->
  calculateBundleTotal cards strategy m
  = Normal (tierSum strategy cards * m)%float.
Proof.
  intros [Hlo Hhi]. unfold calculateBundleTotal, gtb.
  rewrite (leb_true_ltb_false _ _ Hlo), (leb_true_ltb_false _ _ Hhi).
  simpl. rewrite fold_tierValue. reflexivity.
Qed.

Lemma calculateBundleTotal_outOfRange
  (cards : list Tcg.TCGCard) (strategy : PricingStrategy) (m : number) :
  outOfRange m ->
  calculateBundleTotal cards strategy m = Throw multiplierError.
Proof.
  intros [H | H]; unfold calculateBundleTotal, gtb; rewrite H;
    [| rewrite orb_true_r]; reflexivity.
Qed.

Lemma tierSum_two_swap (strategy : PricingStrategy) (a b : Tcg.TCGCard) :
  tierSum strategy [a; b] = tierSum strategy [b; a].
Proof. unfold tierSum, sumLeft. simpl. apply float_add_two_swap. Qed.

Lemma tierSum_short_perm
  (strategy : PricingStrategy) (cards cards' : list Tcg.TCGCard) :
  (length cards <= 2)%nat -> Permutation cards cards' ->
  tierSum strategy cards' = tierSum strategy cards.
Proof.
  intros Hlen Hperm.
  destruct cards as [| a [| b [| c cards]]]; simpl in Hlen; try lia.
  - apply Permutation_nil in Hperm. subst. reflexivity.
  - apply Permutation_length_1_inv in Hperm. subst. reflexivity.
  - apply Permutation_length_2_inv in Hperm as [-> | ->];
      [reflexivity | apply tierSum_two_swap].
Qed.

End Sums.

(** ** calculateBundleTotal *)

Section CalculateBundleTotal.

Import Bundle.

(** C1 (as amended).  For every sequence of cards (in particular every
    non-empty one), every strategy and every multiplier in [0.1, 1.0],
    [calculateBundleTotal] returns the multiplier times the sum over
    the cards of the tier the strategy selects, an absent tier counting
    as 0, where the sum is the binary64 sum accumulated from 0 in
    sequence order.  A permutation of a sequence of at most two cards
    leaves the result unchanged. *)
Theorem calculateBundleTotal_sum
  (cards : list Tcg.TCGCard) (strategy : PricingStrategy) (multiplier : number) :
  inRange multiplier ->
  calculateBundleTotal cards strategy multiplier
  = Normal (multiplier * tierSum strategy cards)%float
  /\ forall cards' : list Tcg.TCGCard,
      (length cards <= 2)%nat -> Permutation cards cards' ->
      calculateBundleTotal cards' strategy multiplier
      = calculateBundleTotal cards strategy multiplier.
Proof.
  intros Hm. split.
  - rewrite (calculateBundleTotal_inRange _ _ _ Hm).
    f_equal. apply float_mul_comm.
  - intros cards' Hlen Hperm.
    rewrite !(calculateBundleTotal_inRange _ _ _ Hm).
    rewrite (tierSum_short_perm strategy cards cards' Hlen Hperm).
    reflexivity.
Qed.

(** Three average prices 100, 150 and 200 at 80%: the total is 360,
    in either order of the first two. *)
Lemma calculateBundleTotal_sum_witness :
  inRange 0.8
  /\ calculateBundleTotal
       [Sample.priced "a" None (Some 100%float) None;
        Sample.priced "b" None (Some 150%float) None;
        Sample.priced "c" None (Some 200%float) None]
       average 0.8
     = Normal 360%float
  /\ calculateBundleTotal
       [Sample.priced "b" None (Some 150%float) None;
        Sample.priced "a" None (Some 100%float) None]
       average 0.8
     = calculateBundleTotal
         [Sample.priced "a" None (Some 100%float) None;
          Sample.priced "b" None (Some 150%float) None]
         average 0.8.
Proof.
  assert (H : inRange 0.8) by (split; reflexivity).
  split; [exact H |]. split.
  - exact (proj1 (calculateBundleTotal_sum
                    [Sample.priced "a" None (Some 100%float) None;
                     Sample.priced "b" None (Some 150%float) None;
                     Sample.priced "c" None (Some 200%float) None]
                    average 0.8%float H)).
  - apply (proj2 (calculateBundleTotal_sum
                    [Sample.priced "a" None (Some 100%float) None;
                     Sample.priced "b" None (Some 150%float) None]
                    average 0.8%float H)).
    + simpl. lia.
    + apply perm_swap.
Defined.

(** C1 as stated fails: the trending prices 0.1, 0.2, 0.3 at 100% total
    0.6000000000000001, and in the reverse order 0.6. *)
Lemma calculateBundleTotal_order_matters :
  Permutation
    [Sample.priced "a" (Some 0.1%float) None None;
     Sample.priced "b" (Some 0.2%float) None None;
     Sample.priced "c" (Some 0.3%float) None None]
    [Sample.priced "c" (Some 0.3%float) None None;
     Sample.priced "b" (Some 0.2%float) None None;
     Sample.priced "a" (Some 0.1%float) None None]
  /\ inRange 1.0
  /\ calculateBundleTotal
       [Sample.priced "a" (Some 0.1%float) None None;
        Sample.priced "b" (Some 0.2%float) None None;
        Sample.priced "c" (Some 0.3%float) None None]
       trending 1.0
     = Normal 0.6000000000000001%float
  /\ calculateBundleTotal
       [Sample.priced "c" (Some 0.3%float) None None;
        Sample.priced "b" (Some 0.2%float) None None;
        Sample.priced "a" (Some 0.1%float) None None]
       trending 1.0
     = Normal 0.6%float
  /\ 0.6000000000000001%float <> 0.6%float.
Proof.
  split; [| split; [| split; [| split]]].
  - change (Permutation
              ([Sample.priced "a" (Some 0.1%float) None None;
                Sample.priced "b" (Some 0.2%float) None None]
               ++ [Sample.priced "c" (Some 0.3%float) None None])
              (Sample.priced "c" (Some 0.3%float) None None
               :: [Sample.priced "b" (Some 0.2%float) None None;
                   Sample.priced "a" (Some 0.1%float) None None])).
    rewrite <- Permutation_cons_append. apply perm_skip, perm_swap.
  - split; reflexivity.
  - vm_compute. reflexivity.
  - vm_compute. reflexivity.
  - intros H. apply (f_equal Prim2SF) in H. vm_compute in H. discriminate.
Qed.

(** C2.  For every sequence of cards, every strategy and every
    multiplier strictly below 0.1 or strictly above 1.0,
    [calculateBundleTotal] throws the multiplier error and yields no
    number (nothing is clamped); [updateBundleTotal] throws the same
    error for a bundle whose own [percentageMultiplier] is such a
    value. *)
Theorem multiplier_out_of_range_throws
  (cards : list Tcg.TCGCard) (strategy : PricingStrategy) (multiplier : number)
  (bundle : CardBundle) (now : Date) :
  outOfRange multiplier ->
  calculateBundleTotal cards strategy multiplier = Throw multiplierError
  /\ (forall total : number,
        calculateBundleTotal cards strategy multiplier <> Normal total)
  /\ (percentageMultiplier bundle = multiplier ->
      updateBundleTotal bundle cards now = Throw multiplierError).
Proof.
  intros Hm. split; [| split].
  - apply calculateBundleTotal_outOfRange, Hm.
  - intros total. rewrite (calculateBundleTotal_outOfRange _ _ _ Hm).
    discriminate.
  - intros E. unfold updateBundleTotal. rewrite E.
    rewrite (calculateBundleTotal_outOfRange _ _ _ Hm). reflexivity.
Qed.

(** The multipliers 0.05, 1.5 and -1 of the specification. *)
Lemma multiplier_out_of_range_throws_witness :
  (outOfRange 0.05 /\ outOfRange 1.5 /\ outOfRange (-1))
  /\ calculateBundleTotal
       [Sample.priced "a" (Some 10%float) None None] trending 0.05
     = Throw multiplierError
  /\ calculateBundleTotal
       [Sample.priced "a" (Some 10%float) None None] trending (-1)
     = Throw multiplierError
  /\ updateBundleTotal
       (Sample.bundle (JSString.lit "Deck") [JSString.lit "a"] trending 1.5 0)
       [Sample.priced "a" (Some 10%float) None None] 1730592000000%Z
     = Throw multiplierError.
Proof.
  assert (Hlo : outOfRange 0.05) by (left; reflexivity).
  assert (Hhi : outOfRange 1.5) by (right; reflexivity).
  assert (Hneg : outOfRange (-1)) by (left; reflexivity).
  split; [auto |]. split; [| split].
  - exact (proj1 (multiplier_out_of_range_throws
                    [Sample.priced "a" (Some 10%float) None None] trending
                    0.05%float
                    (Sample.bundle [] [] trending 0.05 0) 0%Z Hlo)).
  - exact (proj1 (multiplier_out_of_range_throws
                    [Sample.priced "a" (Some 10%float) None None] trending
                    (-1)%float
                    (Sample.bundle [] [] trending (-1) 0) 0%Z Hneg)).
  - exact (proj2 (proj2 (multiplier_out_of_range_throws
                    [Sample.priced "a" (Some 10%float) None None] trending
                    1.5%float
                    (Sample.bundle (JSString.lit "Deck") [JSString.lit "a"]
                       trending 1.5 0)
                    1730592000000%Z Hhi)) eq_refl).
Defined.

(** C10.  For the empty sequence of cards, every strategy and every
    multiplier in [0.1, 1.0], [calculateBundleTotal] does not throw and
    returns exactly 0. *)
Theorem calculateBundleTotal_empty
  (strategy : PricingStrategy) (multiplier : number) :
  inRange multiplier ->
  calculateBundleTotal [] strategy multiplier = Normal 0%float.
Proof.
  intros Hm. rewrite (calculateBundleTotal_inRange _ _ _ Hm).
  unfold tierSum, sumLeft. simpl. f_equal. apply float_mul_zero_l, Hm.
Qed.

Lemma calculateBundleTotal_empty_witness :
  inRange 0.1 /\ calculateBundleTotal [] low 0.1 = Normal 0%float.
Proof.
  assert (H : inRange 0.1) by (split; reflexivity).
  split; [exact H | exact (calculateBundleTotal_empty low 0.1%float H)].
Defined.

End CalculateBundleTotal.

(** ** generatePriceTable *)

Section GeneratePriceTable.

Import Tcg.

Lemma generatePriceTable_scaled (card : TCGCard) :
  Forall (scaledRow card) (generatePriceTable card).
Proof.
  apply List.Forall_forall. intros row Hin.
  apply List.in_map_iff in Hin as (p & <- & _). repeat split.
Qed.

Lemma percentages_descending :
  StronglySorted (fun p q => (q <? p)%float = true) percentages.
Proof.
  unfold percentages. repeat constructor.
Qed.

(** C3.  For every card, [generatePriceTable] returns exactly 10 rows
    whose percentages are 100, 90, ..., 10 in that strictly descending
    order; in the row for percentage [p] the three values are the
    card's trending, average and low price, 0 when absent, times
    [p / 100].  A card with all three tiers absent yields 0 in every
    value of every row, and a card with trending price 200 yields 100
    at percentage 50 and exactly 200 at percentage 100. *)
Theorem generatePriceTable_rows (card : TCGCard) :
  length (generatePriceTable card) = 10%nat
  /\ map percentage (generatePriceTable card)
     = [100; 90; 80; 70; 60; 50; 40; 30; 20; 10]%float
  /\ StronglySorted (fun p q => (q <? p)%float = true)
       (map percentage (generatePriceTable card))
  /\ Forall (scaledRow card) (generatePriceTable card)
  /\ (trendingPrice card = None -> averagePrice card = None ->
      lowPrice card = None ->
      Forall zeroRow (generatePriceTable card))
  /\ (trendingPrice card = Some 200%float ->
      forall row : PriceTableRow,
        In row (generatePriceTable card) ->
        (percentage row = 50%float -> trendingValue row = 100%float)
        /\ (percentage row = 100%float -> trendingValue row = 200%float)).
Proof.
  assert (Hp : map percentage (generatePriceTable card) = percentages).
  { unfold generatePriceTable. rewrite map_map. apply map_id. }
  repeat apply conj.
  - reflexivity.
  - exact Hp.
  - rewrite Hp. apply percentages_descending.
  - apply generatePriceTable_scaled.
  - intros Ht Ha Hl. apply List.Forall_forall. intros row Hin.
    unfold generatePriceTable in Hin. rewrite Ht, Ha, Hl in Hin.
    apply List.in_map_iff in Hin as (p & <- & Hin).
    unfold percentages in Hin. simpl in Hin.
    repeat (destruct Hin as [<- | Hin]; [repeat split |]).
    contradiction.
  - intros Ht row Hin.
    pose proof (generatePriceTable_scaled card) as Hs.
    rewrite List.Forall_forall in Hs. destruct (Hs row Hin) as [Hv _].
    rewrite Ht in Hv. split; intros Hpct; rewrite Hv, Hpct; reflexivity.
Qed.

(** A card without prices, and the Charizard of the source's example
    with trending price 200. *)
Lemma generatePriceTable_rows_witness :
  Forall zeroRow (generatePriceTable (Sample.priced "a" None None None))
  /\ (forall row : PriceTableRow,
        In row (generatePriceTable
                  (Sample.priced "b" (Some 200%float) None None)) ->
        (percentage row = 50%float -> trendingValue row = 100%float)
        /\ (percentage row = 100%float -> trendingValue row = 200%float)).
Proof.
  split.
  - apply (generatePriceTable_rows (Sample.priced "a" None None None));
      reflexivity.
  - apply (generatePriceTable_rows
             (Sample.priced "b" (Some 200%float) None None)).
    reflexivity.
Defined.

End GeneratePriceTable.

(** ** calculateBundleStatistics *)

Section Statistics.

Import Bundle.

Lemma zero_not_neg_zero : 0%float <> neg_zero.
Proof. intros H. apply (f_equal Prim2SF) in H. discriminate. Qed.

(** Skipping an absent price and adding 0 for it agree: a running
    total that starts at [+0] never is [-0]. *)
Lemma addPresent_nullish (t : number) (p : option number) :
  t <> neg_zero -> addPresent t p = (t + nullish p 0)%float.
Proof.
  intros Ht. destruct p as [v |]; simpl; [reflexivity |].
  symmetry. apply float_add_zero_r, Ht.
Qed.

Lemma addPresent_not_neg_zero (t : number) (p : option number) :
  t <> neg_zero -> addPresent t p <> neg_zero.
Proof.
  intros Ht. destruct p as [v |]; simpl; [| exact Ht].
  intros H. apply Ht. exact (float_add_neg_zero t v H).
Qed.

Lemma fold_addPresent (f : Tcg.TCGCard -> option number)
  (cards : list Tcg.TCGCard) :
  forall t : number,
    t <> neg_zero ->
    fold_left (fun t card => addPresent t (f card)) cards t
    = fold_left PrimFloat.add (map (fun card => nullish (f card) 0%float) cards) t.
Proof.
  induction cards as [| c cards IH]; intros t Ht; simpl; [reflexivity |].
  rewrite IH by (apply addPresent_not_neg_zero, Ht).
  rewrite (addPresent_nullish t (f c) Ht). reflexivity.
Qed.

Lemma statisticsStep_fields (acc : totals) (card : Tcg.TCGCard) :
  statisticsStep acc card
  = {| t_trending := addPresent (t_trending acc) (Tcg.trendingPrice card);
       t_average := addPresent (t_average acc) (Tcg.averagePrice card);
       t_low := addPresent (t_low acc) (Tcg.lowPrice card);
       t_valid := if hasTrending card then S (t_valid acc) else t_valid acc |}.
Proof.
  unfold statisticsStep, hasTrending. destruct acc as [tt ta tl tv].
  destruct (Tcg.trendingPrice card), (Tcg.averagePrice card),
    (Tcg.lowPrice card); reflexivity.
Qed.

(** The loop, one accumulator at a time. *)
Lemma statistics_loop (cards : list Tcg.TCGCard) :
  forall acc : totals,
    fold_left statisticsStep cards acc
    = {| t_trending :=
           fold_left (fun t card => addPresent t (Tcg.trendingPrice card))
             cards (t_trending acc);
         t_average :=
           fold_left (fun t card => addPresent t (Tcg.averagePrice card))
             cards (t_average acc);
         t_low :=
           fold_left (fun t card => addPresent t (Tcg.lowPrice card))
             cards (t_low acc);
         t_valid := t_valid acc + length (List.filter hasTrending cards) |}.
Proof.
  induction cards as [| c cards IH]; intros acc.
  - destruct acc. simpl. f_equal. lia.
  - cbn [fold_left List.filter]. rewrite IH, statisticsStep_fields.
    cbn [t_trending t_average t_low t_valid]. f_equal.
    destruct (hasTrending c); simpl; lia.
Qed.

(** The statistics as sums over the members. *)
Lemma calculateBundleStatistics_members
  (bundle : CardBundle) (cards : list Tcg.TCGCard) :
  calculateBundleStatistics bundle cards
  = {| trendingTotal := tierSum trending (membersOf bundle cards);
       averageTotal := tierSum average (membersOf bundle cards);
       lowTotal := tierSum low (membersOf bundle cards);
       selectedTotal := calculatedTotal bundle;
       cardCount := length (cardIDs bundle);
       validCardCount :=
         length (List.filter hasTrending (membersOf bundle cards)) |}.
Proof.
  unfold calculateBundleStatistics. rewrite bundleCardsOf_membersOf.
  rewrite statistics_loop.
  cbn [t_trending t_average t_low t_valid].
  rewrite !fold_addPresent by apply zero_not_neg_zero.
  reflexivity.
Qed.

(** C4.  For every bundle and every card list, the statistics sum,
    over exactly the cards of the list whose id appears in
    [bundle.cardIDs], the trending, the average and the low tier, an
    absent tier counting as 0 and no multiplier applied; [cardCount]
    is the length of [bundle.cardIDs], [validCardCount] the number of
    those cards that have a trending price, and [selectedTotal] the
    bundle's stored [calculatedTotal]. *)
Theorem calculateBundleStatistics_totals
  (bundle : CardBundle) (cards : list Tcg.TCGCard) :
  let stats := calculateBundleStatistics bundle cards in
  let members := membersOf bundle cards in
  trendingTotal stats = tierSum trending members
  /\ averageTotal stats = tierSum average members
  /\ lowTotal stats = tierSum low members
  /\ cardCount stats = length (cardIDs bundle)
  /\ validCardCount stats = length (List.filter hasTrending members)
  /\ selectedTotal stats = calculatedTotal bundle.
Proof.
  intros stats members. subst stats members.
  rewrite calculateBundleStatistics_members.
  cbn [trendingTotal averageTotal lowTotal cardCount validCardCount
       selectedTotal].
  repeat split.
Qed.

(** The scenario of the specification: average prices 100, 150, 200
    and nothing else.  No card counts as valid. *)
Lemma calculateBundleStatistics_average_only :
  calculateBundleStatistics
    (Sample.bundle (JSString.lit "Deck")
       [JSString.lit "a"; JSString.lit "b"; JSString.lit "c"]
       average 0.8 360)
    [Sample.priced "a" None (Some 100%float) None;
     Sample.priced "b" None (Some 150%float) None;
     Sample.priced "x" (Some 7%float) (Some 7%float) (Some 7%float);
     Sample.priced "c" None (Some 200%float) None]
  = {| trendingTotal := 0;
       averageTotal := 450;
       lowTotal := 0;
       selectedTotal := 360;
       cardCount := 3;
       validCardCount := 0 |}.
Proof. vm_compute. reflexivity. Qed.

End Statistics.

(** ** updateBundleTotal *)

Section UpdateBundleTotal.

Import Bundle.

(** The result of [updateBundleTotal], whatever the multiplier. *)
Lemma updateBundleTotal_cases
  (bundle : CardBundle) (cards : list Tcg.TCGCard) (now : Date) :
  match calculateBundleTotal (membersOf bundle cards)
          (pricingStrategy bundle) (percentageMultiplier bundle) with
  | Throw e => updateBundleTotal bundle cards now = Throw e
  | Normal total =>
      updateBundleTotal bundle cards now
      = Normal {| id := id bundle;
                  name := name bundle;
                  cardIDs := cardIDs bundle;
                  pricingStrategy := pricingStrategy bundle;
                  percentageMultiplier := percentageMultiplier bundle;
                  calculatedTotal := total;
                  notes := notes bundle;
                  createdAt := createdAt bundle;
                  lastModified := now |}
  end.
Proof.
  unfold updateBundleTotal. rewrite bundleCardsOf_membersOf.
  destruct (calculateBundleTotal _ _ _); reflexivity.
Qed.

(** A call allocates: the store grows by one object, at a location
    that was free, and keeps every object it had. *)
Lemma store_updateBundleTotal_alloc
  (σ : Store.store) (l : Store.loc) (bundle updated : CardBundle)
  (cards : list Tcg.TCGCard) (now : Date) :
  σ !! l = Some bundle ->
  updateBundleTotal bundle cards now = Normal updated ->
  exists l' : Store.loc,
    Store.updateBundleTotal σ l cards now
    = Some (<[l' := updated]> σ, Normal l')
    /\ σ !! l' = None
    /\ l' <> l
    /\ forall k : Store.loc, is_Some (σ !! k) ->
         <[l' := updated]> σ !! k = σ !! k.
Proof.
  intros Hl Hu. exists (fresh (dom σ)).
  assert (Hfresh : σ !! fresh (dom σ) = None).
  { apply not_elem_of_dom, is_fresh. }
  unfold Store.updateBundleTotal, Store.alloc. rewrite Hl, Hu.
  repeat split.
  - exact Hfresh.
  - intros E. rewrite E in Hfresh. congruence.
  - intros k [b Hk]. apply lookup_insert_ne.
    intros E. rewrite E in Hfresh. congruence.
Qed.

(** C5.  For every bundle whose [percentageMultiplier] lies in
    [0.1, 1.0] and every card list, [updateBundleTotal] returns a
    bundle whose [calculatedTotal] is [calculateBundleTotal] of the
    cards whose id appears in [bundle.cardIDs], with the bundle's own
    strategy and multiplier, whose [lastModified] is the time of the
    call, and whose other fields are the input's.  The returned bundle
    is a new object: the input bundle, and every other object of the
    store, is as it was. *)
Theorem updateBundleTotal_frame
  (bundle : CardBundle) (cards : list Tcg.TCGCard) (now : Date) :
  inRange (percentageMultiplier bundle) ->
  exists (total : number) (updated : CardBundle),
    calculateBundleTotal (membersOf bundle cards)
      (pricingStrategy bundle) (percentageMultiplier bundle)
    = Normal total
    /\ updateBundleTotal bundle cards now = Normal updated
    /\ calculatedTotal updated = total
    /\ lastModified updated = now
    /\ id updated = id bundle
    /\ name updated = name bundle
    /\ cardIDs updated = cardIDs bundle
    /\ pricingStrategy updated = pricingStrategy bundle
    /\ percentageMultiplier updated = percentageMultiplier bundle
    /\ notes updated = notes bundle
    /\ createdAt updated = createdAt bundle
    /\ forall (σ : Store.store) (l : Store.loc),
         σ !! l = Some bundle ->
         exists l' : Store.loc,
           Store.updateBundleTotal σ l cards now
           = Some (<[l' := updated]> σ, Normal l')
           /\ l' <> l
           /\ <[l' := updated]> σ !! l = Some bundle
           /\ forall k : Store.loc, is_Some (σ !! k) ->
                <[l' := updated]> σ !! k = σ !! k.
Proof.
  intros Hm.
  pose proof (updateBundleTotal_cases bundle cards now) as Hc.
  rewrite (calculateBundleTotal_inRange _ _ _ Hm) in Hc |- *.
  eexists. eexists. split; [reflexivity |]. split; [exact Hc |].
  repeat (split; [reflexivity |]).
  intros σ l Hl.
  destruct (store_updateBundleTotal_alloc σ l bundle _ cards now Hl Hc)
    as (l' & Hcall & _ & Hne & Hkeep).
  exists l'. repeat split; auto.
  rewrite Hkeep; [exact Hl | eauto].
Qed.

(** The bundle of the source's example, re-totalled at 80% of the
    average prices 100, 150 and 200. *)
Lemma updateBundleTotal_frame_witness :
  inRange 0.8
  /\ exists updated : CardBundle,
      updateBundleTotal
        (Sample.bundle (JSString.lit "Charizard Collection")
           [JSString.lit "a"; JSString.lit "b"; JSString.lit "c"]
           average 0.8 0)
        [Sample.priced "a" None (Some 100%float) None;
         Sample.priced "b" None (Some 150%float) None;
         Sample.priced "c" None (Some 200%float) None]
        1730592000000%Z
      = Normal updated
      /\ calculatedTotal updated = 360%float
      /\ lastModified updated = 1730592000000%Z.
Proof.
  assert (H : inRange 0.8) by (split; reflexivity).
  split; [exact H |].
  destruct (updateBundleTotal_frame
              (Sample.bundle (JSString.lit "Charizard Collection")
                 [JSString.lit "a"; JSString.lit "b"; JSString.lit "c"]
                 average 0.8 0)
              [Sample.priced "a" None (Some 100%float) None;
               Sample.priced "b" None (Some 150%float) None;
               Sample.priced "c" None (Some 200%float) None]
              1730592000000%Z H)
    as (total & updated & Ht & Hu & Hc & Hl & _).
  exists updated. split; [exact Hu |]. split; [| exact Hl].
  rewrite Hc. vm_compute in Ht. injection Ht as <-. reflexivity.
Defined.

End UpdateBundleTotal.

(** ** Repeated identifiers *)

Section RepeatedIdentifiers.

Import Bundle.

Lemma membersOf_same_ids (b1 b2 : CardBundle) (cards : list Tcg.TCGCard) :
  (forall x : jsstring, x ∈ cardIDs b1 <-> x ∈ cardIDs b2) ->
  membersOf b1 cards = membersOf b2 cards.
Proof.
  intros Hsame. unfold membersOf.
  induction cards as [| c cards IH]; [reflexivity |].
  rewrite !filter_cons, IH.
  destruct (decide (Tcg.id c ∈ cardIDs b1)) as [H1 | H1];
    destruct (decide (Tcg.id c ∈ cardIDs b2)) as [H2 | H2];
    try reflexivity; exfalso; apply Hsame in H1 || apply Hsame in H2; auto.
Qed.

(** C7 (as amended).  [cardIDs] is only asked which ids it contains:
    two bundles whose [cardIDs] have the same elements, however often
    each is repeated, get the same statistics totals and the same
    valid-card count from every card list, and with equal strategy and
    multiplier the same recomputed total.  The totals are sums over
    the members of the card list, one term for every occurrence of a
    card in that list. *)
Theorem cardIDs_membership_only
  (b1 b2 : CardBundle) (cards : list Tcg.TCGCard) (now : Date) :
  (forall x : jsstring, x ∈ cardIDs b1 <-> x ∈ cardIDs b2) ->
  trendingTotal (calculateBundleStatistics b1 cards)
  = trendingTotal (calculateBundleStatistics b2 cards)
  /\ averageTotal (calculateBundleStatistics b1 cards)
     = averageTotal (calculateBundleStatistics b2 cards)
  /\ lowTotal (calculateBundleStatistics b1 cards)
     = lowTotal (calculateBundleStatistics b2 cards)
  /\ validCardCount (calculateBundleStatistics b1 cards)
     = validCardCount (calculateBundleStatistics b2 cards)
  /\ trendingTotal (calculateBundleStatistics b1 cards)
     = tierSum trending (membersOf b1 cards)
  /\ (pricingStrategy b1 = pricingStrategy b2 ->
      percentageMultiplier b1 = percentageMultiplier b2 ->
      match updateBundleTotal b1 cards now, updateBundleTotal b2 cards now with
      | Normal u1, Normal u2 => calculatedTotal u1 = calculatedTotal u2
      | Throw e1, Throw e2 => e1 = e2
      | _, _ => False
      end).
Proof.
  intros Hsame.
  pose proof (membersOf_same_ids b1 b2 cards Hsame) as Hm.
  rewrite !calculateBundleStatistics_members, Hm.
  cbn [trendingTotal averageTotal lowTotal validCardCount].
  repeat (split; [reflexivity |]).
  intros Hs Hp.
  pose proof (updateBundleTotal_cases b1 cards now) as H1.
  pose proof (updateBundleTotal_cases b2 cards now) as H2.
  rewrite Hm, Hs, Hp in H1.
  destruct (calculateBundleTotal _ _ _); rewrite H1, H2; reflexivity.
Qed.

(** The bundle that lists one card twice and the bundle that lists it
    once. *)
Lemma cardIDs_membership_only_witness :
  trendingTotal
    (calculateBundleStatistics
       (Sample.bundle (JSString.lit "Deck")
          [JSString.lit "a"; JSString.lit "a"] trending 1 0)
       [Sample.priced "a" (Some 10%float) None None])
  = trendingTotal
      (calculateBundleStatistics
         (Sample.bundle (JSString.lit "Deck") [JSString.lit "a"] trending 1 0)
         [Sample.priced "a" (Some 10%float) None None]).
Proof.
  refine (proj1 (cardIDs_membership_only
                   (Sample.bundle (JSString.lit "Deck")
                      [JSString.lit "a"; JSString.lit "a"] trending 1 0)
                   (Sample.bundle (JSString.lit "Deck")
                      [JSString.lit "a"] trending 1 0)
                   [Sample.priced "a" (Some 10%float) None None] 0%Z _)).
  intros x. simpl. rewrite !elem_of_cons. tauto.
Defined.

(** C7 as stated fails: the id ["a"] occurs twice in [cardIDs] and
    resolves to a card priced 10, yet the card contributes 10, not 20,
    to the statistics and to the recomputed total, while [cardCount]
    is 2. *)
Lemma repeated_id_counts_once :
  calculateBundleStatistics
    (Sample.bundle (JSString.lit "Deck")
       [JSString.lit "a"; JSString.lit "a"] trending 1 0)
    [Sample.priced "a" (Some 10%float) (Some 10%float) (Some 10%float)]
  = {| trendingTotal := 10;
       averageTotal := 10;
       lowTotal := 10;
       selectedTotal := 0;
       cardCount := 2;
       validCardCount := 1 |}
  /\ match
       updateBundleTotal
         (Sample.bundle (JSString.lit "Deck")
            [JSString.lit "a"; JSString.lit "a"] trending 1 0)
         [Sample.priced "a" (Some 10%float) (Some 10%float) (Some 10%float)]
         0%Z
     with
     | Normal updated => calculatedTotal updated = 10%float
     | Throw _ => False
     end
  /\ 10%float <> 20%float.
Proof.
  split; [vm_compute; reflexivity |]. split; [vm_compute; reflexivity |].
  intros H. apply (f_equal Prim2SF) in H. vm_compute in H. discriminate.
Qed.

End RepeatedIdentifiers.

(** ** Determinism and the clock *)

Section Determinism.

Import Bundle.

(** C8 as stated fails for [updateBundleTotal]: the same bundle and
    cards, one millisecond apart, give two different results. *)
Lemma updateBundleTotal_reads_clock :
  updateBundleTotal
    (Sample.bundle (JSString.lit "Deck") [JSString.lit "a"] trending 1 0)
    [Sample.priced "a" (Some 10%float) None None] 1730592000000%Z
  <> updateBundleTotal
       (Sample.bundle (JSString.lit "Deck") [JSString.lit "a"] trending 1 0)
       [Sample.priced "a" (Some 10%float) None None] 1730592000001%Z.
Proof.
  intros H.
  pose proof (updateBundleTotal_cases
                (Sample.bundle (JSString.lit "Deck") [JSString.lit "a"]
                   trending 1 0)
                [Sample.priced "a" (Some 10%float) None None]) as Hc.
  assert (Hr : inRange 1) by (split; reflexivity).
  rewrite (calculateBundleTotal_inRange _ _ _ Hr) in Hc.
  rewrite !Hc in H. injection H as H. discriminate.
Qed.

End Determinism.

(** ** validateBundle *)

Section ValidateBundle.

Import Bundle.

Lemma outOfRange_test (m : number) :
  (m <? 0.1)%float || gtb m 1.0 = true <-> outOfRange m.
Proof.
  unfold outOfRange, gtb. rewrite orb_true_iff. reflexivity.
Qed.

(** [validateBundle] returns the messages of all violations it tests
    for, in this order and each found independently of the others: the
    name is empty after trimming, [cardIDs] is empty, the multiplier is
    strictly below 0.1 or strictly above 1.0 (a multiplier in
    [0.1, 1.0] is never reported).  The result is valid exactly when
    the list is empty, and a bundle with empty name, no card and
    multiplier 1.5 gets exactly the three messages. *)
Theorem validateBundle_collects (bundle : CardBundle) :
  (exists e1 e2 e3 : list jsstring,
      errors (validateBundle bundle) = e1 ++ e2 ++ e3
      /\ (JSString.trim (name bundle) = [] /\ e1 = [nameRequired]
          \/ JSString.trim (name bundle) <> [] /\ e1 = [])
      /\ (cardIDs bundle = [] /\ e2 = [cardRequired]
          \/ cardIDs bundle <> [] /\ e2 = [])
      /\ (outOfRange (percentageMultiplier bundle) /\ e3 = [percentageRange]
          \/ ~ outOfRange (percentageMultiplier bundle) /\ e3 = [])
      /\ (inRange (percentageMultiplier bundle) -> e3 = []))
  /\ (isValid (validateBundle bundle) = true
      <-> errors (validateBundle bundle) = [])
  /\ (name bundle = [] -> cardIDs bundle = [] ->
      percentageMultiplier bundle = 1.5%float ->
      errors (validateBundle bundle)
      = [nameRequired; cardRequired; percentageRange]
      /\ length (errors (validateBundle bundle)) = 3%nat
      /\ isValid (validateBundle bundle) = false).
Proof.
  split; [| split].
  - exists (if negb (JSString.truthy (JSString.trim (name bundle)))
            then [nameRequired] else []),
      (if (length (cardIDs bundle) =? 0)%nat then [cardRequired] else []),
      (if (percentageMultiplier bundle <? 0.1)%float
          || gtb (percentageMultiplier bundle) 1.0
       then [percentageRange] else []).
    split; [| split; [| split; [| split]]].
    + unfold validateBundle, push. cbn [errors].
      destruct (negb _), (_ =? _)%nat, (_ || _); reflexivity.
    + destruct (JSString.trim (name bundle)); simpl; [left | right]; easy.
    + destruct (cardIDs bundle); simpl; [left | right]; easy.
    + destruct (_ || _) eqn:E; [left | right]; split; try reflexivity.
      * apply outOfRange_test, E.
      * intros H. apply outOfRange_test in H. congruence.
    + intros Hin. destruct (_ || _) eqn:E; [| reflexivity].
      apply outOfRange_test in E.
      destruct (inRange_not_outOfRange _ Hin E).
  - unfold validateBundle. cbn [isValid errors].
    rewrite Nat.eqb_eq. apply length_zero_iff_nil.
  - intros Hn Hc Hm. unfold validateBundle, push.
    rewrite Hn, Hc, Hm. repeat split.
Qed.

(** The bundle of the specification's example. *)
Lemma validateBundle_collects_witness :
  errors (validateBundle (Sample.bundle [] [] average 1.5 0))
  = [nameRequired; cardRequired; percentageRange]
  /\ length (errors (validateBundle (Sample.bundle [] [] average 1.5 0)))
     = 3%nat
  /\ isValid (validateBundle (Sample.bundle [] [] average 1.5 0)) = false.
Proof.
  apply (validateBundle_collects (Sample.bundle [] [] average 1.5 0));
    reflexivity.
Defined.

(** NaN compares false with everything: it is neither in the range nor
    strictly outside it, no violation is reported for it, and
    [calculateBundleTotal] returns NaN for it instead of throwing. *)
Lemma nan_multiplier_passes :
  ~ inRange nan /\ ~ outOfRange nan
  /\ validateBundle
       (Sample.bundle (JSString.lit "Deck") [JSString.lit "a"] average nan 0)
     = {| isValid := true; errors := [] |}
  /\ calculateBundleTotal
       [Sample.priced "a" None (Some 100%float) None] average nan
     = Normal nan.
Proof.
  split; [| split; [| split]].
  - intros [H _]. discriminate.
  - intros [H | H]; discriminate.
  - reflexivity.
  - reflexivity.
Qed.

End ValidateBundle.

(** ** getCardIdentifier *)

Section CardIdentifier.

Import Tcg.

Lemma trim_empty : JSString.trim [] = [].
Proof. reflexivity. Qed.

(** The key as the specification writes it. *)
Lemma getCardIdentifier_formula (card : TCGCard) :
  getCardIdentifier card
  = JSString.trim (cardName card) ++ JSString.lit "|"
    ++ JSString.trim (nullish (setName card) []) ++ JSString.lit "|"
    ++ JSString.trim (nullish (cardNumber card) []).
Proof.
  unfold getCardIdentifier, trimOrEmpty.
  destruct (setName card), (cardNumber card); reflexivity.
Qed.

(** A string is cut at its first ["|"] in one way only. *)
Lemma split_at_bar (a : jsstring) :
  forall a' r r' : jsstring,
    bar ∉ a -> bar ∉ a' ->
    a ++ bar :: r = a' ++ bar :: r' -> a = a' /\ r = r'.
Proof.
  induction a as [| x a IH]; intros [| y a'] r r' Ha Ha' E; simpl in E.
  - injection E as ->. auto.
  - injection E as <- _. exfalso. apply Ha'. left.
  - injection E as -> _. exfalso. apply Ha. left.
  - injection E as -> E.
    apply not_elem_of_cons in Ha as [_ Ha].
    apply not_elem_of_cons in Ha' as [_ Ha'].
    destruct (IH a' r r' Ha Ha' E) as [-> ->]. auto.
Qed.

(** C9 (as amended).  [getCardIdentifier] returns
    [trim(cardName) + "|" + trim(setName ?? "") + "|" + trim(cardNumber ?? "")];
    two cards with identical [cardName], [setName] and [cardNumber] get
    identical strings whatever their [id] and other fields; and two
    cards that differ in the trimmed [cardName], the trimmed [setName]
    or the trimmed [cardNumber] (an absent one read as empty) get
    different strings, provided no trimmed [cardName] or [setName] of
    the two contains ["|"]. *)
Theorem getCardIdentifier_key (c1 c2 : TCGCard) :
  getCardIdentifier c1
  = JSString.trim (cardName c1) ++ JSString.lit "|"
    ++ JSString.trim (nullish (setName c1) []) ++ JSString.lit "|"
    ++ JSString.trim (nullish (cardNumber c1) [])
  /\ (cardName c1 = cardName c2 -> setName c1 = setName c2 ->
      cardNumber c1 = cardNumber c2 ->
      getCardIdentifier c1 = getCardIdentifier c2)
  /\ (bar ∉ JSString.trim (cardName c1) ->
      bar ∉ JSString.trim (cardName c2) ->
      bar ∉ JSString.trim (nullish (setName c1) []) ->
      bar ∉ JSString.trim (nullish (setName c2) []) ->
      JSString.trim (cardName c1) <> JSString.trim (cardName c2)
      \/ JSString.trim (nullish (setName c1) [])
         <> JSString.trim (nullish (setName c2) [])
      \/ JSString.trim (nullish (cardNumber c1) [])
         <> JSString.trim (nullish (cardNumber c2) []) ->
      getCardIdentifier c1 <> getCardIdentifier c2).
Proof.
  split; [apply getCardIdentifier_formula |]. split.
  - intros Hn Hs Hk. unfold getCardIdentifier. rewrite Hn, Hs, Hk.
    reflexivity.
  - intros Hn1 Hn2 Hs1 Hs2 Hdiff E.
    rewrite !getCardIdentifier_formula in E.
    change (JSString.lit "|") with [bar] in E. simpl app in E.
    apply split_at_bar in E as [En E]; try assumption.
    apply split_at_bar in E as [Es Ek]; try assumption.
    destruct Hdiff as [H | [H | H]]; contradiction.
Qed.

(** Two scans of one card share the key; the card of another set has
    another key. *)
Lemma getCardIdentifier_key_witness :
  getCardIdentifier
    (Sample.card (JSString.lit "scan-1") (JSString.lit "Charizard")
       (Some (JSString.lit "Base Set")) (Some (JSString.lit "4/102"))
       None None None)
  = getCardIdentifier
      (Sample.card (JSString.lit "scan-2") (JSString.lit "Charizard")
         (Some (JSString.lit "Base Set")) (Some (JSString.lit "4/102"))
         (Some 145%float) None None)
  /\ getCardIdentifier
       (Sample.card (JSString.lit "scan-1") (JSString.lit "Charizard")
          (Some (JSString.lit "Base Set")) (Some (JSString.lit "4/102"))
          None None None)
     <> getCardIdentifier
          (Sample.card (JSString.lit "scan-1") (JSString.lit "Charizard")
             (Some (JSString.lit "Base Set 2")) (Some (JSString.lit "4/102"))
             None None None).
Proof.
  split.
  - apply (getCardIdentifier_key
             (Sample.card (JSString.lit "scan-1") (JSString.lit "Charizard")
                (Some (JSString.lit "Base Set")) (Some (JSString.lit "4/102"))
                None None None)
             (Sample.card (JSString.lit "scan-2") (JSString.lit "Charizard")
                (Some (JSString.lit "Base Set")) (Some (JSString.lit "4/102"))
                (Some 145%float) None None)); reflexivity.
  - apply (getCardIdentifier_key
             (Sample.card (JSString.lit "scan-1") (JSString.lit "Charizard")
                (Some (JSString.lit "Base Set")) (Some (JSString.lit "4/102"))
                None None None)
             (Sample.card (JSString.lit "scan-1") (JSString.lit "Charizard")
                (Some (JSString.lit "Base Set 2")) (Some (JSString.lit "4/102"))
                None None None)).
    + intros H. vm_compute in H.
      repeat (apply elem_of_cons in H as [H | H]; [discriminate H |]).
      apply elem_of_nil in H. exact H.
    + intros H. vm_compute in H.
      repeat (apply elem_of_cons in H as [H | H]; [discriminate H |]).
      apply elem_of_nil in H. exact H.
    + intros H. vm_compute in H.
      repeat (apply elem_of_cons in H as [H | H]; [discriminate H |]).
      apply elem_of_nil in H. exact H.
    + intros H. vm_compute in H.
      repeat (apply elem_of_cons in H as [H | H]; [discriminate H |]).
      apply elem_of_nil in H. exact H.
    + right. left. vm_compute. discriminate.
Defined.

(** C9 as stated fails: cards that differ in one of the three fields
    can share the key.  A trailing space in the name is trimmed away;
    an absent set name and an empty one both read as empty; and a
    ["|"] inside a field moves the field boundary. *)
Lemma getCardIdentifier_collisions :
  (JSString.lit "Pikachu" <> JSString.lit "Pikachu "
   /\ getCardIdentifier
        (Sample.card (JSString.lit "1") (JSString.lit "Pikachu")
           None None None None None)
      = getCardIdentifier
          (Sample.card (JSString.lit "2") (JSString.lit "Pikachu ")
             None None None None None))
  /\ (None <> Some (JSString.lit "")
      /\ getCardIdentifier
           (Sample.card (JSString.lit "1") (JSString.lit "Pikachu")
              None None None None None)
         = getCardIdentifier
             (Sample.card (JSString.lit "2") (JSString.lit "Pikachu")
                (Some (JSString.lit "")) None None None None))
  /\ (JSString.lit "A|B" <> JSString.lit "A"
      /\ getCardIdentifier
           (Sample.card (JSString.lit "1") (JSString.lit "A|B")
              (Some (JSString.lit "C")) None None None None)
         = getCardIdentifier
             (Sample.card (JSString.lit "2") (JSString.lit "A")
                (Some (JSString.lit "B|C")) None None None None)).
Proof.
  repeat split; try discriminate.
Qed.

End CardIdentifier.

(** * Further properties of the valuation code *)

(** ** More binary64 facts *)

Section Binary64Exact.

Local Open Scope Z_scope.

Lemma shift_52 (m : positive) :
  (4503599627370496 * m)%positive = Pos.iter xO m 52.
Proof. reflexivity. Qed.

Lemma digits_shift_52 (m : positive) :
  Z.pos (digits2_pos (Pos.iter xO m 52)) = Z.pos (digits2_pos m) + 52.
Proof. simpl Pos.iter. cbn [digits2_pos]. lia. Qed.

(** The product with 1 is computed on a mantissa shifted left by 52
    bits and shifted back without loss. *)
Lemma SFmul_one_r (x : spec_float) :
  valid_binary x = true ->
  SFmul prec emax x (S754_finite false 4503599627370496 (-52)) = x.
Proof.
  destruct x as [s | s | | s m e]; intros V;
    try (destruct s; reflexivity); try reflexivity.
  unfold SFmul. rewrite xorb_false_r.
  simpl in V. unfold bounded, canonical_mantissa in V.
  apply andb_prop in V as [Hc Hb]. apply Z.eqb_eq in Hc.
  rewrite Pos.mul_comm, shift_52.
  unfold binary_round_aux, shr_fexp at 1.
  cbn [Zdigits2]. rewrite digits_shift_52.
  replace (Z.pos (digits2_pos m) + 52 + (e + -52))
    with (Z.pos (digits2_pos m) + e) by lia.
  rewrite Hc.
  replace (e - (e + -52)) with 52 by lia.
  simpl Pos.iter.
  cbn [shr shr_record_of_loc SpecFloat.iter_pos shr_1 orb].
  cbn [shr_m loc_of_shr_record round_nearest_even].
  replace (e + -52 + 52) with e by lia.
  unfold shr_fexp. cbn [Zdigits2]. rewrite Hc, Z.sub_diag.
  cbn [shr shr_record_of_loc shr_m]. rewrite Hb. reflexivity.
Qed.

Local Close Scope Z_scope.

Lemma float_mul_one_r (x : float) : (x * 1)%float = x.
Proof.
  apply Prim2SF_inj. rewrite mul_spec.
  change (Prim2SF 1) with (S754_finite false 4503599627370496 (-52)%Z).
  apply SFmul_one_r, Prim2SF_valid.
Qed.

Lemma float_add_zero_l (x : float) : x <> neg_zero -> (0 + x)%float = x.
Proof.
  intros Hx. apply Prim2SF_inj. rewrite add_spec.
  change (Prim2SF 0) with (S754_zero false). rewrite SFadd_zero_l.
  destruct (Prim2SF x) as [[] | | |] eqn:E; try reflexivity.
  exfalso. apply Hx. apply Prim2SF_inj. rewrite E. reflexivity.
Qed.

End Binary64Exact.

(** ** How the bundle operations compose *)

Section Composition.

Import Bundle.

(** When the guard passes, the total is the sum times the multiplier. *)
Lemma calculateBundleTotal_normal
  (cards : list Tcg.TCGCard) (strategy : PricingStrategy) (m total : number) :
  calculateBundleTotal cards strategy m = Normal total ->
  total = (tierSum strategy cards * m)%float.
Proof.
  unfold calculateBundleTotal. destruct (_ || _); [discriminate |].
  rewrite fold_tierValue. intros [= <-]. reflexivity.
Qed.

(** The guard of [calculateBundleTotal] is the third test of
    [validateBundle]. *)
Lemma calculateBundleTotal_guard
  (cards : list Tcg.TCGCard) (strategy : PricingStrategy) (m : number) :
  calculateBundleTotal cards strategy m
  = if (m <? 0.1)%float || gtb m 1.0
    then Throw multiplierError
    else Normal (tierSum strategy cards * m)%float.
Proof.
  unfold calculateBundleTotal. destruct (_ || _); [reflexivity |].
  rewrite fold_tierValue. reflexivity.
Qed.

Lemma validateBundle_errors (bundle : CardBundle) :
  errors (validateBundle bundle)
  = (if negb (JSString.truthy (JSString.trim (name bundle)))
     then [nameRequired] else [])
    ++ (if (length (cardIDs bundle) =? 0)%nat then [cardRequired] else [])
    ++ (if (percentageMultiplier bundle <? 0.1)%float
           || gtb (percentageMultiplier bundle) 1.0
        then [percentageRange] else []).
Proof.
  unfold validateBundle, push. cbn [errors].
  destruct (negb _), (_ =? _)%nat, (_ || _); reflexivity.
Qed.

(** [updateBundleTotal] throws exactly for the bundles for which
    [validateBundle] reports the percentage message, and it throws
    nothing else; a bundle that validates is always re-totalled. *)
Theorem updateBundleTotal_throws_iff_reported
  (bundle : CardBundle) (cards : list Tcg.TCGCard) (now : Date) :
  (In percentageRange (errors (validateBundle bundle))
   <-> updateBundleTotal bundle cards now = Throw multiplierError)
  /\ (forall e : exn,
        updateBundleTotal bundle cards now = Throw e -> e = multiplierError)
  /\ (isValid (validateBundle bundle) = true ->
      exists updated : CardBundle,
        updateBundleTotal bundle cards now = Normal updated).
Proof.
  pose proof (updateBundleTotal_cases bundle cards now) as Hc.
  rewrite calculateBundleTotal_guard in Hc.
  assert (Hin : In percentageRange (errors (validateBundle bundle))
                <-> (percentageMultiplier bundle <? 0.1)%float
                    || gtb (percentageMultiplier bundle) 1.0 = true).
  { rewrite validateBundle_errors.
    destruct (negb _), (_ =? _)%nat, (_ || _); simpl; split;
      try reflexivity; try discriminate; try tauto;
      intros H; repeat (destruct H as [H | H]; [discriminate H |]);
      contradiction. }
  split; [| split].
  - rewrite Hin. destruct (_ || _); rewrite Hc; split;
      try reflexivity; discriminate.
  - intros e He. destruct (_ || _); rewrite Hc in He; congruence.
  - intros Hv. unfold validateBundle in Hv. cbn [isValid] in Hv.
    apply Nat.eqb_eq, length_zero_iff_nil in Hv.
    fold (errors {| isValid := (length (errors (validateBundle bundle)) =? 0)%nat;
                    errors := errors (validateBundle bundle) |}) in Hv.
    assert (Hno : ~ In percentageRange (errors (validateBundle bundle))).
    { unfold validateBundle at 1. cbn [errors]. rewrite Hv. intros []. }
    rewrite Hin in Hno. destruct (_ || _); [congruence |]. eauto.
Qed.

(** The recomputed total is the statistics total of the bundle's
    strategy times the bundle's multiplier. *)
Theorem updateBundleTotal_matches_statistics
  (bundle updated : CardBundle) (cards : list Tcg.TCGCard) (now : Date) :
  updateBundleTotal bundle cards now = Normal updated ->
  calculatedTotal updated
  = (strategyTotal (pricingStrategy bundle)
       (calculateBundleStatistics bundle cards)
     * percentageMultiplier bundle)%float.
Proof.
  intros Hu.
  pose proof (updateBundleTotal_cases bundle cards now) as Hc.
  destruct (calculateBundleTotal _ _ _) as [total | e] eqn:Ht;
    rewrite Hc in Hu; [| discriminate].
  injection Hu as <-. cbn [calculatedTotal].
  rewrite (calculateBundleTotal_normal _ _ _ _ Ht).
  rewrite calculateBundleStatistics_members.
  destruct (pricingStrategy bundle); reflexivity.
Qed.

Lemma updateBundleTotal_matches_statistics_witness :
  exists updated : CardBundle,
    updateBundleTotal
      (Sample.bundle (JSString.lit "Deck")
         [JSString.lit "a"; JSString.lit "b"] low 0.9 0)
      [Sample.priced "a" None None (Some 0.1%float);
       Sample.priced "b" (Some 3%float) None (Some 0.2%float)] 0%Z
    = Normal updated
    /\ calculatedTotal updated
       = (lowTotal
            (calculateBundleStatistics
               (Sample.bundle (JSString.lit "Deck")
                  [JSString.lit "a"; JSString.lit "b"] low 0.9 0)
               [Sample.priced "a" None None (Some 0.1%float);
                Sample.priced "b" (Some 3%float) None (Some 0.2%float)])
          * 0.9)%float.
Proof.
  eexists. split; [vm_compute; reflexivity |].
  apply (updateBundleTotal_matches_statistics
           (Sample.bundle (JSString.lit "Deck")
              [JSString.lit "a"; JSString.lit "b"] low 0.9 0)
           _
           [Sample.priced "a" None None (Some 0.1%float);
            Sample.priced "b" (Some 3%float) None (Some 0.2%float)] 0%Z).
  vm_compute. reflexivity.
Defined.

(** Re-totalling a re-totalled bundle gives what re-totalling the
    original gives at that time: the stored total and timestamp of the
    input are never read. *)
Theorem updateBundleTotal_idempotent
  (bundle updated : CardBundle) (cards : list Tcg.TCGCard) (t1 t2 : Date) :
  updateBundleTotal bundle cards t1 = Normal updated ->
  updateBundleTotal updated cards t2 = updateBundleTotal bundle cards t2.
Proof.
  intros Hu. unfold updateBundleTotal in *.
  destruct (calculateBundleTotal (bundleCardsOf bundle cards) _ _)
    as [total | e] eqn:Ht; [| discriminate].
  injection Hu as <-. unfold bundleCardsOf in *.
  cbn [cardIDs pricingStrategy percentageMultiplier id name notes createdAt].
  rewrite Ht. reflexivity.
Qed.

Lemma updateBundleTotal_idempotent_witness :
  exists updated : CardBundle,
    updateBundleTotal
      (Sample.bundle (JSString.lit "Deck") [JSString.lit "a"] trending 0.5 99)
      [Sample.priced "a" (Some 10%float) None None] 1%Z
    = Normal updated
    /\ updateBundleTotal updated
         [Sample.priced "a" (Some 10%float) None None] 2%Z
       = updateBundleTotal
           (Sample.bundle (JSString.lit "Deck") [JSString.lit "a"]
              trending 0.5 99)
           [Sample.priced "a" (Some 10%float) None None] 2%Z.
Proof.
  eexists. split; [vm_compute; reflexivity |].
  apply (updateBundleTotal_idempotent
           (Sample.bundle (JSString.lit "Deck") [JSString.lit "a"]
              trending 0.5 99)
           _ [Sample.priced "a" (Some 10%float) None None] 1%Z 2%Z).
  vm_compute. reflexivity.
Defined.

End Composition.

(** ** Which cards count *)

Section Members.

Import Bundle.

Lemma membersOf_none (bundle : CardBundle) (cards : list Tcg.TCGCard) :
  (forall card, In card cards -> Tcg.id card ∉ cardIDs bundle) ->
  membersOf bundle cards = [].
Proof.
  unfold membersOf. induction cards as [| c cards IH]; intros H;
    [reflexivity |].
  rewrite filter_cons, decide_False by (apply H; left; reflexivity).
  apply IH. intros card Hin. apply H. right. exact Hin.
Qed.

Lemma membersOf_drop
  (bundle : CardBundle) (xs ys : list Tcg.TCGCard) (card : Tcg.TCGCard) :
  Tcg.id card ∉ cardIDs bundle ->
  membersOf bundle (xs ++ card :: ys) = membersOf bundle (xs ++ ys).
Proof.
  intros H. unfold membersOf.
  rewrite !filter_app, filter_cons, decide_False by exact H. reflexivity.
Qed.

(** An id of the bundle that no card carries is skipped without an
    error.  When no card of the list is in the bundle (the list is
    empty, [cardIDs] is empty, or no id resolves), all statistics
    totals and the valid-card count are 0 while [cardCount] still is
    the number of ids, and with a multiplier in range the recomputed
    total is 0. *)
Theorem unresolved_ids_are_skipped
  (bundle : CardBundle) (cards : list Tcg.TCGCard) (now : Date) :
  (forall card, In card cards -> Tcg.id card ∉ cardIDs bundle) ->
  calculateBundleStatistics bundle cards
  = {| trendingTotal := 0;
       averageTotal := 0;
       lowTotal := 0;
       selectedTotal := calculatedTotal bundle;
       cardCount := length (cardIDs bundle);
       validCardCount := 0 |}
  /\ (inRange (percentageMultiplier bundle) ->
      exists updated : CardBundle,
        updateBundleTotal bundle cards now = Normal updated
        /\ calculatedTotal updated = 0%float).
Proof.
  intros Hnone. pose proof (membersOf_none bundle cards Hnone) as Hm.
  split.
  - rewrite calculateBundleStatistics_members, Hm. reflexivity.
  - intros Hr.
    pose proof (updateBundleTotal_cases bundle cards now) as Hc.
    rewrite Hm, (calculateBundleTotal_inRange _ _ _ Hr) in Hc.
    eexists. split; [exact Hc |]. cbn [calculatedTotal].
    apply float_mul_zero_l, Hr.
Qed.

(** A bundle of three ids of which the store has none. *)
Lemma unresolved_ids_are_skipped_witness :
  cardCount
    (calculateBundleStatistics
       (Sample.bundle (JSString.lit "Deck")
          [JSString.lit "a"; JSString.lit "b"; JSString.lit "c"]
          average 0.8 360)
       [Sample.priced "x" (Some 5%float) (Some 5%float) (Some 5%float)])
  = 3%nat
  /\ averageTotal
       (calculateBundleStatistics
          (Sample.bundle (JSString.lit "Deck")
             [JSString.lit "a"; JSString.lit "b"; JSString.lit "c"]
             average 0.8 360)
          [Sample.priced "x" (Some 5%float) (Some 5%float) (Some 5%float)])
     = 0%float.
Proof.
  assert (H : forall card,
             In card
               [Sample.priced "x" (Some 5%float) (Some 5%float) (Some 5%float)] ->
             Tcg.id card
             ∉ cardIDs
                 (Sample.bundle (JSString.lit "Deck")
                    [JSString.lit "a"; JSString.lit "b"; JSString.lit "c"]
                    average 0.8 360)).
  { intros card [<- | []] Hin. vm_compute in Hin.
    repeat (apply elem_of_cons in Hin as [Hin | Hin]; [discriminate Hin |]).
    apply elem_of_nil in Hin. exact Hin. }
  rewrite (proj1 (unresolved_ids_are_skipped _ _ 0%Z H)).
  split; reflexivity.
Defined.

(** A card whose id is not in [cardIDs] has no influence: the
    statistics and the recomputed bundle are the same with and without
    it, wherever it stands in the list. *)
Theorem non_member_card_is_ignored
  (bundle : CardBundle) (xs ys : list Tcg.TCGCard) (card : Tcg.TCGCard)
  (now : Date) :
  Tcg.id card ∉ cardIDs bundle ->
  calculateBundleStatistics bundle (xs ++ card :: ys)
  = calculateBundleStatistics bundle (xs ++ ys)
  /\ updateBundleTotal bundle (xs ++ card :: ys) now
     = updateBundleTotal bundle (xs ++ ys) now.
Proof.
  intros H. pose proof (membersOf_drop bundle xs ys card H) as Hm. split.
  - rewrite !calculateBundleStatistics_members, Hm. reflexivity.
  - unfold updateBundleTotal. rewrite !bundleCardsOf_membersOf, Hm.
    reflexivity.
Qed.

Lemma non_member_card_is_ignored_witness :
  calculateBundleStatistics
    (Sample.bundle (JSString.lit "Deck") [JSString.lit "a"] average 0.8 0)
    ([Sample.priced "a" None (Some 100%float) None]
     ++ Sample.priced "x" (Some 5%float) (Some 5%float) (Some 5%float)
        :: [Sample.priced "a" None (Some 50%float) None])
  = calculateBundleStatistics
      (Sample.bundle (JSString.lit "Deck") [JSString.lit "a"] average 0.8 0)
      ([Sample.priced "a" None (Some 100%float) None]
       ++ [Sample.priced "a" None (Some 50%float) None]).
Proof.
  refine (proj1 (non_member_card_is_ignored
                   (Sample.bundle (JSString.lit "Deck") [JSString.lit "a"]
                      average 0.8 0)
                   [Sample.priced "a" None (Some 100%float) None]
                   [Sample.priced "a" None (Some 50%float) None]
                   (Sample.priced "x" (Some 5%float) (Some 5%float)
                      (Some 5%float))
                   0%Z _)).
  intros Hin. vm_compute in Hin.
  repeat (apply elem_of_cons in Hin as [Hin | Hin]; [discriminate Hin |]).
  apply elem_of_nil in Hin. exact Hin.
Defined.

Lemma filter_ids_NoDup (f : Tcg.TCGCard -> bool) (cards : list Tcg.TCGCard) :
  List.NoDup (map Tcg.id cards) ->
  List.NoDup (map Tcg.id (List.filter f cards)).
Proof.
  induction cards as [| c cards IH]; intros Hnd; [constructor |].
  simpl in Hnd. apply List.NoDup_cons_iff in Hnd as [Hnotin Hnd].
  simpl. destruct (f c); [| apply IH, Hnd].
  simpl. apply List.NoDup_cons; [| apply IH, Hnd].
  intros Hin. apply Hnotin.
  apply List.in_map_iff in Hin as (c' & E & Hin).
  apply List.filter_In in Hin as [Hin _].
  apply List.in_map_iff. eauto.
Qed.

Lemma members_at_most_ids (bundle : CardBundle) (cards : list Tcg.TCGCard) :
  List.NoDup (map Tcg.id cards) ->
  length (bundleCardsOf bundle cards) <= length (cardIDs bundle).
Proof.
  intros Hnd. rewrite <- (List.length_map Tcg.id).
  apply List.NoDup_incl_length.
  - apply filter_ids_NoDup, Hnd.
  - intros x Hin. apply List.in_map_iff in Hin as (c & <- & Hin).
    apply List.filter_In in Hin as [_ Hin].
    apply includes_elem_of, list_elem_of_In in Hin. exact Hin.
Qed.

(** When the cards of the list have pairwise distinct ids, the cards
    that count are at most as many as the bundle's ids: the valid-card
    count never exceeds [cardCount].  (Two cards that share an id both
    count, so without the condition it can.) *)
Theorem validCardCount_at_most_cardCount
  (bundle : CardBundle) (cards : list Tcg.TCGCard) :
  List.NoDup (map Tcg.id cards) ->
  validCardCount (calculateBundleStatistics bundle cards)
  <= cardCount (calculateBundleStatistics bundle cards).
Proof.
  intros Hnd. rewrite calculateBundleStatistics_members.
  cbn [validCardCount cardCount].
  rewrite <- bundleCardsOf_membersOf.
  etransitivity; [| apply members_at_most_ids, Hnd].
  generalize (bundleCardsOf bundle cards). intros l.
  induction l as [| c l IH]; simpl; [lia |].
  destruct (hasTrending c); simpl; lia.
Qed.

Lemma validCardCount_at_most_cardCount_witness :
  validCardCount
    (calculateBundleStatistics
       (Sample.bundle (JSString.lit "Deck")
          [JSString.lit "a"; JSString.lit "b"] trending 1 0)
       [Sample.priced "a" (Some 1%float) None None;
        Sample.priced "b" None (Some 2%float) None])
  <= cardCount
       (calculateBundleStatistics
          (Sample.bundle (JSString.lit "Deck")
             [JSString.lit "a"; JSString.lit "b"] trending 1 0)
          [Sample.priced "a" (Some 1%float) None None;
           Sample.priced "b" None (Some 2%float) None]).
Proof.
  apply validCardCount_at_most_cardCount.
  repeat constructor; simpl; intros H;
    repeat (destruct H as [H | H]; [discriminate H |]); exact H.
Defined.

End Members.

(** ** The price table and the bundle total agree *)

Section TableAndTotal.

Import Bundle.

Lemma percentages_inRange (p : number) :
  In p Tcg.percentages -> inRange (p / 100)%float.
Proof.
  unfold Tcg.percentages. simpl. intros H.
  repeat (destruct H as [<- | H]; [split; reflexivity |]). contradiction.
Qed.

Lemma rowValue_scaled
  (card : Tcg.TCGCard) (strategy : PricingStrategy) (row : Tcg.PriceTableRow) :
  In row (Tcg.generatePriceTable card) ->
  rowValue strategy row
  = (tierValue strategy card * (Tcg.percentage row / 100))%float.
Proof.
  intros Hin. pose proof (generatePriceTable_scaled card) as Hs.
  rewrite List.Forall_forall in Hs. destruct (Hs row Hin) as (Ht & Ha & Hl).
  destruct strategy; assumption.
Qed.

(** A row of a card's price table shows, for each strategy, the total
    of the bundle that holds just that card at the row's percentage:
    every percentage of the table is a multiplier that
    [calculateBundleTotal] accepts.  (A price of [-0] is excepted: the
    sum from 0 turns it into [+0].) *)
Theorem priceTable_row_is_single_card_total
  (card : Tcg.TCGCard) (strategy : PricingStrategy) (row : Tcg.PriceTableRow) :
  In row (Tcg.generatePriceTable card) ->
  getPriceForStrategy card strategy <> Some neg_zero ->
  calculateBundleTotal [card] strategy (Tcg.percentage row / 100)%float
  = Normal (rowValue strategy row).
Proof.
  intros Hin Hnz.
  assert (Hr : inRange (Tcg.percentage row / 100)%float).
  { apply percentages_inRange.
    apply List.in_map_iff in Hin as (p & <- & Hp). exact Hp. }
  rewrite (calculateBundleTotal_inRange _ _ _ Hr).
  rewrite (rowValue_scaled card strategy row Hin).
  unfold tierSum, sumLeft. cbn [map fold_left].
  rewrite float_add_zero_l; [reflexivity |].
  unfold tierValue. revert Hnz.
  destruct (getPriceForStrategy card strategy) as [v |]; simpl; intros Hnz;
    [| apply zero_not_neg_zero].
  intros E. apply Hnz. rewrite E. reflexivity.
Qed.

(** The 70% row of a card with average price 128.29. *)
Lemma priceTable_row_is_single_card_total_witness :
  calculateBundleTotal
    [Sample.priced "a" (Some 145%float) (Some 128.29%float) None]
    average (70 / 100)%float
  = Normal (128.29 * (70 / 100))%float.
Proof.
  apply (priceTable_row_is_single_card_total
           (Sample.priced "a" (Some 145%float) (Some 128.29%float) None)
           average
           {| Tcg.percentage := 70;
              Tcg.trendingValue := 145 * (70 / 100);
              Tcg.averageValue := 128.29 * (70 / 100);
              Tcg.lowValue := 0 * (70 / 100) |}).
  - simpl. do 3 right. left. reflexivity.
  - simpl. intros H.
    apply (f_equal (fun o => Prim2SF (nullish o 0%float))) in H.
    vm_compute in H. discriminate.
Defined.

(** At 100% the multiplier rounds nothing: the total is the sum itself,
    for every card list and strategy. *)
Theorem calculateBundleTotal_at_full_price
  (cards : list Tcg.TCGCard) (strategy : PricingStrategy) :
  calculateBundleTotal cards strategy 1.0%float
  = Normal (tierSum strategy cards).
Proof.
  assert (Hr : inRange 1.0) by (split; reflexivity).
  rewrite (calculateBundleTotal_inRange _ _ _ Hr).
  rewrite float_mul_one_r. reflexivity.
Qed.

(** The 100% row of the price table holds the card's three prices
    exactly (0 for an absent one), whatever the prices are. *)
Theorem priceTable_full_row_is_exact
  (card : Tcg.TCGCard) (row : Tcg.PriceTableRow) :
  In row (Tcg.generatePriceTable card) ->
  Tcg.percentage row = 100%float ->
  Tcg.trendingValue row = nullish (Tcg.trendingPrice card) 0%float
  /\ Tcg.averageValue row = nullish (Tcg.averagePrice card) 0%float
  /\ Tcg.lowValue row = nullish (Tcg.lowPrice card) 0%float.
Proof.
  intros Hin Hp. pose proof (generatePriceTable_scaled card) as Hs.
  rewrite List.Forall_forall in Hs. destruct (Hs row Hin) as (Ht & Ha & Hl).
  rewrite Hp in Ht, Ha, Hl.
  change (100 / 100)%float with 1%float in Ht, Ha, Hl.
  rewrite float_mul_one_r in Ht, Ha, Hl. auto.
Qed.

Lemma priceTable_full_row_is_exact_witness :
  Tcg.averageValue
    {| Tcg.percentage := 100;
       Tcg.trendingValue := 145 * (100 / 100);
       Tcg.averageValue := 128.29 * (100 / 100);
       Tcg.lowValue := 0 * (100 / 100) |}
  = 128.29%float.
Proof.
  refine (proj1 (proj2 (priceTable_full_row_is_exact
                          (Sample.priced "a" (Some 145%float)
                             (Some 128.29%float) None)
                          _ _ _))).
  - simpl. left. reflexivity.
  - reflexivity.
Defined.

End TableAndTotal.

(** ** The order of binary64 numbers *)

Section Order.

Import Utils.

Lemma SFcompare_keys (x y : spec_float) :
  x <> S754_nan -> y <> S754_nan ->
  match SFcompare x y with
  | Some Lt => keyLt (SFkey x) (SFkey y)
  | Some Eq => SFkey x = SFkey y
  | Some Gt => keyLt (SFkey y) (SFkey x)
  | None => False
  end.
Proof.
  intros Hx Hy.
  destruct x as [sx | sx | | sx mx ex], y as [sy | sy | | sy my ey];
    try congruence; try (destruct sx); try (destruct sy);
    simpl; unfold keyLt; simpl; try reflexivity; try lia;
    change (Pos.compare_cont Eq mx my) with (mx ?= my)%positive;
    destruct (Z.compare_spec ex ey); simpl;
    try destruct (Pos.compare_spec mx my); simpl; subst;
    try reflexivity; lia.
Qed.

Lemma SFcompare_some (x y : spec_float) :
  x <> S754_nan -> y <> S754_nan -> exists c, SFcompare x y = Some c.
Proof.
  intros Hx Hy.
  destruct x as [sx | sx | | sx mx ex], y as [sy | sy | | sy my ey];
    try congruence; simpl; eauto.
Qed.

Lemma keyLt_irrefl_cases (a b : Z * Z * Z) :
  keyLt a b -> ~ keyLt b a /\ a <> b.
Proof.
  destruct a as [[a1 a2] a3], b as [[b1 b2] b3]. unfold keyLt. simpl.
  intros H. split; [lia |]. intros [= -> -> ->]. lia.
Qed.

Lemma keyLt_trans_le (a b c : Z * Z * Z) :
  keyLt a b -> keyLt b c \/ b = c -> keyLt a c.
Proof.
  destruct a as [[a1 a2] a3], b as [[b1 b2] b3], c as [[c1 c2] c3].
  unfold keyLt. simpl. intros H [H' | [= <- <- <-]]; lia.
Qed.

(** Less composed with less-or-equal is less. *)
Lemma SFcompare_lt_le_trans (x y z : spec_float) :
  SFcompare x y = Some Lt ->
  SFcompare y z = Some Lt \/ SFcompare y z = Some Eq ->
  SFcompare x z = Some Lt.
Proof.
  intros Hxy Hyz.
  assert (Hx : x <> S754_nan) by (intros ->; discriminate).
  assert (Hy : y <> S754_nan) by (intros ->; destruct x; discriminate).
  assert (Hz : z <> S754_nan) by (intros ->; destruct Hyz as [H | H]; destruct y; discriminate).
  pose proof (SFcompare_keys x y Hx Hy) as Kxy. rewrite Hxy in Kxy.
  pose proof (SFcompare_keys y z Hy Hz) as Kyz.
  assert (Kxz : keyLt (SFkey x) (SFkey z)).
  { apply (keyLt_trans_le _ (SFkey y)); [exact Kxy |].
    destruct Hyz as [H | H]; rewrite H in Kyz; auto. }
  pose proof (SFcompare_keys x z Hx Hz) as K.
  destruct (SFcompare x z) as [[] |]; try contradiction; try reflexivity.
  - rewrite K in Kxz. apply keyLt_irrefl_cases in Kxz. tauto.
  - apply keyLt_irrefl_cases in Kxz. tauto.
Qed.

Lemma SFcompare_refl (x : spec_float) :
  x <> S754_nan -> SFcompare x x = Some Eq.
Proof.
  destruct x as [s | s | | s m e]; try congruence; intros _; simpl;
    try (destruct s; reflexivity); try reflexivity.
  rewrite Z.compare_refl.
  change (Pos.compare_cont Eq m m) with (m ?= m)%positive.
  rewrite Pos.compare_refl. destruct s; reflexivity.
Qed.

Lemma is_nan_false (x : float) :
  is_nan x = false <-> Prim2SF x <> S754_nan.
Proof.
  unfold is_nan. rewrite FloatAxioms.eqb_spec. unfold SFeqb. split.
  - intros H E. rewrite E in H. discriminate.
  - intros H. rewrite (SFcompare_refl _ H). reflexivity.
Qed.

Lemma ltb_cmp (a b : float) : (a <? b)%float = true <-> cmp a b = Some Lt.
Proof.
  rewrite ltb_spec. unfold SFltb, cmp.
  destruct (SFcompare _ _) as [[] |]; split; congruence.
Qed.

Lemma leb_cmp (a b : float) :
  (a <=? b)%float = true <-> cmp a b = Some Lt \/ cmp a b = Some Eq.
Proof.
  rewrite leb_spec. unfold SFleb, cmp.
  destruct (SFcompare _ _) as [[] |]; split; try tauto; try congruence;
    intros [H | H]; congruence.
Qed.

Lemma eqb_cmp (a b : float) : (a =? b)%float = true <-> cmp a b = Some Eq.
Proof.
  rewrite FloatAxioms.eqb_spec. unfold SFeqb, cmp.
  destruct (SFcompare _ _) as [[] |]; split; congruence.
Qed.

Lemma cmp_swap (a b : float) : cmp b a = option_map CompOpp (cmp a b).
Proof. apply SFcompare_antisym. Qed.

Lemma cmp_defined (a b : float) :
  is_nan a = false -> is_nan b = false -> exists c, cmp a b = Some c.
Proof.
  intros Ha Hb. apply SFcompare_some; apply is_nan_false; assumption.
Qed.

Lemma cmp_not_nan (a b : float) (c : comparison) :
  cmp a b = Some c -> is_nan a = false /\ is_nan b = false.
Proof.
  unfold cmp. intros H. split; apply is_nan_false; intros E; rewrite E in H;
    [| destruct (Prim2SF a)]; discriminate.
Qed.

Lemma isNegZero_spec (x : float) :
  isNegZero x = true -> Prim2SF x = S754_zero true.
Proof.
  unfold isNegZero. rewrite classify_spec. unfold SF64classify, SFclassify.
  destruct (Prim2SF x) as [[] | [] | | [] m e]; try discriminate;
    try reflexivity; destruct (_ =? _)%Z; discriminate.
Qed.

Lemma isPosZero_spec (x : float) :
  isPosZero x = true -> Prim2SF x = S754_zero false.
Proof.
  unfold isPosZero. rewrite classify_spec. unfold SF64classify, SFclassify.
  destruct (Prim2SF x) as [[] | [] | | [] m e]; try discriminate;
    try reflexivity; destruct (_ =? _)%Z; discriminate.
Qed.

Lemma cmp_zeros (a b : float) (s t : bool) :
  Prim2SF a = S754_zero s -> Prim2SF b = S754_zero t -> cmp a b = Some Eq.
Proof. unfold cmp. intros -> ->. reflexivity. Qed.

(** What [Math.max] returns for two numbers. *)
Lemma Math_max_cases (a b : float) :
  is_nan a = false -> is_nan b = false ->
  Math_max a b = b /\ (cmp a b = Some Lt \/ cmp a b = Some Eq)
  \/ Math_max a b = a /\ (cmp a b = Some Eq \/ cmp a b = Some Gt).
Proof.
  intros Ha Hb. unfold Math_max. rewrite Ha, Hb. simpl.
  destruct (cmp_defined a b Ha Hb) as [c Hc].
  destruct (a <? b)%float eqn:Hlt.
  - left. split; [reflexivity |]. left. apply ltb_cmp, Hlt.
  - destruct (isPosZero b && isNegZero a) eqn:Hz.
    + apply andb_prop in Hz as [Hzb Hza]. left. split; [reflexivity |].
      right. eapply cmp_zeros; [apply isNegZero_spec | apply isPosZero_spec];
        assumption.
    + right. split; [reflexivity |]. destruct c; auto.
      apply ltb_cmp in Hc. congruence.
Qed.

Lemma Math_min_cases (a b : float) :
  is_nan a = false -> is_nan b = false ->
  Math_min a b = b /\ (cmp b a = Some Lt \/ cmp b a = Some Eq)
  \/ Math_min a b = a /\ (cmp b a = Some Eq \/ cmp b a = Some Gt).
Proof.
  intros Ha Hb. unfold Math_min. rewrite Ha, Hb. simpl.
  destruct (cmp_defined b a Hb Ha) as [c Hc].
  destruct (b <? a)%float eqn:Hlt.
  - left. split; [reflexivity |]. left. apply ltb_cmp, Hlt.
  - destruct (isNegZero b && isPosZero a) eqn:Hz.
    + apply andb_prop in Hz as [Hzb Hza]. left. split; [reflexivity |].
      right. eapply cmp_zeros; [apply isNegZero_spec | apply isPosZero_spec];
        assumption.
    + right. split; [reflexivity |]. destruct c; auto.
      apply ltb_cmp in Hc. congruence.
Qed.

Lemma leb_refl (a : float) : is_nan a = false -> (a <=? a)%float = true.
Proof.
  intros Ha. apply leb_cmp. right. apply SFcompare_refl, is_nan_false, Ha.
Qed.

Lemma cmp_ge_leb (a b : float) :
  cmp a b = Some Eq \/ cmp a b = Some Gt -> (b <=? a)%float = true.
Proof.
  intros H. apply leb_cmp. rewrite cmp_swap.
  destruct H as [-> | ->]; simpl; auto.
Qed.

Lemma zero_is_zero (x : float) (s : bool) :
  Prim2SF x = S754_zero s -> is_zero x = true.
Proof.
  intros H. unfold is_zero. apply eqb_cmp. eapply cmp_zeros; [exact H |].
  reflexivity.
Qed.

Lemma leb_zero_sign (a b h : float) (s t : bool) :
  Prim2SF a = S754_zero s -> Prim2SF b = S754_zero t ->
  (a <=? h)%float = true -> (b <=? h)%float = true.
Proof.
  rewrite !leb_spec. intros -> ->. destruct (Prim2SF h); auto.
Qed.

End Order.

(** ** clamp *)

Section Clamp.

Import Utils.

Lemma clamp_bounds (value lo hi : float) :
  (lo <=? hi)%float = true -> is_nan value = false ->
  (lo <=? clamp value lo hi)%float = true
  /\ (clamp value lo hi <=? hi)%float = true.
Proof.
  intros Hb Hv.
  assert (Hn : is_nan lo = false /\ is_nan hi = false).
  { apply leb_cmp in Hb. destruct Hb as [H | H]; exact (cmp_not_nan _ _ _ H). }
  destruct Hn as [Hlo Hhi]. unfold clamp.
  assert (HM : (lo <=? Math_max value lo)%float = true
               /\ is_nan (Math_max value lo) = false).
  { destruct (Math_max_cases value lo Hv Hlo) as [[-> H] | [-> H]].
    - split; [apply leb_refl, Hlo | exact Hlo].
    - split; [apply cmp_ge_leb, H | exact Hv]. }
  destruct HM as [HM HMn].
  destruct (Math_min_cases (Math_max value lo) hi HMn Hhi) as [[-> H] | [-> H]].
  - split; [exact Hb | apply leb_refl, Hhi].
  - split; [exact HM |]. apply leb_cmp. rewrite cmp_swap.
    destruct H as [-> | ->]; simpl; auto.
Qed.

(** Without a NaN, [clamp] returns one of its three arguments. *)
Lemma clamp_selects (value lo hi : float) :
  is_nan value = false -> is_nan lo = false -> is_nan hi = false ->
  (clamp value lo hi = value \/ clamp value lo hi = lo
   \/ clamp value lo hi = hi)
  /\ is_nan (clamp value lo hi) = false.
Proof.
  intros Hv Hlo Hhi. unfold clamp.
  assert (HM : (Math_max value lo = value \/ Math_max value lo = lo)
               /\ is_nan (Math_max value lo) = false).
  { destruct (Math_max_cases value lo Hv Hlo) as [[-> _] | [-> _]]; auto. }
  destruct HM as [HM HMn].
  destruct (Math_min_cases (Math_max value lo) hi HMn Hhi)
    as [[-> _] | [-> _]]; [auto |].
  split; [tauto | exact HMn].
Qed.

(** With bounds in order and a value that is a number, [clamp] returns
    a number between the bounds, both included, and that number is the
    value or one of the bounds. *)
Theorem clamp_within_bounds (value lo hi : float) :
  (lo <=? hi)%float = true -> is_nan value = false ->
  (lo <=? clamp value lo hi)%float = true
  /\ (clamp value lo hi <=? hi)%float = true
  /\ (clamp value lo hi = value \/ clamp value lo hi = lo
      \/ clamp value lo hi = hi).
Proof.
  intros Hb Hv.
  destruct (clamp_bounds value lo hi Hb Hv) as [H1 H2].
  apply leb_cmp in Hb.
  assert (Hn : is_nan lo = false /\ is_nan hi = false)
    by (destruct Hb as [H | H]; exact (cmp_not_nan _ _ _ H)).
  destruct Hn as [Hlo Hhi].
  destruct (clamp_selects value lo hi Hv Hlo Hhi) as [Hs _]. auto.
Qed.

Lemma clamp_within_bounds_witness :
  (0 <=? clamp 150 0 100)%float = true
  /\ (clamp 150 0 100 <=? 100)%float = true
  /\ (clamp 150 0 100 = 150%float \/ clamp 150 0 100 = 0%float
      \/ clamp 150 0 100 = 100%float).
Proof.
  apply (clamp_within_bounds 150 0 100); reflexivity.
Defined.

(** With the bounds exchanged ([max] below [min]) [clamp] returns
    [max], whatever the value. *)
Theorem clamp_inverted_bounds (value lo hi : float) :
  (hi <? lo)%float = true -> is_nan value = false ->
  clamp value lo hi = hi.
Proof.
  intros Hb Hv. apply ltb_cmp in Hb.
  destruct (cmp_not_nan _ _ _ Hb) as [Hhi Hlo].
  assert (HM : cmp hi (Math_max value lo) = Some Lt
               /\ is_nan (Math_max value lo) = false).
  { destruct (Math_max_cases value lo Hv Hlo) as [[-> H] | [-> H]].
    - split; [exact Hb | exact Hlo].
    - split; [| exact Hv]. unfold cmp in *.
      apply (SFcompare_lt_le_trans _ (Prim2SF lo)); [exact Hb |].
      rewrite (SFcompare_antisym (Prim2SF value) (Prim2SF lo)).
      destruct H as [-> | ->]; simpl; auto. }
  destruct HM as [HM HMn]. unfold clamp, Math_min.
  rewrite HMn, Hhi. simpl. apply ltb_cmp in HM. rewrite HM. reflexivity.
Qed.

Lemma clamp_inverted_bounds_witness : clamp 5 10 0 = 0%float.
Proof.
  apply (clamp_inverted_bounds 5 10 0); reflexivity.
Defined.

Lemma clamp_nan_true (value lo hi : float) :
  is_nan value = true \/ is_nan lo = true \/ is_nan hi = true ->
  is_nan (clamp value lo hi) = true.
Proof.
  unfold clamp, Math_min, Math_max.
  intros [H | [H | H]]; rewrite H; rewrite ?orb_true_r; reflexivity.
Qed.

(** The result of [clamp] is NaN exactly when one of the three
    arguments is: [clamp] does not bring a NaN into the range. *)
Theorem clamp_nan_iff (value lo hi : float) :
  is_nan (clamp value lo hi) = true
  <-> is_nan value = true \/ is_nan lo = true \/ is_nan hi = true.
Proof.
  split; [| apply clamp_nan_true].
  intros H.
  destruct (is_nan value) eqn:Hv; [auto |].
  destruct (is_nan lo) eqn:Hlo; [auto |].
  destruct (is_nan hi) eqn:Hhi; [auto |].
  destruct (clamp_selects value lo hi Hv Hlo Hhi) as [_ Hn]. congruence.
Qed.

(** A value between the bounds is returned as it is: the result equals
    the value, and is the very same number unless the value is a zero
    (a zero can come back with the sign of a zero bound). *)
Theorem clamp_inside (value lo hi : float) :
  (lo <=? value)%float = true -> (value <=? hi)%float = true ->
  (clamp value lo hi =? value)%float = true
  /\ (is_zero value = false -> clamp value lo hi = value).
Proof.
  intros Hlo Hhi.
  assert (Hn : is_nan lo = false /\ is_nan value = false).
  { apply leb_cmp in Hlo. destruct Hlo as [H | H]; exact (cmp_not_nan _ _ _ H). }
  assert (Hn' : is_nan hi = false).
  { apply leb_cmp in Hhi. destruct Hhi as [H | H]; exact (proj2 (cmp_not_nan _ _ _ H)). }
  destruct Hn as [Hnlo Hnv].
  unfold clamp, Math_max. rewrite Hnv, Hnlo, (leb_true_ltb_false _ _ Hlo).
  simpl. destruct (isPosZero lo && isNegZero value) eqn:Hz.
  - apply andb_prop in Hz as [Hzlo Hzv].
    apply isPosZero_spec in Hzlo. apply isNegZero_spec in Hzv.
    pose proof (leb_zero_sign value lo hi _ _ Hzv Hzlo Hhi) as Hhi'.
    unfold Math_min. rewrite Hnlo, Hn', (leb_true_ltb_false _ _ Hhi').
    simpl. split.
    + destruct (isNegZero hi && isPosZero lo) eqn:Hz2.
      * apply andb_prop in Hz2 as [Hzhi _]. apply isNegZero_spec in Hzhi.
        apply eqb_cmp. eapply cmp_zeros; eassumption.
      * apply eqb_cmp. eapply cmp_zeros; eassumption.
    + intros H. rewrite (zero_is_zero _ _ Hzv) in H. discriminate.
  - unfold Math_min. rewrite Hnv, Hn', (leb_true_ltb_false _ _ Hhi).
    simpl. destruct (isNegZero hi && isPosZero value) eqn:Hz2.
    + apply andb_prop in Hz2 as [Hzhi Hzv].
      apply isNegZero_spec in Hzhi. apply isPosZero_spec in Hzv. split.
      * apply eqb_cmp. eapply cmp_zeros; eassumption.
      * intros H. rewrite (zero_is_zero _ _ Hzv) in H. discriminate.
    + split; [| reflexivity]. apply eqb_cmp, SFcompare_refl, is_nan_false, Hnv.
Qed.

Lemma clamp_inside_witness : clamp 50 0 100 = 50%float.
Proof.
  apply (clamp_inside 50 0 100); reflexivity.
Defined.

(** A multiplier passed through [clamp(m, 0.1, 1.0)] is never rejected
    by [calculateBundleTotal]; when it is a number it lies in
    [0.1, 1.0]. *)
Theorem clamped_multiplier_is_accepted
  (cards : list Tcg.TCGCard) (strategy : Bundle.PricingStrategy)
  (multiplier : number) :
  Bundle.calculateBundleTotal cards strategy (clamp multiplier 0.1 1.0)
  = Normal (tierSum strategy cards * clamp multiplier 0.1 1.0)%float
  /\ (is_nan multiplier = false -> inRange (clamp multiplier 0.1 1.0)).
Proof.
  assert (Hin : is_nan multiplier = false -> inRange (clamp multiplier 0.1 1.0)).
  { intros Hm. apply (clamp_bounds multiplier 0.1 1.0);
      [reflexivity | exact Hm]. }
  split; [| exact Hin].
  destruct (is_nan multiplier) eqn:Hm.
  - assert (Hn : is_nan (clamp multiplier 0.1 1.0) = true)
      by (apply clamp_nan_true; left; exact Hm).
    rewrite calculateBundleTotal_guard. unfold gtb.
    assert (Hlt : forall x : float, is_nan x = true ->
              (x <? 0.1)%float = false /\ (1.0 <? x)%float = false).
    { intros x Hx. rewrite !ltb_spec.
      destruct (Prim2SF x) eqn:E;
        try (assert (Hf : is_nan x = false)
               by (apply is_nan_false; rewrite E; discriminate);
             congruence).
      split; reflexivity. }
    destruct (Hlt _ Hn) as [-> ->]. reflexivity.
  - apply calculateBundleTotal_inRange, Hin. reflexivity.
Qed.

End Clamp.

(** ** calculatePercentageChange *)

Section PercentageChange.

Import Utils.

Local Open Scope Z_scope.

Lemma shr_1_nonneg (mrs : shr_record) :
  0 <= shr_m mrs -> 0 <= shr_m (shr_1 mrs).
Proof. destruct mrs as [[| [p | p |] | p] r s]; simpl; lia. Qed.

Lemma iter_shr_1_nonneg (k : nat) (mrs : shr_record) :
  0 <= shr_m mrs -> 0 <= shr_m (Nat.iter k shr_1 mrs).
Proof.
  intros H. induction k as [| k IH]; simpl; [exact H |].
  apply shr_1_nonneg, IH.
Qed.

Lemma shr_fexp_nonneg (m e : Z) (l : location) :
  0 <= m -> 0 <= shr_m (fst (shr_fexp prec emax m e l)).
Proof.
  intros Hm. unfold shr_fexp, shr.
  assert (H0 : 0 <= shr_m (shr_record_of_loc m l))
    by (destruct l as [| []]; exact Hm).
  destruct (_ - e); simpl fst; try exact H0.
  rewrite iter_pos_nat. apply iter_shr_1_nonneg, H0.
Qed.

Lemma round_nearest_even_nonneg (m : Z) (l : location) :
  0 <= m -> 0 <= round_nearest_even m l.
Proof.
  intros Hm. destruct l as [| []]; simpl; try lia.
  destruct (Z.even m); lia.
Qed.

Lemma binary_round_aux_not_nan (sx : bool) (m e : Z) (l : location) :
  0 <= m -> binary_round_aux prec emax sx m e l <> S754_nan.
Proof.
  intros Hm. unfold binary_round_aux.
  pose proof (shr_fexp_nonneg m e l Hm) as H1.
  destruct (shr_fexp prec emax m e l) as [mrs' e']. simpl in H1.
  pose proof (round_nearest_even_nonneg _ (loc_of_shr_record mrs') H1) as H2.
  pose proof (shr_fexp_nonneg _ e' loc_Exact H2) as H3.
  destruct (shr_fexp prec emax _ e' loc_Exact) as [mrs'' e'']. simpl in H3.
  destruct (shr_m mrs''); try discriminate; [| lia].
  destruct (_ <=? _); discriminate.
Qed.

Lemma binary_normalize_not_nan (m e : Z) (s : bool) :
  binary_normalize prec emax m e s <> S754_nan.
Proof.
  unfold binary_normalize, binary_round.
  destruct m; [discriminate | |];
    destruct (shl_align _ _ _); apply binary_round_aux_not_nan; lia.
Qed.

Lemma SFsub_ordinary (x y : spec_float) :
  SFordinary x -> SFordinary y -> SFsub prec emax x y <> S754_nan.
Proof.
  destruct x as [sx | sx | | sx mx ex], y as [sy | sy | | sy my ey];
    simpl; try contradiction; intros _ _; try discriminate.
  - destruct sx, sy; discriminate.
  - apply binary_normalize_not_nan.
Qed.

Lemma SFdiv_by_finite (x : spec_float) (s : bool) (m : positive) (e : Z) :
  x <> S754_nan -> SFdiv prec emax x (S754_finite s m e) <> S754_nan.
Proof.
  destruct x as [sx | sx | | sx mx ex]; simpl; try congruence; intros _.
  unfold SFdiv_core_binary.
  set (m' := match _ - _ with Z0 => Z.pos mx | Z.pos _ => Z.shiftl (Z.pos mx) _ | Z.neg _ => 0 end).
  assert (Hm' : 0 <= m').
  { subst m'. destruct (_ - _); try lia. apply Z.shiftl_nonneg. lia. }
  destruct (Z.div_eucl m' (Z.pos m)) as [q r] eqn:E.
  apply binary_round_aux_not_nan.
  assert (Hq : q = m' / Z.pos m) by (unfold Z.div; rewrite E; reflexivity).
  rewrite Hq. apply Z.div_pos; lia.
Qed.

Lemma SFmul_by_finite (x : spec_float) (s : bool) (m : positive) (e : Z) :
  x <> S754_nan -> SFmul prec emax x (S754_finite s m e) <> S754_nan.
Proof.
  destruct x as [sx | sx | | sx mx ex]; simpl; try congruence; intros _.
  apply binary_round_aux_not_nan. lia.
Qed.

Local Close Scope Z_scope.

Lemma is_finite_ordinary (x : float) :
  is_finite x = true -> SFordinary (Prim2SF x).
Proof.
  unfold is_finite, is_infinity, is_nan.
  rewrite !FloatAxioms.eqb_spec, abs_spec.
  change (Prim2SF infinity) with (S754_infinity false).
  destruct (Prim2SF x) as [s | [] | | s m e]; simpl; try discriminate; auto.
Qed.

Lemma eqb_zero_false (x : float) :
  (x =? 0)%float = false -> SFordinary (Prim2SF x) ->
  exists s m e, Prim2SF x = S754_finite s m e.
Proof.
  rewrite FloatAxioms.eqb_spec. change (Prim2SF 0) with (S754_zero false).
  destruct (Prim2SF x) as [s | s | | s m e]; simpl; try discriminate;
    try contradiction; eauto.
Qed.

(** For finite arguments the percentage change is never NaN: the
    guard on a zero old value removes the only division of zero by
    zero.  (It can be an infinity, when the quotient overflows.) *)
Theorem calculatePercentageChange_not_nan (oldValue newValue : float) :
  is_finite oldValue = true -> is_finite newValue = true ->
  is_nan (calculatePercentageChange oldValue newValue) = false.
Proof.
  intros Ho Hn. apply is_finite_ordinary in Ho, Hn.
  unfold calculatePercentageChange.
  destruct (oldValue =? 0)%float eqn:E; [reflexivity |].
  destruct (eqb_zero_false _ E Ho) as (s & m & e & Hold).
  apply is_nan_false. rewrite mul_spec, div_spec, sub_spec.
  change (Prim2SF 100) with (S754_finite false 7036874417766400 (-46)%Z).
  apply SFmul_by_finite. rewrite Hold at 2. apply SFdiv_by_finite.
  apply SFsub_ordinary; assumption.
Qed.

Lemma calculatePercentageChange_not_nan_witness :
  is_nan (calculatePercentageChange 0 120) = false
  /\ is_nan (calculatePercentageChange 120 100) = false.
Proof.
  split.
  - apply (calculatePercentageChange_not_nan 0 120); reflexivity.
  - apply (calculatePercentageChange_not_nan 120 100); reflexivity.
Defined.

(** A finite value compared with itself has changed by 0 (by [-0] for
    a negative value, which equals 0). *)
Theorem calculatePercentageChange_same (value : float) :
  is_finite value = true ->
  (calculatePercentageChange value value =? 0)%float = true.
Proof.
  intros Hv. apply is_finite_ordinary in Hv.
  unfold calculatePercentageChange.
  destruct (value =? 0)%float eqn:E; [reflexivity |].
  destruct (eqb_zero_false _ E Hv) as (s & m & e & Hval).
  apply eqb_cmp. unfold cmp. rewrite mul_spec, div_spec, sub_spec, Hval.
  change (Prim2SF 100) with (S754_finite false 7036874417766400 (-46)%Z).
  change (Prim2SF 0) with (S754_zero false).
  unfold SF64mul, SF64div, SF64sub, SFsub, shl_align.
  rewrite Z.sub_diag. reflexivity.
Qed.

Lemma calculatePercentageChange_same_witness :
  (calculatePercentageChange (-128.29) (-128.29) =? 0)%float = true.
Proof.
  apply (calculatePercentageChange_same (-128.29)). reflexivity.
Defined.

End PercentageChange.

(** ** truncate *)

Section Truncate.

Import Utils.

Lemma slice_from_start (s : jsstring) (finish : Z) :
  slice s 0 finish
  = firstn
      (Z.to_nat
         (if (finish <? 0)%Z
          then Z.max (Z.of_nat (length s) + finish) 0
          else Z.min finish (Z.of_nat (length s))))
      s.
Proof.
  unfold slice. change (0 <? 0)%Z with false. cbn iota.
  rewrite (Z.min_l 0) by lia. cbn [Z.to_nat skipn].
  f_equal. f_equal. destruct (Z.ltb_spec finish 0); lia.
Qed.

Lemma truncate_long (text : jsstring) (maxLength : Z) :
  (maxLength < Z.of_nat (length text))%Z ->
  truncate text maxLength
  = slice text 0 (maxLength - 3) ++ JSString.lit "...".
Proof.
  intros H. unfold truncate.
  destruct (Z.leb_spec (Z.of_nat (length text)) maxLength); [lia |].
  reflexivity.
Qed.

(** For a limit of at least 3 code units, [truncate] keeps the limit:
    a text within the limit is returned as it is, a longer one is cut
    to its first [maxLength - 3] code units followed by ["..."], which
    makes exactly [maxLength]. *)
Theorem truncate_keeps_limit (text : jsstring) (maxLength : Z) :
  (3 <= maxLength)%Z ->
  (Z.of_nat (length (truncate text maxLength)) <= maxLength)%Z
  /\ ((Z.of_nat (length text) <= maxLength)%Z ->
      truncate text maxLength = text)
  /\ ((maxLength < Z.of_nat (length text))%Z ->
      truncate text maxLength
      = firstn (Z.to_nat (maxLength - 3)) text ++ JSString.lit "..."
      /\ Z.of_nat (length (truncate text maxLength)) = maxLength).
Proof.
  intros H3.
  assert (Hfit : (Z.of_nat (length text) <= maxLength)%Z ->
                 truncate text maxLength = text).
  { intros H. unfold truncate.
    destruct (Z.leb_spec (Z.of_nat (length text)) maxLength); [reflexivity | lia]. }
  assert (Hcut : (maxLength < Z.of_nat (length text))%Z ->
                 truncate text maxLength
                 = firstn (Z.to_nat (maxLength - 3)) text ++ JSString.lit "..."
                 /\ Z.of_nat (length (truncate text maxLength)) = maxLength).
  { intros H. rewrite (truncate_long _ _ H), slice_from_start.
    destruct (Z.ltb_spec (maxLength - 3) 0); [lia |].
    rewrite Z.min_l by lia. split; [reflexivity |].
    rewrite length_app, length_take. simpl length. lia. }
  split; [| split; assumption].
  destruct (Z.le_gt_cases (Z.of_nat (length text)) maxLength) as [H | H].
  - rewrite (Hfit H). exact H.
  - destruct (Hcut H) as [_ ->]. lia.
Qed.

Lemma truncate_keeps_limit_witness :
  truncate (JSString.lit "Charizard Collection") 12
  = JSString.lit "Charizard..."
  /\ Z.of_nat (length (truncate (JSString.lit "Charizard Collection") 12))
     = 12%Z.
Proof.
  apply (truncate_keeps_limit (JSString.lit "Charizard Collection") 12);
    simpl; lia.
Defined.

(** For a limit below 3 the limit is not kept: a text longer than the
    limit comes back with at least the three dots, so longer than the
    limit, and for a limit of 1 or 2 and a text of at least 3 code
    units longer than the text itself (the negative end index of
    [slice] counts from the end of the text). *)
Theorem truncate_small_limit (text : jsstring) (maxLength : Z) :
  (maxLength < 3)%Z -> (maxLength < Z.of_nat (length text))%Z ->
  Z.of_nat (length (truncate text maxLength))
  = (Z.max (Z.of_nat (length text) + maxLength - 3) 0 + 3)%Z
  /\ (maxLength < Z.of_nat (length (truncate text maxLength)))%Z
  /\ ((0 < maxLength)%Z -> (3 <= Z.of_nat (length text))%Z ->
      (Z.of_nat (length text)
       < Z.of_nat (length (truncate text maxLength)))%Z).
Proof.
  intros H3 Hlong.
  assert (Hlen : Z.of_nat (length (truncate text maxLength))
                 = (Z.max (Z.of_nat (length text) + maxLength - 3) 0 + 3)%Z).
  { rewrite (truncate_long _ _ Hlong), slice_from_start.
    destruct (Z.ltb_spec (maxLength - 3) 0); [| lia].
    rewrite length_app, length_take. simpl length. lia. }
  rewrite Hlen. repeat split; lia.
Qed.

(** [truncate("abcdef", 2)] is ["abcde..."]. *)
Lemma truncate_small_limit_witness :
  truncate (JSString.lit "abcdef") 2 = JSString.lit "abcde..."
  /\ (2 < Z.of_nat (length (truncate (JSString.lit "abcdef") 2)))%Z.
Proof.
  split; [reflexivity |].
  apply (truncate_small_limit (JSString.lit "abcdef") 2); simpl; lia.
Defined.

End Truncate.

(** ** Whitespace around the fields of the card key *)

Section Padding.

Lemma trimStart_blank_app (ws s : jsstring) :
  blank ws -> JSString.trimStart (ws ++ s) = JSString.trimStart s.
Proof.
  induction 1 as [| c ws Hc _ IH]; [reflexivity |].
  simpl. rewrite Hc. exact IH.
Qed.

Lemma trimStart_blank (ws : jsstring) :
  blank ws -> JSString.trimStart ws = [].
Proof.
  intros H. rewrite <- (app_nil_r ws). apply trimStart_blank_app, H.
Qed.

Lemma trimStart_nil_blank (s : jsstring) :
  JSString.trimStart s = [] -> blank s.
Proof.
  induction s as [| c s IH]; [constructor |].
  simpl. destruct (JSString.isWhiteSpace c) eqn:Hc; [| discriminate].
  intros H. constructor; [exact Hc | apply IH, H].
Qed.

Lemma trimStart_app_cons (s t : jsstring) :
  JSString.trimStart s <> [] ->
  JSString.trimStart (s ++ t) = JSString.trimStart s ++ t.
Proof.
  induction s as [| c s IH]; [intros H; destruct H; reflexivity |].
  simpl. destruct (JSString.isWhiteSpace c); [exact IH | reflexivity].
Qed.

Lemma blank_rev (ws : jsstring) : blank ws -> blank (rev ws).
Proof.
  unfold blank. rewrite !List.Forall_forall. intros H c Hin.
  apply H. apply List.in_rev. exact Hin.
Qed.

Lemma trimEnd_app_blank (s ws : jsstring) :
  blank ws -> JSString.trimEnd (s ++ ws) = JSString.trimEnd s.
Proof.
  intros H. unfold JSString.trimEnd.
  rewrite rev_app_distr, trimStart_blank_app by (apply blank_rev, H).
  reflexivity.
Qed.

(** Whitespace around a string does not change what [trim] returns. *)
Lemma trim_padding (l r s : jsstring) :
  blank l -> blank r -> JSString.trim (l ++ s ++ r) = JSString.trim s.
Proof.
  intros Hl Hr. unfold JSString.trim. rewrite (trimStart_blank_app l) by exact Hl.
  destruct (JSString.trimStart s) as [| c t] eqn:E.
  - rewrite trimStart_blank; [reflexivity |].
    apply trimStart_nil_blank in E. unfold blank in *.
    apply List.Forall_app. auto.
  - rewrite trimStart_app_cons by (rewrite E; discriminate).
    rewrite E. apply trimEnd_app_blank, Hr.
Qed.

(** The key of a card does not depend on whitespace around its name,
    set name or number: padding any of the three with whitespace on
    either side leaves [getCardIdentifier] unchanged. *)
Theorem getCardIdentifier_ignores_padding
  (c1 c2 : Tcg.TCGCard) (l1 r1 l2 r2 l3 r3 : jsstring) :
  blank l1 -> blank r1 -> blank l2 -> blank r2 -> blank l3 -> blank r3 ->
  Tcg.cardName c2 = l1 ++ Tcg.cardName c1 ++ r1 ->
  Tcg.setName c2 = option_map (fun s => l2 ++ s ++ r2) (Tcg.setName c1) ->
  Tcg.cardNumber c2 = option_map (fun s => l3 ++ s ++ r3) (Tcg.cardNumber c1) ->
  Tcg.getCardIdentifier c2 = Tcg.getCardIdentifier c1.
Proof.
  intros Hl1 Hr1 Hl2 Hr2 Hl3 Hr3 Hn Hs Hk.
  unfold Tcg.getCardIdentifier, Tcg.trimOrEmpty.
  rewrite Hn, Hs, Hk, trim_padding by assumption.
  destruct (Tcg.setName c1), (Tcg.cardNumber c1); simpl;
    rewrite ?trim_padding by assumption; reflexivity.
Qed.

(** ["  Charizard "], ["Base Set\n"] and [" 4/102"]. *)
Lemma getCardIdentifier_ignores_padding_witness :
  Tcg.getCardIdentifier
    (Sample.card (JSString.lit "scan-2")
       (JSString.lit "  " ++ JSString.lit "Charizard" ++ JSString.lit " ")
       (Some ([] ++ JSString.lit "Base Set" ++ [10%N]))
       (Some (JSString.lit " " ++ JSString.lit "4/102" ++ []))
       None None None)
  = Tcg.getCardIdentifier
      (Sample.card (JSString.lit "scan-1") (JSString.lit "Charizard")
         (Some (JSString.lit "Base Set")) (Some (JSString.lit "4/102"))
         None None None).
Proof.
  apply (getCardIdentifier_ignores_padding
           (Sample.card (JSString.lit "scan-1") (JSString.lit "Charizard")
              (Some (JSString.lit "Base Set")) (Some (JSString.lit "4/102"))
              None None None)
           _ (JSString.lit "  ") (JSString.lit " ") [] [10%N]
           (JSString.lit " ") []);
    try reflexivity; repeat constructor.
Defined.

End Padding.

(** ** Totals of non-negative prices *)

Section NonNegative.

Import Bundle.

Lemma binary_round_aux_nonneg (m e : Z) (l : location) :
  (0 <= m)%Z -> SFnonneg (binary_round_aux prec emax false m e l).
Proof.
  intros Hm. unfold binary_round_aux.
  pose proof (shr_fexp_nonneg m e l Hm) as H1.
  destruct (shr_fexp prec emax m e l) as [mrs' e']. simpl in H1.
  pose proof (round_nearest_even_nonneg _ (loc_of_shr_record mrs') H1) as H2.
  pose proof (shr_fexp_nonneg _ e' loc_Exact H2) as H3.
  destruct (shr_fexp prec emax _ e' loc_Exact) as [mrs'' e'']. simpl in H3.
  destruct (shr_m mrs''); [exact I | | lia].
  destruct (_ <=? _)%Z; exact I.
Qed.

Lemma SFadd_nonneg (t p : spec_float) :
  SFnonneg t -> SFge0 p -> SFnonneg (SFadd prec emax t p).
Proof.
  destruct t as [[] | [] | | [] mt et], p as [sp | [] | | [] mp ep];
    simpl; try contradiction; intros _ _; try exact I.
  - destruct sp; exact I.
  - unfold binary_round. destruct (shl_align _ _ _).
    apply binary_round_aux_nonneg. lia.
Qed.

Lemma SFmul_nonneg (t : spec_float) (m : positive) (e : Z) :
  SFnonneg t -> SFnonneg (SFmul prec emax t (S754_finite false m e)).
Proof.
  destruct t as [[] | [] | | [] mt et]; simpl; try contradiction;
    intros _; try exact I.
  apply binary_round_aux_nonneg. lia.
Qed.

Lemma leb_zero_ge0 (p : float) :
  (0 <=? p)%float = true -> SFge0 (Prim2SF p).
Proof.
  rewrite leb_spec. change (Prim2SF 0) with (S754_zero false).
  destruct (Prim2SF p) as [s | [] | | [] m e]; simpl; try discriminate; auto.
Qed.

Lemma nonneg_leb_zero (x : float) :
  SFnonneg (Prim2SF x) -> (0 <=? x)%float = true.
Proof.
  rewrite leb_spec. change (Prim2SF 0) with (S754_zero false).
  destruct (Prim2SF x) as [[] | [] | | [] m e]; simpl; try contradiction;
    reflexivity.
Qed.

Lemma sum_nonneg (xs : list number) :
  forall t : number,
    SFnonneg (Prim2SF t) ->
    Forall (fun x => (0 <=? x)%float = true) xs ->
    SFnonneg (Prim2SF (fold_left PrimFloat.add xs t)).
Proof.
  induction xs as [| x xs IH]; intros t Ht Hxs; [exact Ht |].
  apply List.Forall_cons_iff in Hxs as [Hx Hxs]. simpl. apply IH; [| exact Hxs].
  rewrite add_spec. apply SFadd_nonneg; [exact Ht | apply leb_zero_ge0, Hx].
Qed.

(** When no card has a negative price in the selected tier, the sum is
    not negative and not NaN, and neither is the total at any
    multiplier in [0.1, 1.0]. *)
Theorem total_of_nonnegative_prices
  (cards : list Tcg.TCGCard) (strategy : PricingStrategy) (multiplier : number) :
  (forall (card : Tcg.TCGCard) (p : number),
      In card cards -> getPriceForStrategy card strategy = Some p ->
      (0 <=? p)%float = true) ->
  inRange multiplier ->
  (0 <=? tierSum strategy cards)%float = true
  /\ exists total : number,
      calculateBundleTotal cards strategy multiplier = Normal total
      /\ (0 <=? total)%float = true.
Proof.
  intros Hp Hm.
  assert (Hs : SFnonneg (Prim2SF (tierSum strategy cards))).
  { unfold tierSum, sumLeft. apply sum_nonneg; [exact I |].
    apply List.Forall_forall. intros x Hx.
    apply List.in_map_iff in Hx as (card & <- & Hin).
    unfold tierValue.
    destruct (getPriceForStrategy card strategy) as [p |] eqn:E;
      [exact (Hp card p Hin E) | reflexivity]. }
  split; [apply nonneg_leb_zero, Hs |].
  rewrite (calculateBundleTotal_inRange _ _ _ Hm).
  eexists. split; [reflexivity |].
  apply nonneg_leb_zero. rewrite mul_spec.
  destruct (inRange_finite_positive _ Hm) as (mm & em & ->).
  apply SFmul_nonneg, Hs.
Qed.

Lemma total_of_nonnegative_prices_witness :
  exists total : number,
    calculateBundleTotal
      [Sample.priced "a" None (Some 100%float) None;
       Sample.priced "b" None None None;
       Sample.priced "c" None (Some 0.29%float) None]
      average 0.8
    = Normal total
    /\ (0 <=? total)%float = true.
Proof.
  apply (total_of_nonnegative_prices
           [Sample.priced "a" None (Some 100%float) None;
            Sample.priced "b" None None None;
            Sample.priced "c" None (Some 0.29%float) None]
           average 0.8).
  - intros card p Hin E. simpl in Hin.
    destruct Hin as [<- | [<- | [<- | []]]]; simpl in E; try discriminate;
      apply (f_equal (fun o => (0 <=? nullish o 0)%float)) in E;
      simpl in E; rewrite <- E; reflexivity.
  - split; reflexivity.
Defined.

End NonNegative.

(** ** A multiplier that is not a number *)

Section NotANumber.

Import Bundle.

Lemma float_mul_nan_r (x : float) : (x * nan = nan)%float.
Proof.
  apply Prim2SF_inj. rewrite mul_spec.
  change (Prim2SF nan) with S754_nan.
  destruct (Prim2SF x) as [s | s | | s m e]; reflexivity.
Qed.

Lemma percentageRange_not_other :
  percentageRange <> nameRequired /\ percentageRange <> cardRequired.
Proof. split; intros H; vm_compute in H; discriminate H. Qed.

(** C6: what [validateBundle] does with the multiplier NaN.  NaN is
    not in [0.1, 1.0], yet the third check, which asks whether the
    multiplier is below 0.1 or above 1.0, reports nothing for it: the
    percentage message is not among the errors of any bundle whose
    multiplier is NaN, and such a bundle with a name and a card is
    valid, with no message at all. *)
Theorem validateBundle_accepts_nan (bundle : CardBundle) :
  percentageMultiplier bundle = nan ->
  ~ inRange (percentageMultiplier bundle)
  /\ ~ In percentageRange (errors (validateBundle bundle))
  /\ (JSString.trim (name bundle) <> [] -> cardIDs bundle <> [] ->
      validateBundle bundle = {| isValid := true; errors := [] |}).
Proof.
  intros Hm. destruct percentageRange_not_other as [Hn Hc].
  split; [| split].
  - rewrite Hm. intros [H _]. discriminate H.
  - rewrite validateBundle_errors, Hm.
    change ((nan <? 0.1)%float || gtb nan 1.0) with false.
    rewrite app_nil_r. intros H. apply in_app_or in H as [H | H].
    + destruct (negb _); [destruct H as [H | []]; auto | destruct H].
    + destruct (_ =? _)%nat; [destruct H as [H | []]; auto | destruct H].
  - intros Hname Hcards. unfold validateBundle, push. rewrite Hm.
    change ((nan <? 0.1)%float || gtb nan 1.0) with false.
    destruct (JSString.trim (name bundle)); [contradiction |].
    destruct (cardIDs bundle); [contradiction | reflexivity].
Qed.

(** The bundle ["Deck"] with one card and the multiplier NaN. *)
Lemma validateBundle_accepts_nan_witness :
  validateBundle
    (Sample.bundle (JSString.lit "Deck") [JSString.lit "a"] average nan 0)
  = {| isValid := true; errors := [] |}.
Proof.
  apply (validateBundle_accepts_nan
           (Sample.bundle (JSString.lit "Deck") [JSString.lit "a"] average nan 0)
           eq_refl).
  - simpl. discriminate.
  - simpl. discriminate.
Defined.

(** NaN passes the guard of [calculateBundleTotal] as well: NaN is
    neither in [0.1, 1.0] nor below 0.1 or above 1.0, for every card
    list and strategy the total at the multiplier NaN is NaN and not
    an error, and [updateBundleTotal] stores NaN as the total of every
    bundle whose multiplier is NaN. *)
Theorem nan_multiplier_total_is_nan
  (cards : list Tcg.TCGCard) (strategy : PricingStrategy) :
  ~ inRange nan /\ ~ outOfRange nan
  /\ calculateBundleTotal cards strategy nan = Normal nan
  /\ forall (bundle : CardBundle) (now : Date),
       percentageMultiplier bundle = nan ->
       exists updated : CardBundle,
         updateBundleTotal bundle cards now = Normal updated
         /\ calculatedTotal updated = nan.
Proof.
  assert (Hcalc : forall cs s, calculateBundleTotal cs s nan = Normal nan).
  { intros cs s. rewrite calculateBundleTotal_guard.
    change ((nan <? 0.1)%float || gtb nan 1.0) with false.
    cbv iota. rewrite float_mul_nan_r. reflexivity. }
  split; [intros [H _]; discriminate H |].
  split; [intros [H | H]; discriminate H |].
  split; [apply Hcalc |].
  intros bundle now Hm. unfold updateBundleTotal. rewrite Hm, Hcalc.
  eexists. split; reflexivity.
Qed.

Lemma nan_multiplier_total_is_nan_witness :
  calculateBundleTotal
    [Sample.priced "a" None (Some 100%float) None] average nan
  = Normal nan.
Proof.
  apply (nan_multiplier_total_is_nan
           [Sample.priced "a" None (Some 100%float) None] average).
Defined.

End NotANumber.

(** * The calls on a heap of objects *)

(** ** Calls that do not read the clock *)

Section HeapLaws.

Import Heap.

Lemma bind_run {A B : Type} (m : M A) (k : A -> M B) (now : Date) (h : heap) :
  bind m k now h
  = match m now h with
    | Some (Normal a, h') => k a now h'
    | Some (Throw e, h') => Some (Throw e, h')
    | None => None
    end.
Proof. reflexivity. Qed.

Lemma timeless_ret {A : Type} (a : A) : timeless (ret a).
Proof. intros t1 t2 h. reflexivity. Qed.

Lemma timeless_throw {A : Type} (e : exn) : timeless (@throw A e).
Proof. intros t1 t2 h. reflexivity. Qed.

Lemma timeless_stuck {A : Type} : timeless (@stuck A).
Proof. intros t1 t2 h. reflexivity. Qed.

Lemma timeless_bind {A B : Type} (m : M A) (k : A -> M B) :
  timeless m -> (forall a, timeless (k a)) -> timeless (bind m k).
Proof.
  intros Hm Hk t1 t2 h. rewrite !bind_run, (Hm t1 t2 h).
  destruct (m t2 h) as [[[a | e] h'] |]; [apply Hk | reflexivity | reflexivity].
Qed.

Lemma timeless_alloc (o : object) : timeless (alloc o).
Proof. intros t1 t2 h. reflexivity. Qed.

Lemma timeless_getProperties (l : loc) : timeless (getProperties l).
Proof. intros t1 t2 h. reflexivity. Qed.

Lemma timeless_getField (l : loc) (f : fieldName) : timeless (getField l f).
Proof. intros t1 t2 h. reflexivity. Qed.

Lemma timeless_getElements (l : loc) : timeless (getElements l).
Proof. intros t1 t2 h. reflexivity. Qed.

Lemma timeless_push (l : loc) (v : val) : timeless (push l v).
Proof. intros t1 t2 h. reflexivity. Qed.

Lemma timeless_asRef (v : val) : timeless (asRef v).
Proof. destruct v; intros t1 t2 h; reflexivity. Qed.

Lemma timeless_asString (v : val) : timeless (asString v).
Proof. destruct v; intros t1 t2 h; reflexivity. Qed.

Lemma timeless_asNumber (v : val) : timeless (asNumber v).
Proof. destruct v; intros t1 t2 h; reflexivity. Qed.

Lemma timeless_asOptionalNumber (v : val) : timeless (asOptionalNumber v).
Proof. destruct v; intros t1 t2 h; reflexivity. Qed.

Lemma timeless_asOptionalString (v : val) : timeless (asOptionalString v).
Proof. destruct v; intros t1 t2 h; reflexivity. Qed.

Lemma timeless_reduce {A : Type} (f : A -> val -> M A) (elements : list val) :
  (forall acc v, timeless (f acc v)) ->
  forall acc, timeless (reduce f elements acc).
Proof.
  intros Hf. induction elements as [| v rest IH]; intros acc; simpl.
  - apply timeless_ret.
  - apply timeless_bind; [apply Hf | exact IH].
Qed.

Lemma timeless_filterElements (p : val -> M bool) (elements : list val) :
  (forall v, timeless (p v)) -> timeless (filterElements p elements).
Proof.
  intros Hp. induction elements as [| v rest IH]; simpl.
  - apply timeless_ret.
  - apply timeless_bind; [apply Hp | intros keep].
    apply timeless_bind; [exact IH | intros kept; apply timeless_ret].
Qed.

Lemma timeless_mapElements (f : val -> M val) (elements : list val) :
  (forall v, timeless (f v)) -> timeless (mapElements f elements).
Proof.
  intros Hf. induction elements as [| v rest IH]; simpl.
  - apply timeless_ret.
  - apply timeless_bind; [apply Hf | intros w].
    apply timeless_bind; [exact IH | intros ws; apply timeless_ret].
Qed.

Ltac timeless_step :=
  first
    [ apply timeless_ret | apply timeless_throw | apply timeless_stuck
    | apply timeless_alloc | apply timeless_getProperties
    | apply timeless_getField | apply timeless_getElements
    | apply timeless_push | apply timeless_asRef | apply timeless_asString
    | apply timeless_asNumber | apply timeless_asOptionalNumber
    | apply timeless_asOptionalString
    | apply timeless_bind; [| intros ?]
    | apply timeless_reduce; intros ? ?
    | apply timeless_filterElements; intros ?
    | apply timeless_mapElements; intros ?
    | match goal with
      | |- timeless (if ?b then _ else _) => destruct b
      | |- timeless (match ?v with _ => _ end) => destruct v
      end ].

Lemma timeless_getPriceForStrategy (card : loc) (strategy : jsstring) :
  timeless (getPriceForStrategy card strategy).
Proof. unfold getPriceForStrategy. repeat timeless_step. Qed.

Lemma timeless_calculateBundleTotal
  (cards : loc) (strategy : jsstring) (multiplier : number) :
  timeless (calculateBundleTotal cards strategy multiplier).
Proof.
  unfold calculateBundleTotal.
  repeat first [apply timeless_getPriceForStrategy | timeless_step].
Qed.

Lemma timeless_bundleCardsOf (bundle cards : loc) :
  timeless (bundleCardsOf bundle cards).
Proof. unfold bundleCardsOf. repeat timeless_step. Qed.

Lemma timeless_addField (card : loc) (f : fieldName) (total : number) :
  timeless (addField card f total).
Proof. unfold addField. repeat timeless_step. Qed.

Lemma timeless_calculateBundleStatistics (bundle cards : loc) :
  timeless (calculateBundleStatistics bundle cards).
Proof.
  unfold calculateBundleStatistics, statisticsStep.
  repeat first
    [apply timeless_bundleCardsOf | apply timeless_addField | timeless_step].
Qed.

Lemma timeless_pushIf (test : bool) (errors : loc) (message : jsstring) :
  timeless (pushIf test errors message).
Proof. unfold pushIf. repeat timeless_step. Qed.

Lemma timeless_validateBundle (bundle : loc) :
  timeless (validateBundle bundle).
Proof.
  unfold validateBundle. repeat first [apply timeless_pushIf | timeless_step].
Qed.

Lemma timeless_scaled (card : loc) (f : fieldName) (multiplier : number) :
  timeless (scaled card f multiplier).
Proof. unfold scaled. repeat timeless_step. Qed.

Lemma timeless_generatePriceTable (card : loc) :
  timeless (generatePriceTable card).
Proof.
  unfold generatePriceTable. repeat first [apply timeless_scaled | timeless_step].
Qed.

Lemma timeless_trimmedOrEmpty (card : loc) (f : fieldName) :
  timeless (trimmedOrEmpty card f).
Proof. unfold trimmedOrEmpty. repeat timeless_step. Qed.

Lemma timeless_getCardIdentifier (card : loc) :
  timeless (getCardIdentifier card).
Proof.
  unfold getCardIdentifier.
  repeat first [apply timeless_trimmedOrEmpty | timeless_step].
Qed.

End HeapLaws.

(** ** Calls that leave the heap's objects as they are *)

Section Frame.

Import Heap.

Lemma keeps_weaken {A : Type} (h0 : heap) (m : M A) (Q R : A -> Prop) :
  keeps h0 m Q -> (forall a, Q a -> R a) -> keeps h0 m R.
Proof.
  intros Hm HQ now h r h' Hh Hrun.
  destruct (Hm now h r h' Hh Hrun) as [Hh' Hr].
  split; [exact Hh' |]. destruct r; [apply HQ, Hr | exact I].
Qed.

Lemma keeps_ret {A : Type} (h0 : heap) (a : A) (Q : A -> Prop) :
  Q a -> keeps h0 (ret a) Q.
Proof.
  intros Ha now h r h' Hh Hrun. injection Hrun as <- <-. auto.
Qed.

Lemma keeps_throw {A : Type} (h0 : heap) (e : exn) (Q : A -> Prop) :
  keeps h0 (throw e) Q.
Proof.
  intros now h r h' Hh Hrun. injection Hrun as <- <-. auto.
Qed.

Lemma keeps_stuck {A : Type} (h0 : heap) (Q : A -> Prop) :
  keeps h0 stuck Q.
Proof. intros now h r h' Hh Hrun. discriminate Hrun. Qed.

Lemma keeps_bind {A B : Type} (h0 : heap) (m : M A) (k : A -> M B)
  (Q : A -> Prop) (R : B -> Prop) :
  keeps h0 m Q -> (forall a, Q a -> keeps h0 (k a) R) -> keeps h0 (bind m k) R.
Proof.
  intros Hm Hk now h r h' Hh Hrun. rewrite bind_run in Hrun.
  destruct (m now h) as [[[a | e] h1] |] eqn:E; [| | discriminate Hrun].
  - destruct (Hm now h _ _ Hh E) as [Hh1 Ha].
    apply (Hk a Ha now h1 r h' Hh1 Hrun).
  - destruct (Hm now h _ _ Hh E) as [Hh1 _].
    injection Hrun as <- <-. auto.
Qed.

Lemma keeps_alloc (h0 : heap) (o : object) : keeps h0 (alloc o) (unused h0).
Proof.
  intros now h r h' Hh Hrun. injection Hrun as <- <-.
  assert (Hfresh : h !! fresh (dom h) = None)
    by apply not_elem_of_dom, is_fresh.
  split.
  - transitivity h; [exact Hh | apply insert_subseteq, Hfresh].
  - unfold unused. destruct (h0 !! fresh (dom h)) as [o' |] eqn:E; [| reflexivity].
    pose proof (lookup_weaken _ _ _ _ E Hh) as E'.
    discriminate (eq_trans (eq_sym E') Hfresh).
Qed.

Lemma keeps_newDate (h0 : heap) : keeps h0 newDate (unused h0).
Proof. intros now h. apply (keeps_alloc h0 (DateObj now) now h). Qed.

Lemma keeps_getProperties (h0 : heap) (l : loc) :
  keeps h0 (getProperties l) any.
Proof.
  intros now h r h' Hh Hrun. unfold getProperties in Hrun.
  destruct (h !! l) as [[ps | |] |]; try discriminate Hrun.
  injection Hrun as <- <-. split; [exact Hh | exact I].
Qed.

Lemma keeps_getField (h0 : heap) (l : loc) (f : fieldName) :
  keeps h0 (getField l f) any.
Proof.
  apply (keeps_bind h0 _ _ any); [apply keeps_getProperties |].
  intros ps _. apply keeps_ret. exact I.
Qed.

Lemma keeps_getElements (h0 : heap) (l : loc) :
  keeps h0 (getElements l) any.
Proof.
  intros now h r h' Hh Hrun. unfold getElements in Hrun.
  destruct (h !! l) as [[| es |] |]; try discriminate Hrun.
  injection Hrun as <- <-. split; [exact Hh | exact I].
Qed.

(** A write to an object that [h0] does not hold. *)
Lemma keeps_push (h0 : heap) (l : loc) (v : val) :
  unused h0 l -> keeps h0 (push l v) any.
Proof.
  intros Hl now h r h' Hh Hrun. unfold push in Hrun.
  destruct (h !! l) as [[| es |] |]; try discriminate Hrun.
  injection Hrun as <- <-. split; [| exact I].
  apply map_subseteq_spec. intros k o Hk.
  assert (Hne : l <> k).
  { intros <-. discriminate (eq_trans (eq_sym Hl) Hk). }
  etransitivity; [apply lookup_insert_ne, Hne |].
  apply (lookup_weaken _ _ _ _ Hk Hh).
Qed.

Lemma keeps_asRef (h0 : heap) (v : val) : keeps h0 (asRef v) any.
Proof. destruct v; (apply keeps_stuck || (apply keeps_ret; exact I)). Qed.

Lemma keeps_asString (h0 : heap) (v : val) : keeps h0 (asString v) any.
Proof. destruct v; (apply keeps_stuck || (apply keeps_ret; exact I)). Qed.

Lemma keeps_asNumber (h0 : heap) (v : val) : keeps h0 (asNumber v) any.
Proof. destruct v; (apply keeps_stuck || (apply keeps_ret; exact I)). Qed.

Lemma keeps_asOptionalNumber (h0 : heap) (v : val) :
  keeps h0 (asOptionalNumber v) any.
Proof. destruct v; (apply keeps_stuck || (apply keeps_ret; exact I)). Qed.

Lemma keeps_asOptionalString (h0 : heap) (v : val) :
  keeps h0 (asOptionalString v) any.
Proof. destruct v; (apply keeps_stuck || (apply keeps_ret; exact I)). Qed.

Lemma keeps_reduce {A : Type} (h0 : heap) (f : A -> val -> M A)
  (elements : list val) :
  (forall acc v, keeps h0 (f acc v) any) ->
  forall acc, keeps h0 (reduce f elements acc) any.
Proof.
  intros Hf. induction elements as [| v rest IH]; intros acc; simpl.
  - apply keeps_ret. exact I.
  - apply (keeps_bind h0 _ _ any); [apply Hf | intros acc' _; apply IH].
Qed.

Lemma keeps_filterElements (h0 : heap) (p : val -> M bool)
  (elements : list val) :
  (forall v, keeps h0 (p v) any) -> keeps h0 (filterElements p elements) any.
Proof.
  intros Hp. induction elements as [| v rest IH]; simpl.
  - apply keeps_ret. exact I.
  - apply (keeps_bind h0 _ _ any); [apply Hp | intros keep _].
    apply (keeps_bind h0 _ _ any); [exact IH | intros kept _].
    apply keeps_ret. exact I.
Qed.

Lemma keeps_mapElements (h0 : heap) (f : val -> M val) (elements : list val) :
  (forall v, keeps h0 (f v) any) -> keeps h0 (mapElements f elements) any.
Proof.
  intros Hf. induction elements as [| v rest IH]; simpl.
  - apply keeps_ret. exact I.
  - apply (keeps_bind h0 _ _ any); [apply Hf | intros w _].
    apply (keeps_bind h0 _ _ any); [exact IH | intros ws _].
    apply keeps_ret. exact I.
Qed.

Lemma keeps_alloc_any (h0 : heap) (o : object) : keeps h0 (alloc o) any.
Proof. apply (keeps_weaken h0 _ (unused h0)); [apply keeps_alloc | easy]. Qed.

Ltac keeps_step :=
  first
    [ apply keeps_ret; exact I | apply keeps_throw | apply keeps_stuck
    | apply keeps_alloc_any | apply keeps_getProperties
    | apply keeps_getField | apply keeps_getElements
    | apply keeps_asRef | apply keeps_asString
    | apply keeps_asNumber | apply keeps_asOptionalNumber
    | apply keeps_asOptionalString
    | apply (keeps_bind _ _ _ any); [| intros ? _]
    | apply keeps_reduce; intros ? ?
    | apply keeps_filterElements; intros ?
    | apply keeps_mapElements; intros ?
    | match goal with
      | |- keeps _ (if ?b then _ else _) _ => destruct b
      | |- keeps _ (match ?v with _ => _ end) _ => destruct v
      end ].

Lemma keeps_getPriceForStrategy (h0 : heap) (card : loc) (strategy : jsstring) :
  keeps h0 (getPriceForStrategy card strategy) any.
Proof. unfold getPriceForStrategy. repeat keeps_step. Qed.

Lemma keeps_calculateBundleTotal
  (h0 : heap) (cards : loc) (strategy : jsstring) (multiplier : number) :
  keeps h0 (calculateBundleTotal cards strategy multiplier) any.
Proof.
  unfold calculateBundleTotal.
  repeat first [apply keeps_getPriceForStrategy | keeps_step].
Qed.

Lemma keeps_bundleCardsOf (h0 : heap) (bundle cards : loc) :
  keeps h0 (bundleCardsOf bundle cards) any.
Proof. unfold bundleCardsOf. repeat keeps_step. Qed.

Lemma keeps_addField (h0 : heap) (card : loc) (f : fieldName) (total : number) :
  keeps h0 (addField card f total) any.
Proof. unfold addField. repeat keeps_step. Qed.

Lemma keeps_calculateBundleStatistics (h0 : heap) (bundle cards : loc) :
  keeps h0 (calculateBundleStatistics bundle cards) any.
Proof.
  unfold calculateBundleStatistics, statisticsStep.
  repeat first [apply keeps_bundleCardsOf | apply keeps_addField | keeps_step].
Qed.

(** The new bundle is at a location that held no object. *)
Lemma keeps_updateBundleTotal (h0 : heap) (bundle cards : loc) :
  keeps h0 (updateBundleTotal bundle cards) (unused h0).
Proof.
  unfold updateBundleTotal.
  do 7 (apply (keeps_bind _ _ _ any);
        [first [apply keeps_bundleCardsOf | apply keeps_calculateBundleTotal
               | keeps_step] | intros ? _]).
  apply (keeps_bind _ _ _ any).
  - apply (keeps_weaken h0 _ (unused h0)); [apply keeps_newDate | easy].
  - intros date _. apply keeps_alloc.
Qed.

Lemma keeps_pushIf (h0 : heap) (test : bool) (errors : loc) (message : jsstring) :
  unused h0 errors -> keeps h0 (pushIf test errors message) any.
Proof.
  intros He. unfold pushIf. destruct test; [apply keeps_push, He | keeps_step].
Qed.

(** [errors.push] writes to the array the call itself allocated. *)
Lemma keeps_validateBundle (h0 : heap) (bundle : loc) :
  keeps h0 (validateBundle bundle) any.
Proof.
  unfold validateBundle.
  apply (keeps_bind _ _ _ (unused h0)); [apply keeps_alloc | intros errors He].
  repeat first [apply keeps_pushIf; exact He | keeps_step].
Qed.

Lemma keeps_scaled (h0 : heap) (card : loc) (f : fieldName) (multiplier : number) :
  keeps h0 (scaled card f multiplier) any.
Proof. unfold scaled. repeat keeps_step. Qed.

Lemma keeps_generatePriceTable (h0 : heap) (card : loc) :
  keeps h0 (generatePriceTable card) any.
Proof.
  unfold generatePriceTable. repeat first [apply keeps_scaled | keeps_step].
Qed.

Lemma keeps_trimmedOrEmpty (h0 : heap) (card : loc) (f : fieldName) :
  keeps h0 (trimmedOrEmpty card f) any.
Proof. unfold trimmedOrEmpty. repeat keeps_step. Qed.

Lemma keeps_getCardIdentifier (h0 : heap) (card : loc) :
  keeps h0 (getCardIdentifier card) any.
Proof.
  unfold getCardIdentifier.
  repeat first [apply keeps_trimmedOrEmpty | keeps_step].
Qed.

End Frame.

(** ** What the calls compute *)

Section HeapTotal.

Import Heap.

Lemma run_getProperties (h : heap) (l : loc) (ps : gmap string val) (now : Date) :
  h !! l = Some (Obj ps) -> getProperties l now h = Some (Normal ps, h).
Proof. intros H. unfold getProperties. rewrite H. reflexivity. Qed.

Lemma run_getField
  (h : heap) (l : loc) (ps : gmap string val) (f : fieldName) (now : Date) :
  h !! l = Some (Obj ps) -> getField l f now h = Some (Normal (property ps f), h).
Proof.
  intros H. unfold getField. rewrite bind_run, (run_getProperties h l ps now H).
  reflexivity.
Qed.

Lemma run_getElements (h : heap) (l : loc) (es : list val) (now : Date) :
  h !! l = Some (Arr es) -> getElements l now h = Some (Normal es, h).
Proof. intros H. unfold getElements. rewrite H. reflexivity. Qed.

Lemma run_alloc (h : heap) (o : object) (now : Date) :
  exists l : loc,
    alloc o now h = Some (Normal l, <[l := o]> h)
    /\ h !! l = None /\ h ⊆ <[l := o]> h /\ <[l := o]> h !! l = Some o.
Proof.
  exists (fresh (dom h)).
  assert (Hfresh : h !! fresh (dom h) = None) by apply not_elem_of_dom, is_fresh.
  split; [reflexivity |]. split; [exact Hfresh |].
  split; [apply insert_subseteq, Hfresh | apply lookup_insert_eq].
Qed.

Lemma holdsCard_weaken (h h' : heap) (l : loc) (card : Tcg.TCGCard) :
  h ⊆ h' -> holdsCard h l card -> holdsCard h' l card.
Proof.
  intros Hh (ps & Hl & H). exists ps.
  split; [apply (lookup_weaken _ _ _ _ Hl Hh) | exact H].
Qed.

Lemma holdsCards_weaken (h h' : heap) (l : loc) (cards : list Tcg.TCGCard) :
  h ⊆ h' -> holdsCards h l cards -> holdsCards h' l cards.
Proof.
  intros Hh (ls & Hl & H). exists ls.
  split; [apply (lookup_weaken _ _ _ _ Hl Hh) |].
  clear Hl. induction H as [| x c xs cs Hx _ IH];
    [apply List.Forall2_nil | apply List.Forall2_cons; [| exact IH]].
  apply (holdsCard_weaken h h' x c Hh Hx).
Qed.

Lemma holdsBundle_weaken (h h' : heap) (l : loc) (bundle : Bundle.CardBundle) :
  h ⊆ h' -> holdsBundle h l bundle -> holdsBundle h' l bundle.
Proof.
  intros Hh (ps & ids & created & modified & Hl & Hid & Hname & Hids & Harr
             & Hs & Hm & Ht & Hn & Hc & Hcd & Hlm & Hmd).
  exists ps, ids, created, modified.
  repeat (split; [first [assumption
                        | eapply lookup_weaken; [eassumption | exact Hh]] |]).
  eapply lookup_weaken; [eassumption | exact Hh].
Qed.

(** *** calculateBundleTotal *)

Lemma run_getPriceForStrategy
  (h : heap) (l : loc) (card : Tcg.TCGCard) (strategy : Bundle.PricingStrategy)
  (now : Date) :
  holdsCard h l card ->
  getPriceForStrategy l (strategyName strategy) now h
  = Some (Normal (optionalNumber (Bundle.getPriceForStrategy card strategy)), h).
Proof.
  intros (ps & Hl & _ & _ & _ & _ & Ht & Ha & Hlow).
  assert (E : getPriceForStrategy l (strategyName strategy)
              = getField l match strategy with
                           | Bundle.trending => "trendingPrice"
                           | Bundle.average => "averagePrice"
                           | Bundle.low => "lowPrice"
                           end)
    by (destruct strategy; reflexivity).
  rewrite E, (run_getField h l ps _ now Hl).
  destruct strategy; cbn [Bundle.getPriceForStrategy]; congruence.
Qed.

Lemma run_sum
  (h : heap) (strategy : Bundle.PricingStrategy) (now : Date)
  (ls : list loc) (cards : list Tcg.TCGCard) :
  Forall2 (holdsCard h) ls cards ->
  forall acc : number,
    reduce
      (fun sum card =>
         let* card := asRef card in
         let* price := getPriceForStrategy card (strategyName strategy) in
         let* price := asOptionalNumber price in
         ret (sum + nullish price 0%float)%float)
      (map VRef ls) acc now h
    = Some (Normal
              (fold_left
                 (fun sum card =>
                    let price := Bundle.getPriceForStrategy card strategy in
                    (sum + nullish price 0%float)%float)
                 cards acc), h).
Proof.
  induction 1 as [| l card ls cards Hc _ IH]; intros acc; [reflexivity |].
  cbn [map reduce fold_left]. rewrite bind_run. cbn [asRef].
  rewrite bind_run. cbn [ret]. rewrite bind_run.
  rewrite (run_getPriceForStrategy h l card strategy now Hc).
  destruct (Bundle.getPriceForStrategy card strategy); cbn; apply IH.
Qed.

Lemma refines_calculateBundleTotal
  (h : heap) (l : loc) (cards : list Tcg.TCGCard)
  (strategy : Bundle.PricingStrategy) (multiplier : number) (now : Date) :
  holdsCards h l cards ->
  calculateBundleTotal l (strategyName strategy) multiplier now h
  = Some (Bundle.calculateBundleTotal cards strategy multiplier, h).
Proof.
  intros (ls & Hl & Hcs).
  unfold calculateBundleTotal, Bundle.calculateBundleTotal.
  destruct (_ || _); [reflexivity |].
  rewrite bind_run, (run_getElements h l _ now Hl).
  rewrite bind_run, (run_sum h strategy now ls cards Hcs). reflexivity.
Qed.

End HeapTotal.

Section HeapStatistics.

Import Heap.

(** *** The bundle's cards *)

Lemma holdsCard_all_weaken
  (h h' : heap) (ls : list loc) (cards : list Tcg.TCGCard) :
  h ⊆ h' -> Forall2 (holdsCard h) ls cards -> Forall2 (holdsCard h') ls cards.
Proof.
  intros Hh H. induction H as [| x c xs cs Hx _ IH];
    [apply List.Forall2_nil | apply List.Forall2_cons; [| exact IH]].
  apply (holdsCard_weaken h h' x c Hh Hx).
Qed.

Lemma includes_strings (ids : list jsstring) (x : jsstring) :
  includes (map VString ids) (VString x) = Bundle.includes ids x.
Proof.
  unfold includes, Bundle.includes.
  induction ids as [| y ids IH]; [reflexivity |].
  cbn [map existsb sameValueZero]. rewrite IH. reflexivity.
Qed.

Lemma run_filter
  (h : heap) (lb : loc) (bundle : Bundle.CardBundle) (now : Date)
  (ls : list loc) (cards : list Tcg.TCGCard) :
  holdsBundle h lb bundle ->
  Forall2 (holdsCard h) ls cards ->
  exists ls' : list loc,
    filterElements
      (fun card =>
         let* card := asRef card in
         let* cardIDs := getField lb "cardIDs" in
         let* cardIDs := asRef cardIDs in
         let* cardIDs := getElements cardIDs in
         let* id := getField card "id" in
         ret (includes cardIDs id))
      (map VRef ls) now h
    = Some (Normal (map VRef ls'), h)
    /\ Forall2 (holdsCard h) ls' (Bundle.bundleCardsOf bundle cards).
Proof.
  intros (ps & ids & created & modified & Hl & _ & _ & Hids & Harr & _) Hcs.
  induction Hcs as [| l card ls cards Hc _ (ls' & Hrun & Hkept)].
  - exists []. split; [reflexivity | apply List.Forall2_nil].
  - pose proof Hc as (cps & Hcl & Hid & _).
    exists (if Bundle.includes (Bundle.cardIDs bundle) (Tcg.id card)
            then l :: ls' else ls').
    cbn [map filterElements]. rewrite bind_run. cbn [asRef].
    rewrite bind_run. cbn [ret]. rewrite bind_run.
    rewrite (run_getField h lb ps _ now Hl), Hids. rewrite bind_run.
    cbn [asRef ret]. rewrite bind_run, (run_getElements h ids _ now Harr).
    rewrite bind_run, (run_getField h l cps _ now Hcl), Hid.
    cbn [ret]. rewrite bind_run, Hrun. cbn [ret].
    rewrite includes_strings.
    unfold Bundle.bundleCardsOf in *. cbn [List.filter].
    destruct (Bundle.includes _ _); (split; [reflexivity |]).
    + apply List.Forall2_cons; assumption.
    + exact Hkept.
Qed.

Lemma refines_bundleCardsOf
  (h : heap) (lb lc : loc) (bundle : Bundle.CardBundle)
  (cards : list Tcg.TCGCard) (now : Date) :
  holdsBundle h lb bundle -> holdsCards h lc cards ->
  exists (l' : loc) (h' : heap),
    bundleCardsOf lb lc now h = Some (Normal l', h')
    /\ h ⊆ h' /\ h !! l' = None
    /\ holdsCards h' l' (Bundle.bundleCardsOf bundle cards).
Proof.
  intros Hb (ls & Hl & Hcs).
  destruct (run_filter h lb bundle now ls cards Hb Hcs) as (ls' & Hrun & Hkept).
  destruct (run_alloc h (Arr (map VRef ls')) now) as (l' & Ha & Hnew & Hsub & Hat).
  exists l', (<[l' := Arr (map VRef ls')]> h).
  unfold bundleCardsOf.
  rewrite bind_run, (run_getElements h lc _ now Hl), bind_run, Hrun.
  split; [exact Ha |]. split; [exact Hsub |]. split; [exact Hnew |].
  exists ls'. split; [exact Hat |].
  apply (holdsCard_all_weaken h _ ls' _ Hsub Hkept).
Qed.

(** *** calculateBundleStatistics *)

Lemma run_addField
  (h : heap) (l : loc) (ps : gmap string val) (f : fieldName)
  (o : option number) (total : number) (now : Date) :
  h !! l = Some (Obj ps) -> property ps f = optionalNumber o ->
  addField l f total now h
  = Some (Normal (option_map (fun p => (total + p)%float) o), h).
Proof.
  intros Hl Hf. unfold addField.
  rewrite bind_run, (run_getField h l ps f now Hl), Hf.
  destruct o as [p |]; [| reflexivity].
  cbn [optionalNumber]. rewrite bind_run, (run_getField h l ps f now Hl), Hf.
  reflexivity.
Qed.

Lemma run_statisticsStep
  (h : heap) (l : loc) (card : Tcg.TCGCard) (acc : Bundle.totals) (now : Date) :
  holdsCard h l card ->
  statisticsStep acc (VRef l) now h
  = Some (Normal (Bundle.statisticsStep acc card), h).
Proof.
  intros (ps & Hl & _ & _ & _ & _ & Ht & Ha & Hlow).
  unfold statisticsStep, Bundle.statisticsStep.
  rewrite bind_run. cbn [asRef ret].
  rewrite bind_run, (run_addField h l ps _ _ _ now Hl Ht).
  destruct (Tcg.trendingPrice card) as [t |]; cbn [option_map];
    rewrite bind_run, (run_addField h l ps _ _ _ now Hl Ha);
    destruct (Tcg.averagePrice card) as [a |]; cbn [option_map];
    rewrite bind_run, (run_addField h l ps _ _ _ now Hl Hlow);
    destruct (Tcg.lowPrice card) as [w |]; reflexivity.
Qed.

Lemma run_statistics
  (h : heap) (now : Date) (ls : list loc) (cards : list Tcg.TCGCard) :
  Forall2 (holdsCard h) ls cards ->
  forall acc : Bundle.totals,
    reduce statisticsStep (map VRef ls) acc now h
    = Some (Normal (fold_left Bundle.statisticsStep cards acc), h).
Proof.
  induction 1 as [| l card ls cards Hc _ IH]; intros acc; [reflexivity |].
  cbn [map reduce fold_left].
  rewrite bind_run, (run_statisticsStep h l card acc now Hc). apply IH.
Qed.

Lemma refines_calculateBundleStatistics
  (h : heap) (lb lc : loc) (bundle : Bundle.CardBundle)
  (cards : list Tcg.TCGCard) (now : Date) :
  holdsBundle h lb bundle -> holdsCards h lc cards ->
  exists (l' : loc) (h' : heap),
    calculateBundleStatistics lb lc now h = Some (Normal l', h')
    /\ h ⊆ h' /\ h !! l' = None
    /\ holdsStatistics h' l' (Bundle.calculateBundleStatistics bundle cards).
Proof.
  intros Hb Hc.
  destruct (refines_bundleCardsOf h lb lc bundle cards now Hb Hc)
    as (la & h1 & Hrun & Hsub & Hla & (ls & Hl & Hcs)).
  pose proof (holdsBundle_weaken h h1 lb bundle Hsub Hb)
    as (ps & ids & created & modified & Hlb & _ & _ & Hids & Harr & _ & _
        & Htotal & _).
  unfold calculateBundleStatistics.
  rewrite bind_run, Hrun.
  rewrite bind_run, (run_getElements h1 la _ now Hl).
  rewrite bind_run, (run_statistics h1 now ls _ Hcs).
  rewrite bind_run, (run_getField h1 lb ps _ now Hlb), Htotal.
  rewrite bind_run, (run_getField h1 lb ps _ now Hlb), Hids.
  rewrite bind_run. cbn [asRef ret].
  rewrite bind_run, (run_getElements h1 ids _ now Harr).
  match goal with
  | |- context [alloc ?o now h1] =>
      destruct (run_alloc h1 o now) as (l' & Ha & Hnew & Hsub' & Hat);
      exists l', (<[l' := o]> h1)
  end.
  split; [exact Ha |].
  split; [transitivity h1; assumption |].
  split.
  { destruct (h !! l') as [o |] eqn:E; [| reflexivity].
    pose proof (lookup_weaken _ _ _ _ E Hsub) as E'.
    discriminate (eq_trans (eq_sym E') Hnew). }
  eexists. split; [exact Hat |].
  rewrite length_map. repeat split.
Qed.

End HeapStatistics.

Section HeapResults.

Import Heap.

Lemma unused_weaken (h h' : heap) (l : loc) :
  h ⊆ h' -> h' !! l = None -> h !! l = None.
Proof.
  intros Hsub Hnew. destruct (h !! l) as [o |] eqn:E; [| reflexivity].
  pose proof (lookup_weaken _ _ _ _ E Hsub) as E'.
  discriminate (eq_trans (eq_sym E') Hnew).
Qed.

(** *** updateBundleTotal *)

(** The spread copies every property; the two that follow it in the
    literal replace [calculatedTotal] and [lastModified]. *)
Lemma property_updated
  (ps : gmap string val) (date : loc) (total : number) (f : fieldName) :
  f <> "lastModified"%string -> f <> "calculatedTotal"%string ->
  property
    (setProperty "lastModified" (VRef date)
       (setProperty "calculatedTotal" (VNumber total) ps)) f
  = property ps f.
Proof.
  intros H1 H2. unfold property, setProperty.
  rewrite !lookup_insert_ne by congruence. reflexivity.
Qed.

Lemma refines_updateBundleTotal
  (h : heap) (lb lc : loc) (bundle : Bundle.CardBundle)
  (cards : list Tcg.TCGCard) (now : Date) :
  holdsBundle h lb bundle -> holdsCards h lc cards ->
  exists h' : heap,
    h ⊆ h'
    /\ match Bundle.updateBundleTotal bundle cards now with
       | Throw e => updateBundleTotal lb lc now h = Some (Throw e, h')
       | Normal updated =>
           exists l' : loc,
             updateBundleTotal lb lc now h = Some (Normal l', h')
             /\ h !! l' = None /\ holdsBundle h' l' updated
       end.
Proof.
  intros Hb Hc.
  destruct (refines_bundleCardsOf h lb lc bundle cards now Hb Hc)
    as (la & h1 & Hrun & Hsub & Hla & Hkept).
  pose proof (holdsBundle_weaken h h1 lb bundle Hsub Hb)
    as (ps & ids & created & modified & Hlb & Hid & Hname & Hids & Harr
        & Hs & Hm & Htotal & Hnotes & Hc1 & Hc2 & Hm1 & Hm2).
  unfold updateBundleTotal, Bundle.updateBundleTotal.
  rewrite bind_run, Hrun.
  rewrite bind_run, (run_getField h1 lb ps _ now Hlb), Hs.
  rewrite bind_run. cbn [asString ret].
  rewrite bind_run, (run_getField h1 lb ps _ now Hlb), Hm.
  rewrite bind_run. cbn [asNumber ret].
  rewrite bind_run,
    (refines_calculateBundleTotal h1 la _ _ _ now Hkept).
  destruct (Bundle.calculateBundleTotal _ _ _) as [total | e].
  - rewrite bind_run, (run_getProperties h1 lb ps now Hlb).
    rewrite bind_run. unfold newDate.
    destruct (run_alloc h1 (DateObj now) now) as (d & Hd & Hdnew & Hdsub & Hdat).
    rewrite Hd.
    match goal with
    | |- context [alloc ?o now ?h2] =>
        destruct (run_alloc h2 o now) as (l' & Ha & Hnew & Hsub' & Hat);
        exists (<[l' := o]> h2)
    end.
    assert (H12 : h1 ⊆ <[l' := Obj (setProperty "lastModified" (VRef d)
                                     (setProperty "calculatedTotal"
                                        (VNumber total) ps))]>
                         (<[d := DateObj now]> h1))
      by (transitivity (<[d := DateObj now]> h1); assumption).
    split; [transitivity h1; assumption |].
    exists l'. split; [exact Ha |].
    split.
    { apply (unused_weaken h _ l' Hsub).
      apply (unused_weaken h1 _ l' Hdsub Hnew). }
    eexists _, ids, created, d.
    cbn [Bundle.id Bundle.name Bundle.cardIDs Bundle.pricingStrategy
         Bundle.percentageMultiplier Bundle.calculatedTotal Bundle.notes
         Bundle.createdAt Bundle.lastModified].
    split; [exact Hat |].
    repeat (split;
            [first [rewrite property_updated by discriminate; assumption
                   | unfold property, setProperty;
                     rewrite ?lookup_insert_ne by discriminate;
                     rewrite lookup_insert_eq; reflexivity
                   | eapply lookup_weaken; [eassumption | exact H12]] |]).
    apply (lookup_weaken _ _ _ _ Hdat Hsub').
  - exists h1. split; [exact Hsub | reflexivity].
Qed.

(** *** validateBundle *)

Lemma run_pushIf
  (h0 h : heap) (test : bool) (errors : loc) (message : jsstring)
  (pushed : list jsstring) (now : Date) :
  h0 !! errors = None -> h0 ⊆ h ->
  h !! errors = Some (Arr (map VString pushed)) ->
  exists h' : heap,
    pushIf test errors message now h = Some (Normal tt, h')
    /\ h0 ⊆ h'
    /\ h' !! errors
       = Some (Arr (map VString
                      (if test then Bundle.push pushed message else pushed))).
Proof.
  intros Hnew Hsub Hat. unfold pushIf, push. destruct test.
  - rewrite Hat. eexists. split; [reflexivity |]. split.
    + apply map_subseteq_spec. intros k o Hk.
      assert (Hne : errors <> k)
        by (intros <-; discriminate (eq_trans (eq_sym Hnew) Hk)).
      etransitivity; [apply lookup_insert_ne, Hne |].
      apply (lookup_weaken _ _ _ _ Hk Hsub).
    + etransitivity; [apply lookup_insert_eq |].
      unfold Bundle.push. rewrite map_app. reflexivity.
  - exists h. repeat split; assumption.
Qed.

Lemma refines_validateBundle
  (h : heap) (lb : loc) (bundle : Bundle.CardBundle) (now : Date) :
  holdsBundle h lb bundle ->
  exists (l' : loc) (h' : heap),
    validateBundle lb now h = Some (Normal l', h')
    /\ h ⊆ h' /\ h !! l' = None
    /\ holdsValidation h' l' (Bundle.validateBundle bundle).
Proof.
  intros (ps & ids & created & modified & Hlb & _ & Hname & Hids & Harr
          & _ & Hm & _).
  unfold validateBundle.
  destruct (run_alloc h (Arr []) now) as (le & Ha & Hnew & Hsub & Hat).
  rewrite bind_run, Ha.
  set (h1 := <[le := Arr []]> h) in *.
  rewrite bind_run,
    (run_getField h1 lb ps _ now (lookup_weaken _ _ _ _ Hlb Hsub)), Hname.
  rewrite bind_run. cbn [asString ret].
  destruct (run_pushIf h h1
              (negb (JSString.truthy (JSString.trim (Bundle.name bundle))))
              le Bundle.nameRequired [] now Hnew Hsub Hat)
    as (h2 & Hp1 & Hsub2 & Hat2).
  rewrite bind_run, Hp1.
  rewrite bind_run,
    (run_getField h2 lb ps _ now (lookup_weaken _ _ _ _ Hlb Hsub2)), Hids.
  rewrite bind_run. cbn [asRef ret].
  rewrite bind_run,
    (run_getElements h2 ids _ now (lookup_weaken _ _ _ _ Harr Hsub2)).
  rewrite length_map.
  destruct (run_pushIf h h2 (length (Bundle.cardIDs bundle) =? 0)%nat
              le Bundle.cardRequired _ now Hnew Hsub2 Hat2)
    as (h3 & Hp2 & Hsub3 & Hat3).
  rewrite bind_run, Hp2.
  rewrite bind_run,
    (run_getField h3 lb ps _ now (lookup_weaken _ _ _ _ Hlb Hsub3)), Hm.
  rewrite bind_run. cbn [asNumber ret].
  rewrite bind_run,
    (run_getField h3 lb ps _ now (lookup_weaken _ _ _ _ Hlb Hsub3)), Hm.
  rewrite bind_run. cbn [asNumber ret].
  destruct (run_pushIf h h3
              ((Bundle.percentageMultiplier bundle <? 0.1)%float
               || gtb (Bundle.percentageMultiplier bundle) 1.0)
              le Bundle.percentageRange _ now Hnew Hsub3 Hat3)
    as (h4 & Hp3 & Hsub4 & Hat4).
  rewrite bind_run, Hp3.
  rewrite bind_run, (run_getElements h4 le _ now Hat4).
  match goal with
  | |- context [alloc ?o now h4] =>
      destruct (run_alloc h4 o now) as (l' & Ha' & Hnew' & Hsub' & Hat');
      exists l', (<[l' := o]> h4)
  end.
  split; [exact Ha' |].
  split; [transitivity h4; assumption |].
  split; [apply (unused_weaken h h4 l' Hsub4 Hnew') |].
  eexists _, le. split; [exact Hat' |].
  split; [| split; [reflexivity | exact (lookup_weaken _ _ _ _ Hat4 Hsub')]].
  unfold property, setProperty. rewrite lookup_insert_eq, length_map.
  reflexivity.
Qed.

(** *** generatePriceTable *)

Lemma holdsRow_weaken (h h' : heap) (l : loc) (row : Tcg.PriceTableRow) :
  h ⊆ h' -> holdsRow h l row -> holdsRow h' l row.
Proof.
  intros Hh (ps & Hl & H). exists ps.
  split; [apply (lookup_weaken _ _ _ _ Hl Hh) | exact H].
Qed.

Lemma holdsRow_all_weaken
  (h h' : heap) (ls : list loc) (rows : list Tcg.PriceTableRow) :
  h ⊆ h' -> Forall2 (holdsRow h) ls rows -> Forall2 (holdsRow h') ls rows.
Proof.
  intros Hh H. induction H as [| x r xs rs Hx _ IH];
    [apply List.Forall2_nil | apply List.Forall2_cons; [| exact IH]].
  apply (holdsRow_weaken h h' x r Hh Hx).
Qed.

Lemma run_scaled
  (h : heap) (l : loc) (ps : gmap string val) (f : fieldName)
  (o : option number) (multiplier : number) (now : Date) :
  h !! l = Some (Obj ps) -> property ps f = optionalNumber o ->
  scaled l f multiplier now h
  = Some (Normal (VNumber (nullish o 0%float * multiplier)%float), h).
Proof.
  intros Hl Hf. unfold scaled.
  rewrite bind_run, (run_getField h l ps f now Hl), Hf.
  destruct o; reflexivity.
Qed.

Lemma run_rows
  (h0 : heap) (l : loc) (card : Tcg.TCGCard) (now : Date)
  (percentages : list number) :
  holdsCard h0 l card ->
  forall h : heap,
    h0 ⊆ h ->
    exists (ls : list loc) (h' : heap),
      mapElements
        (fun percentage =>
           let* percentage := asNumber percentage in
           let* trendingValue := scaled l "trendingPrice" (percentage / 100) in
           let* averageValue := scaled l "averagePrice" (percentage / 100) in
           let* lowValue := scaled l "lowPrice" (percentage / 100) in
           let* row :=
             alloc (Obj (setProperty "percentage" (VNumber percentage)
                        (setProperty "trendingValue" trendingValue
                        (setProperty "averageValue" averageValue
                        (setProperty "lowValue" lowValue ∅))))) in
           ret (VRef row))
        (map VNumber percentages) now h
      = Some (Normal (map VRef ls), h')
      /\ h ⊆ h'
      /\ Forall2 (holdsRow h') ls
           (map (fun percentage =>
                   let multiplier := (percentage / 100)%float in
                   {| Tcg.percentage := percentage;
                      Tcg.trendingValue :=
                        (nullish (Tcg.trendingPrice card) 0%float * multiplier)%float;
                      Tcg.averageValue :=
                        (nullish (Tcg.averagePrice card) 0%float * multiplier)%float;
                      Tcg.lowValue :=
                        (nullish (Tcg.lowPrice card) 0%float * multiplier)%float |})
                percentages).
Proof.
  intros (ps & Hl & _ & _ & _ & _ & Ht & Ha & Hlow).
  induction percentages as [| p percentages IH]; intros h Hsub.
  - exists [], h. split; [reflexivity |]. split; [reflexivity |].
    apply List.Forall2_nil.
  - pose proof (lookup_weaken _ _ _ _ Hl Hsub) as Hl'.
    cbn [map mapElements]. rewrite bind_run. cbn [asNumber].
    rewrite bind_run. cbn [ret].
    rewrite bind_run, (run_scaled h l ps _ _ _ now Hl' Ht).
    rewrite bind_run, (run_scaled h l ps _ _ _ now Hl' Ha).
    rewrite bind_run, (run_scaled h l ps _ _ _ now Hl' Hlow).
    rewrite bind_run.
    match goal with
    | |- context [alloc ?o now h] =>
        destruct (run_alloc h o now) as (lr & Har & Hnew & Hsub1 & Hat);
        set (h1 := <[lr := o]> h) in *
    end.
    rewrite Har. cbn [ret].
    destruct (IH h1 (transitivity Hsub Hsub1)) as (ls & h' & Hrun & Hsub' & Hrows).
    exists (lr :: ls), h'. rewrite bind_run, Hrun.
    split; [reflexivity |]. split; [transitivity h1; assumption |].
    apply List.Forall2_cons; [| exact Hrows].
    eexists. split; [apply (lookup_weaken _ _ _ _ Hat Hsub') |].
    repeat split.
Qed.

Lemma refines_generatePriceTable
  (h : heap) (l : loc) (card : Tcg.TCGCard) (now : Date) :
  holdsCard h l card ->
  exists (l' : loc) (h' : heap),
    generatePriceTable l now h = Some (Normal l', h')
    /\ h ⊆ h' /\ h !! l' = None
    /\ holdsPriceTable h' l' (Tcg.generatePriceTable card).
Proof.
  intros Hc. unfold generatePriceTable.
  destruct (run_alloc h (Arr (map VNumber Tcg.percentages)) now)
    as (lp & Ha & Hnew & Hsub & Hat).
  rewrite bind_run, Ha.
  rewrite bind_run, (run_getElements _ lp _ now Hat).
  destruct (run_rows h l card now Tcg.percentages Hc _ Hsub)
    as (ls & h2 & Hrun & Hsub2 & Hrows).
  rewrite bind_run, Hrun.
  destruct (run_alloc h2 (Arr (map VRef ls)) now)
    as (l' & Ha' & Hnew' & Hsub' & Hat').
  exists l', (<[l' := Arr (map VRef ls)]> h2).
  split; [exact Ha' |].
  split.
  { transitivity h2; [| assumption].
    transitivity (<[lp := Arr (map VNumber Tcg.percentages)]> h); assumption. }
  split.
  { apply (unused_weaken h _ l' Hsub).
    apply (unused_weaken _ h2 l' Hsub2 Hnew'). }
  exists ls. split; [exact Hat' |].
  apply (holdsRow_all_weaken h2 _ ls _ Hsub' Hrows).
Qed.

(** *** getCardIdentifier *)

Lemma run_trimmedOrEmpty
  (h : heap) (l : loc) (ps : gmap string val) (f : fieldName)
  (o : option jsstring) (now : Date) :
  h !! l = Some (Obj ps) -> property ps f = optionalString o ->
  trimmedOrEmpty l f now h = Some (Normal (Tcg.trimOrEmpty o), h).
Proof.
  intros Hl Hf. unfold trimmedOrEmpty.
  rewrite bind_run, (run_getField h l ps f now Hl), Hf.
  destruct o; reflexivity.
Qed.

Lemma refines_getCardIdentifier
  (h : heap) (l : loc) (card : Tcg.TCGCard) (now : Date) :
  holdsCard h l card ->
  getCardIdentifier l now h = Some (Normal (Tcg.getCardIdentifier card), h).
Proof.
  intros (ps & Hl & _ & Hname & Hset & Hnumber & _).
  unfold getCardIdentifier.
  rewrite bind_run, (run_getField h l ps _ now Hl), Hname.
  rewrite bind_run. cbn [asString ret]. cbv zeta.
  rewrite bind_run, (run_trimmedOrEmpty h l ps _ _ now Hl Hset).
  rewrite bind_run, (run_trimmedOrEmpty h l ps _ _ now Hl Hnumber).
  reflexivity.
Qed.

End HeapResults.

(** ** The clock in [updateBundleTotal] *)

Section Clock.

Import Heap.

Lemma sameButClock_bind {A : Type} (m : M A) (k : A -> M loc)
  (t1 t2 : Date) (h : heap) :
  timeless m ->
  (forall (a : A) (h' : heap), sameButClock t1 t2 (k a t1 h') (k a t2 h')) ->
  sameButClock t1 t2 (bind m k t1 h) (bind m k t2 h).
Proof.
  intros Hm Hk. rewrite !bind_run, (Hm t1 t2 h).
  destruct (m t2 h) as [[[a | e] h'] |]; [apply Hk | | exact I].
  split; reflexivity.
Qed.

Lemma sameButClock_literal
  (ps : gmap string val) (total : number) (t1 t2 : Date) (h : heap) :
  sameButClock t1 t2
    (bind newDate
       (fun date =>
          alloc (Obj (setProperty "lastModified" (VRef date)
                        (setProperty "calculatedTotal" (VNumber total) ps))))
       t1 h)
    (bind newDate
       (fun date =>
          alloc (Obj (setProperty "lastModified" (VRef date)
                        (setProperty "calculatedTotal" (VNumber total) ps))))
       t2 h).
Proof.
  rewrite !bind_run. unfold newDate, alloc. cbv zeta. unfold heap in *.
  set (d := fresh (dom h)).
  assert (Hdom : dom (<[d := DateObj t1]> h) = dom (<[d := DateObj t2]> h))
    by (rewrite !dom_insert_L; reflexivity).
  unfold sameButClock. rewrite Hdom.
  set (l := fresh (dom (<[d := DateObj t2]> h))).
  assert (Hne : l <> d).
  { intros E. apply (is_fresh (dom (<[d := DateObj t2]> h))).
    fold l. rewrite E, dom_insert_L.
    apply elem_of_union_l, elem_of_singleton. reflexivity. }
  split; [reflexivity |].
  eexists _, d.
  split; [apply lookup_insert_eq |]. split; [apply lookup_insert_eq |].
  split.
  { unfold property, setProperty. rewrite lookup_insert_eq. reflexivity. }
  split.
  { etransitivity; [apply lookup_insert_ne, Hne | apply lookup_insert_eq]. }
  split.
  { etransitivity; [apply lookup_insert_ne, Hne | apply lookup_insert_eq]. }
  intros k Hk. destruct (decide (l = k)) as [<- | Hlk].
  - etransitivity; [apply lookup_insert_eq | symmetry; apply lookup_insert_eq].
  - etransitivity; [apply lookup_insert_ne, Hlk |].
    etransitivity; [apply lookup_insert_ne; congruence |].
    symmetry.
    etransitivity; [apply lookup_insert_ne, Hlk |].
    apply lookup_insert_ne; congruence.
Qed.

Lemma updateBundleTotal_sameButClock (bundle cards : loc) (t1 t2 : Date) (h : heap) :
  sameButClock t1 t2
    (updateBundleTotal bundle cards t1 h) (updateBundleTotal bundle cards t2 h).
Proof.
  unfold updateBundleTotal.
  apply sameButClock_bind; [apply timeless_bundleCardsOf | intros bundleCards h1].
  apply sameButClock_bind; [apply timeless_getField | intros strategy h2].
  apply sameButClock_bind; [apply timeless_asString | intros strategy' h3].
  apply sameButClock_bind; [apply timeless_getField | intros multiplier h4].
  apply sameButClock_bind; [apply timeless_asNumber | intros multiplier' h5].
  apply sameButClock_bind; [apply timeless_calculateBundleTotal | intros total h6].
  apply sameButClock_bind; [apply timeless_getProperties | intros ps h7].
  apply sameButClock_literal.
Qed.

End Clock.

(** ** The calls of the core *)

Section Calls.

Import Heap.

Lemma keeps_preserved {A : Type} (m : M A) (Q : A -> Prop)
  (now : Date) (h : heap) (r : completion A) (h' : heap) :
  keeps h m Q -> m now h = Some (r, h') ->
  preserved h h'
  /\ match r with
     | Normal a => Q a
     | Throw _ => True
     end.
Proof.
  intros Hk Hrun.
  destruct (Hk now h r h' (reflexivity h) Hrun) as [Hsub HQ].
  split; [| exact HQ]. intros l o Hl. apply (lookup_weaken _ _ _ _ Hl Hsub).
Qed.

(** C8 (as amended), over the calls on the heap.

    - Determinism.  A call of [calculateBundleTotal],
      [calculateBundleStatistics], [validateBundle],
      [generatePriceTable] or [getCardIdentifier] has the same outcome
      and leaves the same heap at every clock value.  Two calls of
      [updateBundleTotal] from one heap at two clock values throw the
      same error or return the same new bundle but for the time its
      [lastModified] holds; as values, the two bundles agree in every
      field but [lastModified], which is the time of each call.
    - No mutation.  Whatever a call returns or throws, every object
      that was on the heap (the cards, the card array, the bundle, its
      [cardIDs]) is on it afterwards, unchanged; the bundle
      [updateBundleTotal] returns is at a location that held no
      object.
    - Results depend on the arguments' contents only.  On every heap
      that holds a bundle, a card list and a card, at every clock
      value, each call finishes and its result holds the value of the
      function of that name: the same contents give the same result,
      wherever the objects are. *)
Theorem calls_pure_but_clock :
  (forall (cards bundle card : loc) (strategy : jsstring) (multiplier : number)
          (t1 t2 : Date) (h : heap),
      calculateBundleTotal cards strategy multiplier t1 h
      = calculateBundleTotal cards strategy multiplier t2 h
      /\ calculateBundleStatistics bundle cards t1 h
         = calculateBundleStatistics bundle cards t2 h
      /\ validateBundle bundle t1 h = validateBundle bundle t2 h
      /\ generatePriceTable card t1 h = generatePriceTable card t2 h
      /\ getCardIdentifier card t1 h = getCardIdentifier card t2 h
      /\ sameButClock t1 t2
           (updateBundleTotal bundle cards t1 h)
           (updateBundleTotal bundle cards t2 h))
  /\ (forall (bundle : Bundle.CardBundle) (cards : list Tcg.TCGCard)
             (t1 t2 : Date),
        match Bundle.updateBundleTotal bundle cards t1,
              Bundle.updateBundleTotal bundle cards t2 with
        | Normal u1, Normal u2 =>
            Bundle.lastModified u1 = t1 /\ Bundle.lastModified u2 = t2
            /\ Bundle.id u1 = Bundle.id u2
            /\ Bundle.name u1 = Bundle.name u2
            /\ Bundle.cardIDs u1 = Bundle.cardIDs u2
            /\ Bundle.pricingStrategy u1 = Bundle.pricingStrategy u2
            /\ Bundle.percentageMultiplier u1 = Bundle.percentageMultiplier u2
            /\ Bundle.calculatedTotal u1 = Bundle.calculatedTotal u2
            /\ Bundle.notes u1 = Bundle.notes u2
            /\ Bundle.createdAt u1 = Bundle.createdAt u2
        | Throw e1, Throw e2 => e1 = e2
        | _, _ => False
        end)
  /\ (forall (cards bundle card : loc) (strategy : jsstring)
             (multiplier : number) (now : Date) (h h' : heap),
        (forall r, calculateBundleTotal cards strategy multiplier now h
                   = Some (r, h') -> preserved h h')
        /\ (forall r, calculateBundleStatistics bundle cards now h
                      = Some (r, h') -> preserved h h')
        /\ (forall r, updateBundleTotal bundle cards now h = Some (r, h') ->
                      preserved h h'
                      /\ forall l, r = Normal l -> h !! l = None)
        /\ (forall r, validateBundle bundle now h = Some (r, h') ->
                      preserved h h')
        /\ (forall r, generatePriceTable card now h = Some (r, h') ->
                      preserved h h')
        /\ (forall r, getCardIdentifier card now h = Some (r, h') ->
                      preserved h h'))
  /\ (forall (h : heap) (lb lc l : loc) (bundle : Bundle.CardBundle)
             (cards : list Tcg.TCGCard) (card : Tcg.TCGCard)
             (strategy : Bundle.PricingStrategy) (multiplier : number)
             (now : Date),
        holdsBundle h lb bundle -> holdsCards h lc cards -> holdsCard h l card ->
        calculateBundleTotal lc (strategyName strategy) multiplier now h
        = Some (Bundle.calculateBundleTotal cards strategy multiplier, h)
        /\ (exists (l' : loc) (h' : heap),
              calculateBundleStatistics lb lc now h = Some (Normal l', h')
              /\ holdsStatistics h' l'
                   (Bundle.calculateBundleStatistics bundle cards))
        /\ (exists h' : heap,
              match Bundle.updateBundleTotal bundle cards now with
              | Throw e => updateBundleTotal lb lc now h = Some (Throw e, h')
              | Normal updated =>
                  exists l' : loc,
                    updateBundleTotal lb lc now h = Some (Normal l', h')
                    /\ holdsBundle h' l' updated
              end)
        /\ (exists (l' : loc) (h' : heap),
              validateBundle lb now h = Some (Normal l', h')
              /\ holdsValidation h' l' (Bundle.validateBundle bundle))
        /\ (exists (l' : loc) (h' : heap),
              generatePriceTable l now h = Some (Normal l', h')
              /\ holdsPriceTable h' l' (Tcg.generatePriceTable card))
        /\ getCardIdentifier l now h
           = Some (Normal (Tcg.getCardIdentifier card), h)).
Proof.
  split; [| split; [| split]].
  - intros cards bundle card strategy multiplier t1 t2 h.
    split; [apply timeless_calculateBundleTotal |].
    split; [apply timeless_calculateBundleStatistics |].
    split; [apply timeless_validateBundle |].
    split; [apply timeless_generatePriceTable |].
    split; [apply timeless_getCardIdentifier |].
    apply updateBundleTotal_sameButClock.
  - intros bundle cards t1 t2.
    pose proof (updateBundleTotal_cases bundle cards t1) as H1.
    pose proof (updateBundleTotal_cases bundle cards t2) as H2.
    destruct (Bundle.calculateBundleTotal _ _ _); rewrite H1, H2;
      [repeat split | reflexivity].
  - intros cards bundle card strategy multiplier now h h'.
    split; [intros r Hrun;
            apply (keeps_preserved _ _ _ _ _ _
                     (keeps_calculateBundleTotal h _ _ _) Hrun) |].
    split; [intros r Hrun;
            apply (keeps_preserved _ _ _ _ _ _
                     (keeps_calculateBundleStatistics h _ _) Hrun) |].
    split.
    { intros r Hrun.
      destruct (keeps_preserved _ _ _ _ _ _
                  (keeps_updateBundleTotal h _ _) Hrun) as [Hp Hnew].
      split; [exact Hp |]. intros l ->. exact Hnew. }
    split; [intros r Hrun;
            apply (keeps_preserved _ _ _ _ _ _
                     (keeps_validateBundle h _) Hrun) |].
    split; [intros r Hrun;
            apply (keeps_preserved _ _ _ _ _ _
                     (keeps_generatePriceTable h _) Hrun) |].
    intros r Hrun.
    apply (keeps_preserved _ _ _ _ _ _ (keeps_getCardIdentifier h _) Hrun).
  - intros h lb lc l bundle cards card strategy multiplier now Hb Hcs Hc.
    split; [apply refines_calculateBundleTotal, Hcs |].
    split.
    { destruct (refines_calculateBundleStatistics h lb lc bundle cards now Hb Hcs)
        as (l' & h' & Hrun & _ & _ & Hs).
      exists l', h'. split; assumption. }
    split.
    { destruct (refines_updateBundleTotal h lb lc bundle cards now Hb Hcs)
        as (h' & _ & Hu).
      exists h'. destruct (Bundle.updateBundleTotal bundle cards now);
        [| exact Hu].
      destruct Hu as (l' & Hrun & _ & Hu). exists l'. split; assumption. }
    split.
    { destruct (refines_validateBundle h lb bundle now Hb)
        as (l' & h' & Hrun & _ & _ & Hv).
      exists l', h'. split; assumption. }
    split.
    { destruct (refines_generatePriceTable h l card now Hc)
        as (l' & h' & Hrun & _ & _ & Ht).
      exists l', h'. split; assumption. }
    apply refines_getCardIdentifier, Hc.
Qed.

Lemma sample_holdsBundle :
  holdsBundle SampleHeap.heap SampleHeap.bundle
    (Sample.bundle (JSString.lit "Deck") [JSString.lit "a"] Bundle.trending 1 0).
Proof.
  eexists _, SampleHeap.cardIDs, SampleHeap.created, SampleHeap.created.
  split; [reflexivity |]. repeat split.
Defined.

Lemma sample_holdsCard :
  holdsCard SampleHeap.heap SampleHeap.card
    (Sample.priced "a" (Some 10%float) None None).
Proof. eexists. split; [reflexivity |]. repeat split. Defined.

Lemma sample_holdsCards :
  holdsCards SampleHeap.heap SampleHeap.cards
    [Sample.priced "a" (Some 10%float) None None].
Proof.
  exists [SampleHeap.card]. split; [reflexivity |].
  apply List.Forall2_cons; [exact sample_holdsCard | apply List.Forall2_nil].
Defined.

(** The bundle ["Deck"] on the sample heap, re-totalled at a given
    time: the call returns a new bundle object with the total 10 and
    that time, and the card's key is ["a||"]. *)
Lemma calls_pure_but_clock_witness :
  (exists (l' : loc) (h' : heap),
      updateBundleTotal SampleHeap.bundle SampleHeap.cards 1730592000000%Z
        SampleHeap.heap
      = Some (Normal l', h')
      /\ holdsBundle h' l'
           {| Bundle.id := JSString.lit "bundle-123";
              Bundle.name := JSString.lit "Deck";
              Bundle.cardIDs := [JSString.lit "a"];
              Bundle.pricingStrategy := Bundle.trending;
              Bundle.percentageMultiplier := 1;
              Bundle.calculatedTotal := 10;
              Bundle.notes := None;
              Bundle.createdAt := 0%Z;
              Bundle.lastModified := 1730592000000%Z |})
  /\ getCardIdentifier SampleHeap.card 0%Z SampleHeap.heap
     = Some (Normal (JSString.lit "a||"), SampleHeap.heap).
Proof.
  destruct calls_pure_but_clock as (_ & _ & _ & H).
  destruct (H SampleHeap.heap SampleHeap.bundle SampleHeap.cards SampleHeap.card
              (Sample.bundle (JSString.lit "Deck") [JSString.lit "a"]
                 Bundle.trending 1 0)
              [Sample.priced "a" (Some 10%float) None None]
              (Sample.priced "a" (Some 10%float) None None)
              Bundle.trending 1%float 1730592000000%Z
              sample_holdsBundle sample_holdsCards sample_holdsCard)
    as (_ & _ & (h' & Hu) & _ & _ & _).
  destruct (H SampleHeap.heap SampleHeap.bundle SampleHeap.cards SampleHeap.card
              (Sample.bundle (JSString.lit "Deck") [JSString.lit "a"]
                 Bundle.trending 1 0)
              [Sample.priced "a" (Some 10%float) None None]
              (Sample.priced "a" (Some 10%float) None None)
              Bundle.trending 1%float 0%Z
              sample_holdsBundle sample_holdsCards sample_holdsCard)
    as (_ & _ & _ & _ & _ & Hk).
  split; [| exact Hk].
  destruct Hu as (l' & Hrun & Hb). exists l', h'. split; [exact Hrun | exact Hb].
Defined.

End Calls.
